(** * The chat core of the photo-sharing backend

    A shallow embedding of [app/api/v1/endpoints/chat.py] together with the
    parts of [app/core/security.py], [app/services/cache_service.py],
    [app/api/deps.py], [app/api/v1/endpoints/auth.py], [app/models/chat.py]
    and [app/schemas/chat.py] it relies on.

    Python values that stay dynamically typed in the source (the claims of a
    decoded token, the fields of an inbound JSON frame, the keys of the
    connection dictionary) are values of [pyval].  The handlers are state
    transformers over a [World], written in a small monad in which an
    exception keeps the state reached so far.

    What the repository leaves to the database engine is left to it here:
    the order among rows of equal [created_at] is that of any [OrderBy],
    and a negative offset or limit is read as the [dialect] reads it. *)

From Stdlib Require Import ZArith String Ascii List Lia Sorted Permutation.
From stdpp Require Import base decidable option countable gmap list strings
  sorting pretty.

Open Scope Z_scope.

(** ** Python values *)

(** The scalar JSON values: [None], integers and strings.  These are the
    field types of [WSMessage] in [schemas/chat.py]. *)
Inductive pyval : Type :=
  | PNone
  | PInt (z : Z)
  | PStr (s : string).

#[global] Instance pyval_eq_dec : EqDecision pyval.
Proof. solve_decision. Defined.

Definition pyval_to_sum (v : pyval) : unit + (Z + string) :=
  match v with
  | PNone => inl tt
  | PInt z => inr (inl z)
  | PStr s => inr (inr s)
  end.

Definition pyval_of_sum (x : unit + (Z + string)) : pyval :=
  match x with
  | inl _ => PNone
  | inr (inl z) => PInt z
  | inr (inr s) => PStr s
  end.

#[global] Instance pyval_countable : Countable pyval.
Proof.
  apply (inj_countable' pyval_to_sum pyval_of_sum).
  intros []; reflexivity.
Defined.

(** Truth value of a Python object, as tested by [if x:] and [not x]. *)
Definition truthy (v : pyval) : bool :=
  match v with
  | PNone => false
  | PInt z => negb (z =? 0)
  | PStr s => negb (String.eqb s "")
  end.

(** [str(x)]. *)
Definition py_str (v : pyval) : string :=
  match v with
  | PNone => "None"
  | PInt z => pretty z
  | PStr s => s
  end.

(** A JSON object, or a claims dictionary: [d.get(k)] is [None] when the
    key is absent. *)
Abbreviation pydict := (gmap string pyval).

Definition get (d : pydict) (k : string) : pyval := default PNone (d !! k).

(** What a field of an inbound frame may hold besides a scalar: an
    array or an object.  Neither can be hashed, so neither can be looked
    up in a dictionary, and the handlers read nothing inside it; [filled]
    tells whether it has an element, which is its truth value. *)
Inductive json : Type :=
  | JScalar (v : pyval)
  | JCompound (filled : bool).

#[global] Instance json_eq_dec : EqDecision json.
Proof. solve_decision. Defined.

Definition json_truthy (j : json) : bool :=
  match j with
  | JScalar v => truthy v
  | JCompound filled => filled
  end.

Definition is_compound (j : json) : bool :=
  match j with
  | JScalar _ => false
  | JCompound _ => true
  end.

(** What [receive_json] gives: a JSON object, or any other JSON value
    (an array, a string, a number, [null]). *)
Inductive received : Type :=
  | RObject (fields : gmap string json)
  | ROther.

(** [data.get(k)] on a received object. *)
Definition json_get (fields : gmap string json) (k : string) : json :=
  default (JScalar PNone) (fields !! k).

(** The scalar fields of a received object. *)
Definition scalars (fields : gmap string json) : pydict :=
  omap (λ j, match j with
             | JScalar v => Some v
             | JCompound _ => None
             end) fields.

(** ** The tables *)

Module ChatMessage.
(** [models/chat.py], class [ChatMessage]. *)
Record t : Type := Build {
  id : Z;
  content : string;
  sender_id : Z;
  receiver_id : Z;
  is_read : bool;
  is_deleted_by_sender : bool;
  is_deleted_by_receiver : bool;
  created_at : Z;
  read_at : option Z
}.

#[global] Instance chat_message_eq_dec : EqDecision t.
Proof. solve_decision. Defined.

(** [message.is_read = True; message.read_at = now]. *)
Definition mark_read (now : Z) (m : t) : t :=
  Build (id m) (content m) (sender_id m) (receiver_id m) true
    (is_deleted_by_sender m) (is_deleted_by_receiver m) (created_at m)
    (Some now).
End ChatMessage.

Module User.
(** The columns of [User] that the chat endpoints read; the primary key is
    the key of the [users] table below. *)
Record t : Type := Build {
  username : string;
  profile_picture : option string
}.
End User.

Module MessageResponse.
(** [schemas/chat.py], class [MessageResponse]. *)
Record t : Type := Build {
  id : Z;
  content : string;
  sender_id : Z;
  receiver_id : Z;
  is_read : bool;
  created_at : Z;
  read_at : option Z
}.

#[global] Instance message_response_eq_dec : EqDecision t.
Proof. solve_decision. Defined.

(** [MessageResponse.model_validate(msg)]. *)
Definition model_validate (m : ChatMessage.t) : t :=
  Build (ChatMessage.id m) (ChatMessage.content m) (ChatMessage.sender_id m)
    (ChatMessage.receiver_id m) (ChatMessage.is_read m)
    (ChatMessage.created_at m) (ChatMessage.read_at m).
End MessageResponse.

Module ConversationResponse.
(** [schemas/chat.py], class [ConversationResponse]. *)
Record t : Type := Build {
  user_id : Z;
  username : string;
  profile_picture : option string;
  last_message : string;
  last_message_time : Z;
  unread_count : Z
}.
End ConversationResponse.

(** ** Sockets and what goes over them *)

(** A connection handle. *)
Definition WebSocket : Type := nat.

(** The outbound frames of [websocket_endpoint] and [send_message_rest].
    Fields that the source copies from a frame or from the token stay
    [pyval]; [created_at] stands for its ISO rendering. *)
Inductive frame : Type :=
  | FMessage (id : Z) (content : pyval) (sender_id : pyval) (created_at : Z)
  | FSent (id : Z) (receiver_id : pyval)
  | FTyping (sender_id : pyval)
  | FRead (message_id : pyval).

(** [status.WS_1008_POLICY_VIOLATION]. *)
Definition WS_1008_POLICY_VIOLATION : Z := 1008.

(** What the handlers do to the outside, in the order they do it. *)
Inductive event : Type :=
  | Closed (ws : WebSocket) (code : Z)
  | Accepted (ws : WebSocket)
  | Sent (ws : WebSocket) (f : frame)
  | Inserted (m : ChatMessage.t)
  | Updated (m : ChatMessage.t).

(** ** The state *)

Record World : Type := mkWorld {
  (** the module-level dictionary [active_connections] *)
  active_connections : gmap pyval WebSocket;
  (** table [chat_messages], in insertion order *)
  chat_messages : list ChatMessage.t;
  (** the sequence behind the primary key of [chat_messages] *)
  next_id : Z;
  (** table [users] by primary key *)
  users : gmap Z User.t;
  (** the Redis keys written by [cache_set]: value and expiry time *)
  cache : gmap string (string * Z);
  (** the sockets whose peer is gone: [send_json] raises on them *)
  hung_up : gset WebSocket;
  (** the events so far, oldest first *)
  trace : list event
}.

Definition set_connections (f : gmap pyval WebSocket → gmap pyval WebSocket)
    (w : World) : World :=
  mkWorld (f (active_connections w)) (chat_messages w) (next_id w) (users w)
    (cache w) (hung_up w) (trace w).

Definition set_messages (f : list ChatMessage.t → list ChatMessage.t)
    (w : World) : World :=
  mkWorld (active_connections w) (f (chat_messages w)) (next_id w) (users w)
    (cache w) (hung_up w) (trace w).

Definition set_cache (f : gmap string (string * Z) → gmap string (string * Z))
    (w : World) : World :=
  mkWorld (active_connections w) (chat_messages w) (next_id w) (users w)
    (f (cache w)) (hung_up w) (trace w).

Definition set_hung_up (s : gset WebSocket) (w : World) : World :=
  mkWorld (active_connections w) (chat_messages w) (next_id w) (users w)
    (cache w) s (trace w).

Definition emit (e : event) (w : World) : World :=
  mkWorld (active_connections w) (chat_messages w) (next_id w) (users w)
    (cache w) (hung_up w) (trace w ++ [e]).

(** ** Computations that may raise *)

Inductive result (A : Type) : Type :=
  | Return (a : A)
  | Raise.
Arguments Return {A} a.
Arguments Raise {A}.

(** A handler step: it ends normally with a value or raises, and in both
    cases leaves the state it reached. *)
Definition io (A : Type) : Type := World → result A * World.

#[global] Instance io_ret : MRet io := λ A a w, (Return a, w).

#[global] Instance io_bind : MBind io := λ A B k c w,
  match c w with
  | (Return a, w') => k a w'
  | (Raise, w') => (Raise, w')
  end.

Definition raise {A : Type} : io A := λ w, (Raise, w).

Definition gets {A : Type} (f : World → A) : io A := λ w, (Return (f w), w).

Definition modify (f : World → World) : io unit := λ w, (Return tt, f w).

(** [try: c except: pass]. *)
Definition try_pass (c : io unit) : io unit := λ w,
  match c w with
  | (Raise, w') => (Return tt, w')
  | r => r
  end.

(** A value that must be there, else the statement raises. *)
Definition must {A : Type} (o : option A) : io A :=
  match o with
  | Some a => mret a
  | None => raise
  end.


(** [for x in l: f(x)]. *)
Fixpoint for_each {A : Type} (f : A → io unit) (l : list A) : io unit :=
  match l with
  | [] => mret tt
  | x :: rest => f x;; for_each f rest
  end.

(** [try: c finally: f]. *)
Definition finally {A : Type} (c : io A) (f : io unit) : io A := λ w,
  match c w with
  | (r, w') => (r, snd (f w'))
  end.

(** ** Helpers shared by the handlers *)

(** [await ws.send_json(f)]: raises when the peer is gone. *)
Definition send_json (ws : WebSocket) (f : frame) : io unit := λ w,
  if bool_decide (ws ∈ hung_up w) then (Raise, w)
  else (Return tt, emit (Sent ws f) w).

(** [db.add(message); await db.commit(); await db.refresh(message)] for a
    new [ChatMessage]: the flags take their column defaults, [created_at]
    the server time, [id] the next value of the sequence. *)
Definition db_add (content : string) (sender_id receiver_id : Z) (now : Z)
    : io ChatMessage.t := λ w,
  let message :=
    ChatMessage.Build (next_id w) content sender_id receiver_id false false
      false now None in
  (Return message,
   emit (Inserted message)
     (mkWorld (active_connections w) (chat_messages w ++ [message])
        (next_id w + 1) (users w) (cache w) (hung_up w) (trace w))).

(** The [UPDATE] that a commit issues for an object whose [is_read] and
    [read_at] were assigned: it addresses the row by primary key. *)
Definition update_read (now : Z) (message_id : Z)
    (rows : list ChatMessage.t) : list ChatMessage.t :=
  map (λ r, if bool_decide (ChatMessage.id r = message_id)
            then ChatMessage.mark_read now r else r) rows.

Definition db_mark_read (now : Z) (m : ChatMessage.t) : io unit :=
  modify (λ w, emit (Updated (ChatMessage.mark_read now m))
                 (set_messages (update_read now (ChatMessage.id m)) w)).

(** [result.scalar_one_or_none()]. *)
Definition scalar_one_or_none {A : Type} (rows : list A) : io (option A) :=
  match rows with
  | [] => mret None
  | [r] => mret (Some r)
  | _ => raise
  end.

(** [.order_by(ChatMessage.created_at.desc())]. *)
Definition newer_first (a b : ChatMessage.t) : Prop :=
  ChatMessage.created_at b ≤ ChatMessage.created_at a.

#[global] Instance newer_first_dec : RelDecision newer_first.
Proof. intros a b. unfold newer_first. apply _. Defined.

#[global] Instance newer_first_trans : Transitive newer_first.
Proof. intros a b c. unfold newer_first. lia. Qed.

#[global] Instance newer_first_total : Total newer_first.
Proof. intros a b. unfold newer_first. lia. Qed.

(** What the store answers to [ORDER BY created_at DESC]: the rows it was
    given, newest first.  SQL leaves the order among rows of equal
    [created_at] to the store, and it may depend on anything the rows
    hold; an instance is any function that sorts. *)
Class OrderBy : Type := {
  order_by_created_at_desc : list ChatMessage.t → list ChatMessage.t;
  order_by_perm rows : order_by_created_at_desc rows ≡ₚ rows;
  order_by_sorted rows :
    StronglySorted newer_first (order_by_created_at_desc rows)
}.

(** A store that sorts by merging: among equal [created_at], the order
    that stdpp's [merge_sort] leaves. *)
#[global] Instance merge_sort_order : OrderBy := {|
  order_by_created_at_desc := merge_sort newer_first;
  order_by_perm := merge_sort_Permutation newer_first;
  order_by_sorted := StronglySorted_merge_sort newer_first
|}.

(** A store that lists the unread rows first among equal [created_at]:
    the order of rows that differ in nothing but the read flag changes
    when one of them is marked. *)
Definition unread_first_order : OrderBy.
Proof.
  refine {|
    order_by_created_at_desc rows :=
      merge_sort newer_first
        (filter (λ m, ChatMessage.is_read m = false) rows
         ++ filter (λ m, ¬ ChatMessage.is_read m = false) rows)
  |}.
  - intros rows. rewrite merge_sort_Permutation.
    apply filter_app_complement.
  - intros rows. apply StronglySorted_merge_sort; apply _.
Defined.

(** The SQL dialect of the engine behind [DATABASE_URL]. *)
Inductive dialect : Type :=
  | SQLite
  | PostgreSQL.

(** [.offset(skip).limit(limit)] on the ordered rows, [None] where the
    engine refuses the statement.  The source hands both integers to the
    query as they come.  SQLite reads a negative [OFFSET] as 0 and a
    negative [LIMIT] as no limit; PostgreSQL refuses either. *)
Definition offset_limit {A : Type} (engine : dialect) (skip limit : Z)
    (rows : list A) : option (list A) :=
  match engine with
  | SQLite =>
      let rest := drop (Z.to_nat skip) rows in
      Some (if bool_decide (limit < 0) then rest
            else take (Z.to_nat limit) rest)
  | PostgreSQL =>
      if bool_decide (skip < 0 ∨ limit < 0) then None
      else Some (take (Z.to_nat limit) (drop (Z.to_nat skip) rows))
  end.

(** [cache_set(key, value, expire)] of [cache_service.py]:
    [client.setex(key, expire, value)]. *)
Definition cache_set (key value : string) (expire : Z) (now : Z) : io unit :=
  modify (set_cache (λ c, <[key := (value, now + expire)]> c)).

(** [set_user_online(user_id)]. *)
Definition set_user_online (user_id : pyval) (now : Z) : io unit :=
  cache_set ("online:" +:+ py_str user_id) "1" 300 now.

(** HTTP outcomes of the REST handlers. *)
Inductive http (A : Type) : Type :=
  | Response (status_code : Z) (body : A)
  | HTTPException (status_code : Z) (detail : string).
Arguments Response {A} status_code body.
Arguments HTTPException {A} status_code detail.

Definition HTTP_200_OK : Z := 200.
Definition HTTP_201_CREATED : Z := 201.
Definition HTTP_400_BAD_REQUEST : Z := 400.
Definition HTTP_404_NOT_FOUND : Z := 404.

Section Chat.

(** ** Collaborators outside the repository *)

(** [jose.jwt]: [jwt_decode] is [None] where [jwt.decode] raises
    [JWTError] (bad signature, expired, malformed). *)
Variable jwt_encode : pydict → string.
Variable jwt_decode : string → option pydict.

(** The database driver: what an [Integer] or a [Text] column receives
    for a Python value bound to it, [None] where the statement raises.
    The source hands it the raw frame fields and the raw subject claim. *)
Variable int_col : pyval → option Z.
Variable text_col : pyval → option string.

(** The database engine: its dialect, and its order among rows of equal
    [created_at]. *)
Variable engine : dialect.
Context {store_order : OrderBy}.

(** ** [core/security.py] *)

Definition ACCESS_TOKEN_EXPIRE_MINUTES : Z := 30.
Definition REFRESH_TOKEN_EXPIRE_DAYS : Z := 7.

(** The claims both token constructors build from [data]:
    [sub] goes through [str], then [exp] and [type] are set. *)
Definition token_claims (data : pydict) (expire : Z) (type : string)
    : pydict :=
  let to_encode :=
    match data !! "sub" with
    | Some sub => <["sub" := PStr (py_str sub)]> data
    | None => data
    end in
  <["type" := PStr type]> (<["exp" := PInt expire]> to_encode).

Definition create_access_token (data : pydict) (now : Z) : string :=
  jwt_encode
    (token_claims data (now + ACCESS_TOKEN_EXPIRE_MINUTES * 60) "access").

Definition create_refresh_token (data : pydict) (now : Z) : string :=
  jwt_encode
    (token_claims data (now + REFRESH_TOKEN_EXPIRE_DAYS * 86400) "refresh").

Definition decode_token (token : string) : option pydict :=
  jwt_decode token.

(** ** [websocket_endpoint] *)

(** Lines 25-39: the token check, then accept and register.  The result
    is the [user_id] the session runs under, [None] when the socket was
    closed instead. *)
Definition websocket_connect (websocket : WebSocket) (token : string)
    (now : Z) : io (option pyval) :=
  let reject :=
    modify (emit (Closed websocket WS_1008_POLICY_VIOLATION));;
    mret None in
  match decode_token token with
  | None => reject
  | Some payload =>
    if bool_decide (payload = ∅)
       || negb (bool_decide (get payload "type" = PStr "access"))
    then reject
    else
      let user_id := get payload "sub" in
      if negb (truthy user_id) then reject
      else
        modify (emit (Accepted websocket));;
        modify (set_connections (λ reg, <[user_id := websocket]> reg));;
        set_user_online user_id now;;
        mret (Some user_id)
  end.

(** Lines 49-86: a frame of type ["message"]. *)
Definition on_message (websocket : WebSocket) (user_id : pyval)
    (data : pydict) (now : Z) : io unit :=
  let receiver_id := get data "receiver_id" in
  let content := get data "content" in
  if negb (truthy receiver_id) || negb (truthy content) then mret tt
  else
    content_col ← must (text_col content);
    sender_col ← must (int_col user_id);
    receiver_col ← must (int_col receiver_id);
    message ← db_add content_col sender_col receiver_col now;
    reg ← gets active_connections;
    match reg !! receiver_id with
    | Some receiver_ws =>
        send_json receiver_ws
          (FMessage (ChatMessage.id message) content user_id
             (ChatMessage.created_at message))
    | None => mret tt
    end;;
    send_json websocket (FSent (ChatMessage.id message) receiver_id).

(** Lines 88-96: a frame of type ["typing"]. *)
Definition on_typing (user_id : pyval) (data : pydict) : io unit :=
  let receiver_id := get data "receiver_id" in
  reg ← gets active_connections;
  if truthy receiver_id then
    match reg !! receiver_id with
    | Some receiver_ws => send_json receiver_ws (FTyping user_id)
    | None => mret tt
    end
  else mret tt.

(** Lines 98-122: a frame of type ["read"]. *)
Definition on_read (user_id : pyval) (data : pydict) (now : Z) : io unit :=
  let message_id := get data "message_id" in
  if truthy message_id then
    id_col ← must (int_col message_id);
    receiver_col ← must (int_col user_id);
    rows ← gets chat_messages;
    found ← scalar_one_or_none
      (filter (λ m, ChatMessage.id m = id_col
                    ∧ ChatMessage.receiver_id m = receiver_col) rows);
    match found with
    | Some message =>
        db_mark_read now message;;
        reg ← gets active_connections;
        match reg !! PInt (ChatMessage.sender_id message) with
        | Some sender_ws => send_json sender_ws (FRead message_id)
        | None => mret tt
        end
    | None => mret tt
    end
  else mret tt.

(** The body of the receive loop for one decoded frame. *)
Definition handle_frame (websocket : WebSocket) (user_id : pyval)
    (data : pydict) (now : Z) : io unit :=
  let message_type := get data "type" in
  if bool_decide (message_type = PStr "message") then
    on_message websocket user_id data now
  else if bool_decide (message_type = PStr "typing") then
    on_typing user_id data
  else if bool_decide (message_type = PStr "read") then
    on_read user_id data now
  else mret tt.

(** The body of the receive loop for whatever [receive_json] gave.
    [data.get] exists on objects only.  A field that is an array or an
    object takes the same path as a scalar up to the first statement
    that needs its value: the truth tests pass it on when it is filled,
    [receiver_id in active_connections] raises [TypeError] on it, and
    the driver binds it to no column of the insert or the select.  Where
    the fields that a branch reads are scalars the branch is the handler
    above. *)
Definition handle_received (websocket : WebSocket) (user_id : pyval)
    (data : received) (now : Z) : io unit :=
  match data with
  | ROther => raise
  | RObject fields =>
      let data := scalars fields in
      let message_type := json_get fields "type" in
      if bool_decide (message_type = JScalar (PStr "message")) then
        let receiver_id := json_get fields "receiver_id" in
        let content := json_get fields "content" in
        if negb (json_truthy receiver_id) || negb (json_truthy content)
        then mret tt
        else if is_compound receiver_id || is_compound content then raise
        else on_message websocket user_id data now
      else if bool_decide (message_type = JScalar (PStr "typing")) then
        let receiver_id := json_get fields "receiver_id" in
        if json_truthy receiver_id then
          if is_compound receiver_id then raise
          else on_typing user_id data
        else mret tt
      else if bool_decide (message_type = JScalar (PStr "read")) then
        let message_id := json_get fields "message_id" in
        if json_truthy message_id then
          if is_compound message_id then raise
          else on_read user_id data now
        else mret tt
      else mret tt
  end.

(** [while True: data = await websocket.receive_json(); ...] over the
    frames the peer sends, each with the time it is handled at; when they
    are exhausted the peer disconnects and [receive_json] raises. *)
Fixpoint receive_loop (websocket : WebSocket) (user_id : pyval)
    (inbox : list (pydict * Z)) : io unit :=
  match inbox with
  | [] => raise
  | (data, now) :: rest =>
      handle_frame websocket user_id data now;;
      receive_loop websocket user_id rest
  end.

(** Lines 126-129, the [finally] block. *)
Definition remove_connection (user_id : pyval) : io unit :=
  modify (set_connections (λ reg,
    if bool_decide (is_Some (reg !! user_id)) then delete user_id reg
    else reg)).

(** The whole coroutine.  Whether the exception that ends the loop is
    [WebSocketDisconnect] (passed over) or another one (re-raised after
    the [finally] block) is not told apart: the state is the same. *)
Definition websocket_endpoint (websocket : WebSocket) (token : string)
    (now : Z) (inbox : list (pydict * Z)) : io unit :=
  session ← websocket_connect websocket token now;
  match session with
  | None => mret tt
  | Some user_id =>
      finally (receive_loop websocket user_id inbox)
        (remove_connection user_id)
  end.

(** ** The REST endpoints

    [current_user] is the primary key of the row that the dependency
    [get_current_verified_user] loaded from [users]. *)

(** The counterpart of [current_user] in a message (line 155). *)
Definition other_user_id_of (current_user : Z) (message : ChatMessage.t)
    : Z :=
  if bool_decide (ChatMessage.sender_id message = current_user)
  then ChatMessage.receiver_id message
  else ChatMessage.sender_id message.

(** The [where] clause of line 142. *)
Definition involves (current_user : Z) (m : ChatMessage.t) : Prop :=
  ChatMessage.sender_id m = current_user
  ∨ ChatMessage.receiver_id m = current_user.

(** The [where] clause of line 160. *)
Definition unread_from (other_user_id current_user : Z)
    (m : ChatMessage.t) : Prop :=
  ChatMessage.sender_id m = other_user_id
  ∧ ChatMessage.receiver_id m = current_user
  ∧ ChatMessage.is_read m = false.

(** The [where] clause of line 209. *)
Definition between (current_user other_user_id : Z) (m : ChatMessage.t)
    : Prop :=
  (ChatMessage.sender_id m = current_user
   ∧ ChatMessage.receiver_id m = other_user_id)
  ∨ (ChatMessage.sender_id m = other_user_id
     ∧ ChatMessage.receiver_id m = current_user).

(** [message.content[:50]]; a character of the model stands for a code
    point of the Python string. *)
Definition first_50 (content : string) : string :=
  String.substring 0 50 content.

(** The dictionary [conversations]: a Python dictionary lists its keys
    in the order they were first inserted. *)
Abbreviation conversations_dict := (list (Z * ConversationResponse.t)).

Definition dict_contains {V : Type} (d : list (Z * V)) (k : Z) : bool :=
  bool_decide (k ∈ d.*1).

(** One round of the loop of lines 154-181. *)
Definition conversations_step (current_user : Z)
    (rows : list ChatMessage.t) (us : gmap Z User.t)
    (conversations : conversations_dict) (message : ChatMessage.t)
    : conversations_dict :=
  let other_user_id := other_user_id_of current_user message in
  if dict_contains conversations other_user_id then conversations
  else
    let unread_count :=
      Z.of_nat (length (filter (unread_from other_user_id current_user)
                          rows)) in
    match us !! other_user_id with
    | Some other_user =>
        conversations ++
          [(other_user_id,
            ConversationResponse.Build other_user_id
              (User.username other_user) (User.profile_picture other_user)
              (first_50 (ChatMessage.content message))
              (ChatMessage.created_at message)
              (if bool_decide (unread_count = 0) then 0 else unread_count))]
    | None => conversations
    end.

(** [get_conversations], lines 132-183. *)
Definition get_conversations (current_user : Z)
    : io (http (list ConversationResponse.t)) :=
  rows ← gets chat_messages;
  us ← gets users;
  let messages :=
    order_by_created_at_desc (filter (involves current_user) rows) in
  let conversations :=
    foldl (conversations_step current_user rows us) [] messages in
  mret (Response HTTP_200_OK conversations.*2).

(** The test of line 229. *)
Definition to_mark (current_user : Z) (m : ChatMessage.t) : Prop :=
  ChatMessage.receiver_id m = current_user ∧ ChatMessage.is_read m = false.

(** The loop of lines 228-231 on the loaded objects. *)
Definition mark_fetched (current_user now : Z) (m : ChatMessage.t)
    : ChatMessage.t :=
  if bool_decide (to_mark current_user m) then ChatMessage.mark_read now m
  else m.

(** [get_chat_history], lines 186-236.  [skip] and [limit] are the
    query parameters, any integers: the route declares no bound, and
    the query that the engine refuses raises. *)
Definition get_chat_history (other_user_id : Z) (skip limit : Z)
    (current_user : Z) (now : Z) : io (http (list MessageResponse.t)) :=
  us ← gets users;
  match us !! other_user_id with
  | None => mret (HTTPException HTTP_404_NOT_FOUND "User not found")
  | Some _ =>
      rows ← gets chat_messages;
      messages ← must
        (offset_limit engine skip limit
           (order_by_created_at_desc
              (filter (between current_user other_user_id) rows)));
      for_each (db_mark_read now) (filter (to_mark current_user) messages);;
      mret (Response HTTP_200_OK
              (MessageResponse.model_validate
                 <$> reverse (mark_fetched current_user now <$> messages)))
  end.

(** [send_message_rest], lines 239-289.  [content] is the field of the
    validated request body [MessageCreate]. *)
Definition send_message_rest (receiver_id : Z) (content : string)
    (current_user : Z) (now : Z) : io (http MessageResponse.t) :=
  us ← gets users;
  match us !! receiver_id with
  | None => mret (HTTPException HTTP_404_NOT_FOUND "Receiver not found")
  | Some _ =>
      if bool_decide (receiver_id = current_user) then
        mret (HTTPException HTTP_400_BAD_REQUEST
                "Cannot send message to yourself")
      else
        message ← db_add content current_user receiver_id now;
        reg ← gets active_connections;
        match reg !! PInt receiver_id with
        | Some receiver_ws =>
            try_pass
              (send_json receiver_ws
                 (FMessage (ChatMessage.id message)
                    (PStr (ChatMessage.content message))
                    (PInt current_user) (ChatMessage.created_at message)))
        | None => mret tt
        end;;
        mret (Response HTTP_201_CREATED
                (MessageResponse.model_validate message))
  end.

(** ** Reference definitions, in the words of the specification *)

(** The unread count of a pair, computed from the Message Store alone:
    the messages from [counterpart] to [viewer] with the read flag
    unset. *)
Definition store_unread_count (rows : list ChatMessage.t)
    (viewer counterpart : Z) : Z :=
  Z.of_nat (length (filter (λ m, ChatMessage.sender_id m = counterpart
                                 ∧ ChatMessage.receiver_id m = viewer
                                 ∧ ChatMessage.is_read m = false) rows)).

(** A message of the pair: one of the two sent it to the other. *)
Definition exchanged (viewer counterpart : Z) (m : ChatMessage.t) : Prop :=
  (ChatMessage.sender_id m = viewer
   ∧ ChatMessage.receiver_id m = counterpart)
  ∨ (ChatMessage.sender_id m = counterpart
     ∧ ChatMessage.receiver_id m = viewer).

(** The messages that are the first of their counterpart in a sequence,
    in the order of the sequence; [seen] are the counterparts met
    before. *)
Fixpoint first_seen (viewer : Z) (seen : list Z)
    (messages : list ChatMessage.t) : list ChatMessage.t :=
  match messages with
  | [] => []
  | m :: rest =>
      let c := other_user_id_of viewer m in
      if bool_decide (c ∈ seen) then first_seen viewer seen rest
      else m :: first_seen viewer (c :: seen) rest
  end.

(** The summary of the conversation that [m] is the latest message of;
    none when the counterpart has no row in [users]. *)
Definition summary_of (viewer : Z) (rows : list ChatMessage.t)
    (us : gmap Z User.t) (m : ChatMessage.t)
    : option ConversationResponse.t :=
  let c := other_user_id_of viewer m in
  u ← us !! c;
  Some (ConversationResponse.Build c (User.username u)
          (User.profile_picture u) (first_50 (ChatMessage.content m))
          (ChatMessage.created_at m) (store_unread_count rows viewer c)).

(** A token is good for a live connection: it decodes, its type claim is
    ["access"], and its subject claim is not empty. *)
Definition token_accepted (token : string) (user_id : pyval) : Prop :=
  ∃ payload, decode_token token = Some payload
    ∧ payload !! "type" = Some (PStr "access")
    ∧ get payload "sub" = user_id
    ∧ truthy user_id = true.

(** Latest conversation first, on the summaries. *)
Definition latest_first (a b : ConversationResponse.t) : Prop :=
  ConversationResponse.last_message_time b
  ≤ ConversationResponse.last_message_time a.

(** Oldest first, on the response objects. *)
Definition chronological (a b : MessageResponse.t) : Prop :=
  MessageResponse.created_at a ≤ MessageResponse.created_at b.

(** The primary key of [chat_messages] is unique. *)
Definition unique_ids (w : World) : Prop :=
  NoDup (ChatMessage.id <$> chat_messages w).

(** ** Sample collaborators *)

Definition digit_of (c : ascii) : option Z :=
  let n := Z.of_nat (nat_of_ascii c) in
  if bool_decide (48 ≤ n ≤ 57) then Some (n - 48) else None.

Fixpoint digits_value (acc : Z) (s : string) : option Z :=
  match s with
  | EmptyString => Some acc
  | String c rest => d ← digit_of c; digits_value (10 * acc + d) rest
  end.

(** A driver that takes integers as they are and converts the strings
    that spell a natural number. *)
Definition coercing_int_col (v : pyval) : option Z :=
  match v with
  | PInt z => Some z
  | PStr EmptyString => None
  | PStr s => digits_value 0 s
  | PNone => None
  end.

(** A driver that takes only integers. *)
Definition strict_int_col (v : pyval) : option Z :=
  match v with
  | PInt z => Some z
  | _ => None
  end.

Definition plain_text_col (v : pyval) : option string :=
  match v with
  | PStr s => Some s
  | _ => None
  end.

(** A token codec without signature or expiry check: the token spells
    the subject, the type and the expiry, joined by colons. *)
Definition plain_jwt_encode (claims : pydict) : string :=
  py_str (get claims "sub") +:+ ":" +:+ py_str (get claims "type")
    +:+ ":" +:+ py_str (get claims "exp").

Definition field_until_colon (s : string) : string * string :=
  match String.index 0 ":" s with
  | Some i => (String.substring 0 i s,
               String.substring (S i) (String.length s - S i) s)
  | None => (s, "")
  end.

Definition plain_jwt_decode (token : string) : option pydict :=
  let '(sub, rest) := field_until_colon token in
  let '(type, exp) := field_until_colon rest in
  e ← digits_value 0 exp;
  Some (<["type" := PStr type]> (<["exp" := PInt e]>
          ({["sub" := PStr sub]} : pydict))).

Definition empty_world : World :=
  mkWorld ∅ [] 1 ∅ ∅ ∅ [].

(** The world after a connection was accepted. *)
Definition registered (websocket : WebSocket) (user_id : pyval) (now : Z)
    (w : World) : World :=
  set_cache (λ c, <["online:" +:+ py_str user_id := ("1", now + 300)]> c)
    (set_connections (λ reg, <[user_id := websocket]> reg)
       (emit (Accepted websocket) w)).

(** ** Sample data *)

Definition sample_users : gmap Z User.t :=
  {[ 1 := User.Build "alice" None;
     2 := User.Build "bob" (Some "bob.png");
     3 := User.Build "carol" None ]}.

Definition sample_long_text : string :=
  "0123456789012345678901234567890123456789012345678901234567890123456789".

Definition sample_rows : list ChatMessage.t :=
  [ ChatMessage.Build 1 "hi" 1 2 true false false 10 (Some 100);
    ChatMessage.Build 2 "hello" 2 1 false false false 20 None;
    ChatMessage.Build 3 sample_long_text 3 1 false false false 30 None ].

(** Sockets 7 and 8 are registered the way [websocket_connect] does it
    for the users 1 and 2. *)
Definition sample_world : World :=
  mkWorld {[ PStr "1" := 7%nat; PStr "2" := 8%nat ]} sample_rows 4
    sample_users ∅ ∅ [].

(** Socket 8 is registered under the integer 2 and its peer is gone. *)
Definition sample_stale_world : World :=
  mkWorld {[ PInt 2 := 8%nat ]} sample_rows 4 sample_users ∅ {[ 8%nat ]} [].

Definition sample_message_frame : pydict :=
  {[ "type" := PStr "message"; "receiver_id" := PInt 2;
     "content" := PStr "see you" ]}.

Definition sample_empty_frame : pydict :=
  {[ "type" := PStr "message"; "receiver_id" := PInt 2;
     "content" := PStr "" ]}.

Definition sample_self_frame : pydict :=
  {[ "type" := PStr "message"; "receiver_id" := PInt 1;
     "content" := PStr "note to self" ]}.

Definition sample_read_frame : pydict :=
  {[ "type" := PStr "read"; "message_id" := PInt 1 ]}.

(** ** More collaborators outside the repository *)

(** Python's built-in [int] on a value: [None] where it raises
    [ValueError] or [TypeError]. *)
Variable py_int : pyval → option Z.

(** [json.loads] on a string: [None] where it raises. *)
Variable json_loads : string → option pyval.

(** The columns [is_active] and [is_verified] of [users], by primary
    key. *)
Variable is_active : Z → bool.
Variable is_verified : Z → bool.

(** ** [api/deps.py] *)

Definition HTTP_401_UNAUTHORIZED : Z := 401.
Definition HTTP_403_FORBIDDEN : Z := 403.

(** What a dependency gives the endpoint: its value, or the
    [HTTPException] it raised. *)
Inductive dependency (A : Type) : Type :=
  | Resolved (a : A)
  | Denied (status_code : Z) (detail : string).
#[global] Arguments Resolved {A} a.
#[global] Arguments Denied {A} status_code detail.

(** [get_current_user], lines 15-69; [token] is [credentials.credentials].
    The user is given as primary key and row. *)
Definition get_current_user (token : string) (w : World)
    : dependency (Z * User.t) :=
  match decode_token token with
  | None =>
      Denied HTTP_401_UNAUTHORIZED "Invalid authentication credentials"
  | Some payload =>
    if bool_decide (payload = ∅) then
      Denied HTTP_401_UNAUTHORIZED "Invalid authentication credentials"
    else if negb (bool_decide (get payload "type" = PStr "access")) then
      Denied HTTP_401_UNAUTHORIZED "Invalid token type"
    else
      let user_id := get payload "sub" in
      if negb (truthy user_id) then
        Denied HTTP_401_UNAUTHORIZED "Invalid token payload"
      else
        match py_int user_id with
        | None => Denied HTTP_401_UNAUTHORIZED "Invalid token payload"
        | Some user_id =>
            match users w !! user_id with
            | None => Denied HTTP_401_UNAUTHORIZED "User not found"
            | Some user =>
                if negb (is_active user_id) then
                  Denied HTTP_403_FORBIDDEN "User account is inactive"
                else Resolved (user_id, user)
            end
        end
  end.

(** [get_current_verified_user], lines 72-81, behind
    [Depends(get_current_user)]. *)
Definition get_current_verified_user (token : string) (w : World)
    : dependency (Z * User.t) :=
  match get_current_user token w with
  | Denied status_code detail => Denied status_code detail
  | Resolved (user_id, user) =>
      if negb (is_verified user_id) then
        Denied HTTP_403_FORBIDDEN
          "Email not verified. Please verify your email first."
      else Resolved (user_id, user)
  end.

(** [get_optional_current_user], lines 84-116; [credentials] is [None]
    when the request carries no bearer token. *)
Definition get_optional_current_user (credentials : option string)
    (w : World) : option (Z * User.t) :=
  match credentials with
  | None => None
  | Some token =>
    match decode_token token with
    | None => None
    | Some payload =>
      if bool_decide (payload = ∅)
         || negb (bool_decide (get payload "type" = PStr "access"))
      then None
      else
        let user_id := get payload "sub" in
        if negb (truthy user_id) then None
        else
          match py_int user_id with
          | None => None
          | Some user_id =>
              match users w !! user_id with
              | Some user =>
                  if is_active user_id then Some (user_id, user) else None
              | None => None
              end
          end
    end
  end.

(** A route whose endpoint declares
    [current_user: User = Depends(get_current_verified_user)]: the
    exception of the dependency is the answer, else the endpoint runs
    with the resolved user. *)
Definition with_verified_user {A : Type} (token : string)
    (endpoint : Z → io (http A)) : io (http A) := λ w,
  match get_current_verified_user token w with
  | Denied status_code detail =>
      (Return (HTTPException status_code detail), w)
  | Resolved (current_user, _) => endpoint current_user w
  end.

(** [POST /messages/{receiver_id}], [GET /messages/{other_user_id}] and
    [GET /conversations] as requests with a bearer token. *)
Definition route_send_message_rest (token : string) (receiver_id : Z)
    (content : string) (now : Z) : io (http MessageResponse.t) :=
  with_verified_user token
    (λ current_user, send_message_rest receiver_id content current_user now).

Definition route_get_chat_history (token : string) (other_user_id : Z)
    (skip limit : Z) (now : Z) : io (http (list MessageResponse.t)) :=
  with_verified_user token
    (λ current_user,
       get_chat_history other_user_id skip limit current_user now).

Definition route_get_conversations (token : string)
    : io (http (list ConversationResponse.t)) :=
  with_verified_user token get_conversations.

(** ** [api/v1/endpoints/auth.py], [refresh_token] *)

(** Lines 232-275.  The answer carries the new access token and the
    token type. *)
Definition refresh_token (token : string) (now : Z) (w : World)
    : http (string * string) :=
  match decode_token token with
  | None => HTTPException HTTP_401_UNAUTHORIZED "Invalid refresh token"
  | Some payload =>
    if bool_decide (payload = ∅)
       || negb (bool_decide (get payload "type" = PStr "refresh"))
    then HTTPException HTTP_401_UNAUTHORIZED "Invalid refresh token"
    else
      match py_int (get payload "sub") with
      | None => HTTPException HTTP_401_UNAUTHORIZED "Invalid token payload"
      | Some user_id =>
          match users w !! user_id with
          | None => HTTPException HTTP_401_UNAUTHORIZED "Invalid user"
          | Some user =>
              if negb (is_active user_id) then
                HTTPException HTTP_401_UNAUTHORIZED "Invalid user"
              else
                Response HTTP_200_OK
                  (create_access_token {["sub" := PInt user_id]} now,
                   "bearer")
          end
      end
  end.

(** The tokens [login] makes for a user (lines 222-223). *)
Definition login_tokens (user_id : Z) (now : Z) : string * string :=
  (create_access_token {["sub" := PInt user_id]} now,
   create_refresh_token {["sub" := PInt user_id]} now).

(** ** [services/cache_service.py] *)

(** [client.get(key)]: the value, unless the key is absent or its time
    to live has run out. *)
Definition redis_get (key : string) (now : Z) : io (option string) :=
  gets (λ w, match cache w !! key with
             | Some (value, expiry) =>
                 if bool_decide (now ≤ expiry) then Some value else None
             | None => None
             end).

(** [cache_get(key)], lines 39-48; Python's [None] is [PNone]. *)
Definition cache_get (key : string) (now : Z) : io pyval :=
  value ← redis_get key now;
  match value with
  | Some value =>
      if negb (String.eqb value "") then
        match json_loads value with
        | Some parsed => mret parsed
        | None => mret (PStr value)
        end
      else mret PNone
  | None => mret PNone
  end.

(** [cache_delete(key)]. *)
Definition cache_delete (key : string) : io unit :=
  modify (set_cache (λ c, delete key c)).

(** Lines 66-78. *)
Definition store_verification_code (email code : string)
    (expire_minutes : Z) (now : Z) : io unit :=
  cache_set ("verification:" +:+ email) code (expire_minutes * 60) now.

Definition get_verification_code (email : string) (now : Z) : io pyval :=
  cache_get ("verification:" +:+ email) now.

Definition delete_verification_code (email : string) : io unit :=
  cache_delete ("verification:" +:+ email).

(** Lines 82-94. *)
Definition store_reset_token (email token : string) (expire_minutes : Z)
    (now : Z) : io unit :=
  cache_set ("reset_token:" +:+ token) email (expire_minutes * 60) now.

Definition get_reset_token_email (token : string) (now : Z) : io pyval :=
  cache_get ("reset_token:" +:+ token) now.

Definition delete_reset_token (token : string) : io unit :=
  cache_delete ("reset_token:" +:+ token).

(** [is_user_online(user_id)], lines 103-106. *)
Definition is_user_online (user_id : pyval) (now : Z) : io bool :=
  value ← cache_get ("online:" +:+ py_str user_id) now;
  mret (negb (bool_decide (value = PNone))).

(** ** [core/security.py], [generate_verification_code] *)

(** [string.digits]. *)
Definition digits : string := "0123456789".

(** [secrets.choice(seq)] when the generator draws [r]: the element at
    [r] reduced below [len(seq)]; none for an empty sequence, where
    [choice] raises. *)
Definition choice (seq : string) (r : nat) : option ascii :=
  String.get (r mod String.length seq) seq.

(** [''.join(secrets.choice(string.digits) for _ in range(6))], for the
    draws [draws 0], ..., [draws 5]. *)
Definition generate_verification_code (draws : nat → nat) : string :=
  string_of_list_ascii
    (omap (λ k, choice digits (draws k)) (seq 0 6)).

Definition is_digit (c : ascii) : Prop :=
  (48 ≤ nat_of_ascii c ≤ 57)%nat.

(** A token names the account [user_id] with row [user]: it decodes,
    its type claim is ["access"], its subject claim is not empty and
    [int] turns it into the primary key of an active user. *)
Definition resolves_to (token : string) (w : World) (user_id : Z)
    (user : User.t) : Prop :=
  ∃ payload, decode_token token = Some payload
    ∧ payload !! "type" = Some (PStr "access")
    ∧ truthy (get payload "sub") = true
    ∧ py_int (get payload "sub") = Some user_id
    ∧ users w !! user_id = Some user
    ∧ is_active user_id = true.

(** ** How the state may change *)

(** A row and what a handler may have made of it: the same row, or the
    row marked read. *)
Definition marked (r r' : ChatMessage.t) : Prop :=
  r' = r ∨ ∃ now, r' = ChatMessage.mark_read now r.

(** The table only grows: its rows stay, up to read marks, and new rows
    come after them. *)
Definition grows (rows rows' : list ChatMessage.t) : Prop :=
  ∃ kept new, rows' = kept ++ new ∧ Forall2 marked rows kept.

(** The primary key is unique and was drawn from the sequence. *)
Definition store_ok (w : World) : Prop :=
  unique_ids w
  ∧ Forall (λ m, ChatMessage.id m < next_id w) (chat_messages w).

(** What a frame handler or a REST endpoint may do to the state: nothing
    to the registry, the users, the cache and the sockets; to the
    messages, only the changes of [grows]. *)
Definition evolves (w w' : World) : Prop :=
  active_connections w' = active_connections w
  ∧ users w' = users w
  ∧ cache w' = cache w
  ∧ hung_up w' = hung_up w
  ∧ grows (chat_messages w) (chat_messages w')
  ∧ next_id w ≤ next_id w'
  ∧ (store_ok w → store_ok w')
  ∧ trace w `prefix_of` trace w'.

(** Every row of [rows] is still there, at its place, with its text, its
    parties and its time, and read if it was read. *)
Definition keeps_history (rows rows' : list ChatMessage.t) : Prop :=
  ∀ i r, rows !! i = Some r →
    ∃ r', rows' !! i = Some r'
      ∧ ChatMessage.id r' = ChatMessage.id r
      ∧ ChatMessage.content r' = ChatMessage.content r
      ∧ ChatMessage.sender_id r' = ChatMessage.sender_id r
      ∧ ChatMessage.receiver_id r' = ChatMessage.receiver_id r
      ∧ ChatMessage.created_at r' = ChatMessage.created_at r
      ∧ (ChatMessage.is_read r = true → ChatMessage.is_read r' = true).

(** A computation keeps [R] between the state it starts in and the
    state it leaves, however it ends. *)
Definition preserves {A : Type} (R : relation World) (c : io A) : Prop :=
  ∀ w, R w (c w).2.

(** Every key of the registry is a string. *)
Definition string_keys (reg : gmap pyval WebSocket) : Prop :=
  ∀ k ws, reg !! k = Some ws → ∃ s, k = PStr s.

(** ** More sample collaborators *)

(** [int] on integers and on strings of decimal digits with an optional
    minus sign. *)
Definition sample_py_int (v : pyval) : option Z :=
  match v with
  | PInt z => Some z
  | PStr (String "-" (String c rest)) =>
      Z.opp <$> digits_value 0 (String c rest)
  | PStr (String c rest) => digits_value 0 (String c rest)
  | _ => None
  end.

(** [json.loads] on the literals [null] and the natural numbers without
    leading zero. *)
Definition sample_json_loads (s : string) : option pyval :=
  match s with
  | "null" => Some PNone
  | "0" => Some (PInt 0)
  | String "0" _ => None
  | EmptyString => None
  | _ => PInt <$> digits_value 0 s
  end.

(** User 3 is deactivated, user 2 has not verified the email address. *)
Definition sample_is_active (user_id : Z) : bool :=
  negb (user_id =? 3).

Definition sample_is_verified (user_id : Z) : bool :=
  negb (user_id =? 2).

(** ** More sample data *)

Definition sample_typing_frame : pydict :=
  {[ "type" := PStr "typing"; "receiver_id" := PStr "2" ]}.

Definition sample_ping_frame : pydict :=
  {[ "type" := PStr "ping" ]}.

(** A message to an id that no user has. *)
Definition sample_stranger_frame : pydict :=
  {[ "type" := PStr "message"; "receiver_id" := PInt 99;
     "content" := PStr "anyone?" ]}.

(** The sample world after the session of user 1 handled
    [sample_stranger_frame] at 50: the new row has no counterpart in
    [users]. *)
Definition sample_dangling_world : World :=
  mkWorld {[ PStr "1" := 7%nat; PStr "2" := 8%nat ]}
    (sample_rows
     ++ [ChatMessage.Build 4 "anyone?" 1 99 false false false 50 None])
    5 sample_users ∅ ∅
    [ Inserted (ChatMessage.Build 4 "anyone?" 1 99 false false false 50 None);
      Sent 7%nat (FSent 4 (PInt 99)) ].

(** Two messages from user 2 to user 1 of the same time, the first one
    read. *)
Definition sample_tied_world : World :=
  mkWorld ∅
    [ ChatMessage.Build 1 "one" 2 1 true false false 10 (Some 15);
      ChatMessage.Build 2 "two" 2 1 false false false 10 None ]
    3 sample_users ∅ ∅ [].

(** A typing frame whose [receiver_id] is the array [[2]]. *)
Definition sample_array_frame : received :=
  RObject {[ "type" := JScalar (PStr "typing");
             "receiver_id" := JCompound true ]}.

(** A typing frame whose [receiver_id] is the empty array. *)
Definition sample_empty_array_frame : received :=
  RObject {[ "type" := JScalar (PStr "typing");
             "receiver_id" := JCompound false ]}.

(** ** Running a computation *)

Lemma run_bind {A B : Type} (c : io A) (k : A → io B) (w : World) :
  (c ≫= k) w = match c w with
               | (Return a, w') => k a w'
               | (Raise, w') => (Raise, w')
               end.
Proof. reflexivity. Qed.

Lemma run_ret {A : Type} (a : A) (w : World) :
  (mret a : io A) w = (Return a, w).
Proof. reflexivity. Qed.

Lemma run_gets {A : Type} (f : World → A) (w : World) :
  gets f w = (Return (f w), w).
Proof. reflexivity. Qed.

Lemma run_modify (f : World → World) (w : World) :
  modify f w = (Return tt, f w).
Proof. reflexivity. Qed.

Lemma run_must_Some {A : Type} (a : A) (w : World) :
  must (Some a) w = (Return a, w).
Proof. reflexivity. Qed.

Lemma run_send_json (ws : WebSocket) (f : frame) (w : World) :
  ws ∉ hung_up w → send_json ws f w = (Return tt, emit (Sent ws f) w).
Proof. intros H. unfold send_json. by rewrite bool_decide_eq_false_2. Qed.

Lemma run_send_json_hung_up (ws : WebSocket) (f : frame) (w : World) :
  ws ∈ hung_up w → send_json ws f w = (Raise, w).
Proof. intros H. unfold send_json. by rewrite bool_decide_eq_true_2. Qed.

Ltac run :=
  repeat first
    [ rewrite run_bind | rewrite run_ret | rewrite run_gets
    | rewrite run_modify | rewrite run_must_Some ]; cbn beta iota.

(** ** The token check *)

Lemma get_Some (d : pydict) (k : string) (v : pyval) :
  d !! k = Some v → get d k = v.
Proof. unfold get. by intros ->. Qed.

Lemma get_eq_str (d : pydict) (k s : string) :
  get d k = PStr s ↔ d !! k = Some (PStr s).
Proof.
  unfold get. destruct (d !! k) as [v|]; simpl; [|done].
  split; congruence.
Qed.

Lemma connect_accepted websocket token now w user_id :
  token_accepted token user_id →
  websocket_connect websocket token now w
  = (Return (Some user_id), registered websocket user_id now w).
Proof.
  intros (payload & Hdec & Htype & Hsub & Htruthy).
  unfold websocket_connect. rewrite Hdec.
  rewrite (bool_decide_eq_false_2 (payload = ∅)).
  2:{ intros ->. by rewrite lookup_empty in Htype. }
  rewrite (bool_decide_eq_true_2 (get payload "type" = PStr "access")).
  2:{ by apply get_eq_str. }
  rewrite Hsub, Htruthy. reflexivity.
Qed.

Lemma connect_rejected websocket token now w :
  (¬ ∃ user_id, token_accepted token user_id) →
  websocket_connect websocket token now w
  = (Return None, emit (Closed websocket WS_1008_POLICY_VIOLATION) w).
Proof.
  intros Hno. unfold websocket_connect.
  destruct (decode_token token) as [payload|] eqn:Hdec; [|reflexivity].
  destruct (bool_decide (payload = ∅)) eqn:Hemp; [reflexivity|].
  destruct (bool_decide (get payload "type" = PStr "access")) eqn:Hty;
    [|reflexivity].
  destruct (truthy (get payload "sub")) eqn:Hsub; [|reflexivity].
  exfalso. apply Hno. exists (get payload "sub"), payload.
  apply bool_decide_eq_true_1, get_eq_str in Hty. by rewrite Hdec.
Qed.

Lemma token_accepted_dec token :
  (∃ user_id, token_accepted token user_id)
  ∨ ¬ (∃ user_id, token_accepted token user_id).
Proof.
  unfold token_accepted.
  destruct (decode_token token) as [payload|] eqn:Hdec.
  2:{ right. intros (? & ? & ? & _). congruence. }
  destruct (decide (payload !! "type" = Some (PStr "access"))) as [Hty|Hty].
  2:{ right. intros (? & ? & ? & ? & _). congruence. }
  destruct (truthy (get payload "sub")) eqn:Hsub.
  - left. by exists (get payload "sub"), payload.
  - right. intros (? & p & ? & _ & <- & ?). congruence.
Qed.

(** C6.  A live connection attempt registers the session in the presence
    registry and sets the liveness flag exactly when the token decodes,
    its type claim is ["access"] and its subject claim is not empty (for
    a string subject: not the empty string); otherwise the socket is
    closed with the policy-violation code and the registry is left as it
    was. *)
Theorem live_connection_admission (websocket : WebSocket) (token : string)
    (now : Z) (w : World) :
  ((∃ user_id, token_accepted token user_id)
   ↔ ∃ user_id,
       (websocket_connect websocket token now w).1 = Return (Some user_id))
  ∧ (∀ user_id, token_accepted token user_id →
       ∃ w', websocket_connect websocket token now w
             = (Return (Some user_id), w')
         ∧ active_connections w'
           = <[user_id := websocket]> (active_connections w)
         ∧ cache w' !! ("online:" +:+ py_str user_id)
           = Some ("1", now + 300)
         ∧ trace w' = trace w ++ [Accepted websocket])
  ∧ ((¬ ∃ user_id, token_accepted token user_id) →
       ∃ w', websocket_connect websocket token now w = (Return None, w')
         ∧ trace w'
           = trace w ++ [Closed websocket WS_1008_POLICY_VIOLATION]
         ∧ active_connections w' = active_connections w
         ∧ cache w' = cache w)
  ∧ (∀ subject, token_accepted token (PStr subject) → subject ≠ "").
Proof.
  split; [|split; [|split]].
  - split.
    + intros [user_id H]. exists user_id.
      by rewrite (connect_accepted _ _ _ _ _ H).
    + intros [user_id H].
      destruct (token_accepted_dec token) as [Hyes|Hno]; [done|].
      rewrite (connect_rejected _ _ _ _ Hno) in H. discriminate.
  - intros user_id H. eexists. split; [by apply connect_accepted|].
    simpl. split; [done|]. split; [|done]. apply lookup_insert_eq.
  - intros Hno. eexists. split; [by apply connect_rejected|]. done.
  - intros subject (p & _ & _ & _ & Htruthy) ->. discriminate.
Qed.

(** ** The presence registry *)

Lemma remove_connection_lookup user_id w :
  active_connections (remove_connection user_id w).2 !! user_id = None.
Proof.
  unfold remove_connection. simpl. case_bool_decide as H.
  - apply lookup_delete_eq.
  - by apply eq_None_not_Some.
Qed.

Lemma remove_connection_absent user_id w :
  active_connections w !! user_id = None →
  remove_connection user_id w = (Return tt, w).
Proof.
  intros H. unfold remove_connection. rewrite run_modify.
  unfold set_connections. rewrite bool_decide_eq_false_2.
  - by destruct w.
  - rewrite H. by intros [? ?].
Qed.

(** C8.  The registry is a dictionary, so an identity has at most one
    handle in it.  A second connection under the same identity replaces
    the handle of the first, whose socket is not closed; when a session
    ends, by disconnect or by a fault of a frame handler, the entry of its
    identity is removed whichever handle it holds, the one of a newer
    connection included; removing an identity that has no entry changes
    nothing. *)
Theorem presence_registry_single_entry (user_id : pyval)
    (ws1 ws2 : WebSocket) (token1 token2 : string) (t1 t2 : Z)
    (inbox : list (pydict * Z)) (w : World) :
  token_accepted token1 user_id →
  token_accepted token2 user_id →
  let w1 := (websocket_connect ws1 token1 t1 w).2 in
  let w2 := (websocket_connect ws2 token2 t2 w1).2 in
  active_connections w1 !! user_id = Some ws1
  ∧ active_connections w2 !! user_id = Some ws2
  ∧ (∀ h, active_connections w2 !! user_id = Some h → h = ws2)
  ∧ trace w2 = trace w ++ [Accepted ws1; Accepted ws2]
  ∧ active_connections (remove_connection user_id w2).2 !! user_id = None
  ∧ (active_connections w !! user_id = None →
     remove_connection user_id w = (Return tt, w))
  ∧ active_connections (websocket_endpoint ws1 token1 t1 inbox w).2
      !! user_id = None.
Proof.
  intros H1 H2 w1 w2. subst w1 w2.
  rewrite (connect_accepted _ _ _ _ _ H1).
  rewrite (connect_accepted _ _ _ _ _ H2). cbn [snd].
  split; [apply lookup_insert_eq|].
  split; [apply lookup_insert_eq|].
  split.
  { intros h. cbn [registered set_cache set_connections active_connections].
    rewrite lookup_insert_eq. congruence. }
  split.
  { cbn [registered set_cache set_connections emit trace].
    by rewrite <- app_assoc. }
  split; [apply remove_connection_lookup|].
  split; [apply remove_connection_absent|].
  unfold websocket_endpoint. rewrite run_bind.
  rewrite (connect_accepted _ _ _ _ _ H1). unfold finally.
  destruct (receive_loop ws1 user_id inbox _) as [r w']. simpl.
  apply remove_connection_lookup.
Qed.

(** ** Frames of type ["message"] *)

Lemma on_message_dropped websocket user_id data now w :
  truthy (get data "receiver_id") = false
  ∨ truthy (get data "content") = false →
  on_message websocket user_id data now w = (Return tt, w).
Proof.
  intros H. unfold on_message.
  destruct H as [-> | ->]; [done|]. by rewrite orb_true_r.
Qed.

(** The frames a ["message"] frame makes the server send: the forward,
    when the receiver has an entry, then the acknowledgment. *)
Lemma on_message_sent websocket user_id data now w
    content_col sender_col receiver_col :
  truthy (get data "receiver_id") = true →
  truthy (get data "content") = true →
  text_col (get data "content") = Some content_col →
  int_col user_id = Some sender_col →
  int_col (get data "receiver_id") = Some receiver_col →
  websocket ∉ hung_up w →
  (∀ receiver_ws,
     active_connections w !! get data "receiver_id" = Some receiver_ws →
     receiver_ws ∉ hung_up w) →
  let message :=
    ChatMessage.Build (next_id w) content_col sender_col receiver_col
      false false false now None in
  ∃ w', on_message websocket user_id data now w = (Return tt, w')
    ∧ chat_messages w' = chat_messages w ++ [message]
    ∧ active_connections w' = active_connections w
    ∧ trace w'
      = trace w ++ [Inserted message]
        ++ match active_connections w !! get data "receiver_id" with
           | Some receiver_ws =>
               [Sent receiver_ws
                  (FMessage (next_id w) (get data "content") user_id now)]
           | None => []
           end
        ++ [Sent websocket (FSent (next_id w) (get data "receiver_id"))].
Proof.
  intros Hr Hc Htext Hsend Hrecv Hws Hfwd message.
  unfold on_message. rewrite Hr, Hc, Htext, Hsend, Hrecv. simpl.
  run. unfold db_add at 1. run. simpl.
  destruct (active_connections w !! get data "receiver_id")
    as [receiver_ws|] eqn:Hreg.
  - rewrite run_send_json by (by apply Hfwd).
    rewrite run_send_json by done.
    eexists. split; [reflexivity|]. simpl.
    by rewrite <- !app_assoc.
  - rewrite run_ret, run_send_json by done.
    eexists. split; [reflexivity|]. simpl.
    by rewrite <- !app_assoc.
Qed.

Lemma handle_frame_message websocket user_id data now w :
  get data "type" = PStr "message" →
  handle_frame websocket user_id data now w
  = on_message websocket user_id data now w.
Proof. intros H. unfold handle_frame. by rewrite H. Qed.

(** C1, as the code has it.  A ["message"] frame whose [receiver_id] or
    [content] is absent or empty (null, zero, the empty string) is
    dropped: the state is unchanged and nothing is sent.  Otherwise, when
    the store takes the row and the sockets written to are open, the
    message is inserted first, then forwarded to the socket registered
    under the frame's [receiver_id] if there is one, then acknowledged to
    the sender with its new id and the [receiver_id]. *)
Theorem message_frame_handling (websocket : WebSocket) (user_id : pyval)
    (data : pydict) (now : Z) (w : World) :
  get data "type" = PStr "message" →
  (truthy (get data "receiver_id") = false
   ∨ truthy (get data "content") = false →
   handle_frame websocket user_id data now w = (Return tt, w))
  ∧ (truthy (get data "receiver_id") = true →
     truthy (get data "content") = true →
     ∀ content_col sender_col receiver_col,
       text_col (get data "content") = Some content_col →
       int_col user_id = Some sender_col →
       int_col (get data "receiver_id") = Some receiver_col →
       websocket ∉ hung_up w →
       (∀ receiver_ws,
          active_connections w !! get data "receiver_id"
          = Some receiver_ws →
          receiver_ws ∉ hung_up w) →
       let message :=
         ChatMessage.Build (next_id w) content_col sender_col
           receiver_col false false false now None in
       ∃ w', handle_frame websocket user_id data now w = (Return tt, w')
         ∧ chat_messages w' = chat_messages w ++ [message]
         ∧ active_connections w' = active_connections w
         ∧ trace w'
           = trace w ++ [Inserted message]
             ++ match active_connections w !! get data "receiver_id" with
                | Some receiver_ws =>
                    [Sent receiver_ws
                       (FMessage (next_id w) (get data "content") user_id
                          now)]
                | None => []
                end
             ++ [Sent websocket
                   (FSent (next_id w) (get data "receiver_id"))]).
Proof.
  intros Hty. rewrite (handle_frame_message _ _ _ _ _ Hty). split.
  - apply on_message_dropped.
  - intros. by apply on_message_sent.
Qed.

(** ** The REST fallback *)

Lemma send_message_rest_unknown receiver_id content current_user now w :
  users w !! receiver_id = None →
  send_message_rest receiver_id content current_user now w
  = (Return (HTTPException HTTP_404_NOT_FOUND "Receiver not found"), w).
Proof. intros H. unfold send_message_rest. run. by rewrite H. Qed.

Lemma send_message_rest_self content current_user now w :
  is_Some (users w !! current_user) →
  send_message_rest current_user content current_user now w
  = (Return (HTTPException HTTP_400_BAD_REQUEST
               "Cannot send message to yourself"), w).
Proof.
  intros [u H]. unfold send_message_rest. run. rewrite H.
  by rewrite bool_decide_eq_true_2.
Qed.

Lemma send_message_rest_created receiver_id content current_user now w :
  is_Some (users w !! receiver_id) →
  receiver_id ≠ current_user →
  let message :=
    ChatMessage.Build (next_id w) content current_user receiver_id
      false false false now None in
  ∃ w', send_message_rest receiver_id content current_user now w
        = (Return (Response HTTP_201_CREATED
                     (MessageResponse.model_validate message)), w')
    ∧ chat_messages w' = chat_messages w ++ [message]
    ∧ next_id w' = next_id w + 1.
Proof.
  intros [u H] Hne message. unfold send_message_rest. run. rewrite H.
  rewrite bool_decide_eq_false_2 by done. run.
  unfold db_add at 1. run. simpl.
  destruct (active_connections w !! PInt receiver_id) as [receiver_ws|].
  - unfold try_pass, send_json. simpl.
    case_bool_decide; simpl; eexists; (split; [reflexivity|done]).
  - rewrite run_ret. eexists. split; [reflexivity|done].
Qed.

(** C2.  For an authenticated sender, [send_message_rest] answers 404
    and writes nothing when the receiver has no row in [users], answers
    400 and writes nothing when the receiver is the sender, and
    otherwise appends exactly one row and answers 201 with it; the answer
    and the rows are the same whichever sockets have hung up, that is,
    whether the forward to the receiver goes through or raises. *)
Theorem send_message_rest_contract (receiver_id : Z) (content : string)
    (current_user : Z) (now : Z) (w : World) :
  is_Some (users w !! current_user) →
  (users w !! receiver_id = None →
   send_message_rest receiver_id content current_user now w
   = (Return (HTTPException HTTP_404_NOT_FOUND "Receiver not found"), w))
  ∧ (receiver_id = current_user →
     send_message_rest receiver_id content current_user now w
     = (Return (HTTPException HTTP_400_BAD_REQUEST
                  "Cannot send message to yourself"), w))
  ∧ (is_Some (users w !! receiver_id) → receiver_id ≠ current_user →
     let message :=
       ChatMessage.Build (next_id w) content current_user receiver_id
         false false false now None in
     ∀ gone : gset WebSocket,
       ∃ w', send_message_rest receiver_id content current_user now
               (set_hung_up gone w)
             = (Return (Response HTTP_201_CREATED
                          (MessageResponse.model_validate message)), w')
         ∧ chat_messages w' = chat_messages w ++ [message]).
Proof.
  intros Hme. split; [|split].
  - apply send_message_rest_unknown.
  - intros ->. by apply send_message_rest_self.
  - intros Hrecv Hne message gone.
    destruct (send_message_rest_created receiver_id content current_user
                now (set_hung_up gone w) Hrecv Hne) as (w' & Hrun & Hrows & _).
    exists w'. split; [exact Hrun|exact Hrows].
Qed.

(** C9.  The live path does not compare sender and receiver: a
    ["message"] frame addressed to the session's own identity is inserted,
    with the same user as sender and receiver, and acknowledged, while
    [send_message_rest] refuses that message with 400. *)
Theorem self_send_live_against_rest (websocket : WebSocket)
    (user_id : pyval) (data : pydict) (now : Z) (w : World) (self : Z)
    (content_col : string) :
  get data "type" = PStr "message" →
  truthy (get data "receiver_id") = true →
  truthy (get data "content") = true →
  int_col user_id = Some self →
  int_col (get data "receiver_id") = Some self →
  text_col (get data "content") = Some content_col →
  websocket ∉ hung_up w →
  (∀ receiver_ws,
     active_connections w !! get data "receiver_id" = Some receiver_ws →
     receiver_ws ∉ hung_up w) →
  is_Some (users w !! self) →
  let message :=
    ChatMessage.Build (next_id w) content_col self self false false false
      now None in
  (∃ w', handle_frame websocket user_id data now w = (Return tt, w')
     ∧ chat_messages w' = chat_messages w ++ [message]
     ∧ last (trace w')
       = Some (Sent websocket
                 (FSent (next_id w) (get data "receiver_id"))))
  ∧ send_message_rest self content_col self now w
    = (Return (HTTPException HTTP_400_BAD_REQUEST
                 "Cannot send message to yourself"), w).
Proof.
  intros Hty Hr Hc Hu Hrecv Htext Hws Hfwd Hme message. split.
  - rewrite (handle_frame_message _ _ _ _ _ Hty).
    destruct (on_message_sent websocket user_id data now w content_col
                self self Hr Hc Htext Hu Hrecv Hws Hfwd)
      as (w' & Hrun & Hrows & _ & Htrace).
    exists w'. split; [exact Hrun|]. split; [exact Hrows|].
    rewrite Htrace, !app_assoc. apply last_snoc.
  - by apply send_message_rest_self.
Qed.

(** ** Frames of type ["typing"] *)

Lemma handle_frame_typing websocket user_id data now w :
  get data "type" = PStr "typing" →
  handle_frame websocket user_id data now w = on_typing user_id data w.
Proof. intros H. unfold handle_frame. by rewrite H. Qed.

Lemma on_typing_absent user_id data w :
  active_connections w !! get data "receiver_id" = None →
  on_typing user_id data w = (Return tt, w).
Proof.
  intros H. unfold on_typing. run. rewrite H.
  by destruct (truthy _).
Qed.

Lemma on_typing_present user_id data w receiver_ws :
  truthy (get data "receiver_id") = true →
  active_connections w !! get data "receiver_id" = Some receiver_ws →
  receiver_ws ∉ hung_up w →
  on_typing user_id data w
  = (Return tt, emit (Sent receiver_ws (FTyping user_id)) w).
Proof.
  intros Ht H Hopen. unfold on_typing. run. rewrite H, Ht.
  by apply run_send_json.
Qed.

Lemma token_claims_type data expire type :
  token_claims data expire type !! "type" = Some (PStr type).
Proof. unfold token_claims. apply lookup_insert_eq. Qed.

Lemma token_claims_sub data expire type sub :
  data !! "sub" = Some sub →
  get (token_claims data expire type) "sub" = PStr (py_str sub).
Proof.
  intros H. unfold token_claims, get. rewrite H.
  rewrite lookup_insert_ne by done. rewrite lookup_insert_ne by done.
  by rewrite lookup_insert_eq.
Qed.

(** The session of a token issued by [create_access_token] runs under
    the string that [str] makes of the subject. *)
Lemma access_token_session data now sub :
  let claims :=
    token_claims data (now + ACCESS_TOKEN_EXPIRE_MINUTES * 60) "access" in
  jwt_decode (jwt_encode claims) = Some claims →
  data !! "sub" = Some sub →
  py_str sub ≠ "" →
  token_accepted (create_access_token data now) (PStr (py_str sub)).
Proof.
  intros claims Hjwt Hsub Hne. unfold token_accepted, create_access_token.
  exists claims. split; [exact Hjwt|].
  split; [apply token_claims_type|].
  split; [by apply token_claims_sub|].
  simpl. destruct (String.eqb_spec (py_str sub) ""); done.
Qed.

(** C5, evaluated on the scenario.  A (id 1) and B (id 2) connect with
    tokens issued by [create_access_token] that the decoder accepts;
    their registry keys are the strings ["1"] and ["2"].  A's ["typing"]
    frame with [receiver_id] the integer 2 finds no entry: nothing is
    sent to B and the state is unchanged. *)
Theorem typing_frame_integer_receiver (ws_a ws_b : WebSocket)
    (t_a t_b now : Z) (w : World) :
  let claims_a :=
    token_claims {["sub" := PInt 1]}
      (t_a + ACCESS_TOKEN_EXPIRE_MINUTES * 60) "access" in
  let claims_b :=
    token_claims {["sub" := PInt 2]}
      (t_b + ACCESS_TOKEN_EXPIRE_MINUTES * 60) "access" in
  jwt_decode (jwt_encode claims_a) = Some claims_a →
  jwt_decode (jwt_encode claims_b) = Some claims_b →
  active_connections w !! PInt 2 = None →
  let token_a := create_access_token {["sub" := PInt 1]} t_a in
  let token_b := create_access_token {["sub" := PInt 2]} t_b in
  let w1 := (websocket_connect ws_a token_a t_a w).2 in
  let w2 := (websocket_connect ws_b token_b t_b w1).2 in
  let data : pydict :=
    {["type" := PStr "typing"; "receiver_id" := PInt 2]} in
  active_connections w2 !! PStr "1" = Some ws_a
  ∧ active_connections w2 !! PStr "2" = Some ws_b
  ∧ active_connections w2 !! PInt 2 = None
  ∧ handle_frame ws_a (PStr "1") data now w2 = (Return tt, w2).
Proof.
  intros claims_a claims_b Hjwt_a Hjwt_b Hfree token_a token_b w1 w2 data.
  assert (Ha : token_accepted token_a (PStr "1")).
  { apply (access_token_session _ _ (PInt 1)); [exact Hjwt_a|done|done]. }
  assert (Hb : token_accepted token_b (PStr "2")).
  { apply (access_token_session _ _ (PInt 2)); [exact Hjwt_b|done|done]. }
  subst w1 w2.
  rewrite (connect_accepted _ _ _ _ _ Ha).
  rewrite (connect_accepted _ _ _ _ _ Hb). cbn [snd].
  assert (Hreg : active_connections
            (registered ws_b (PStr "2") t_b (registered ws_a (PStr "1") t_a w))
          = <[PStr "2" := ws_b]> (<[PStr "1" := ws_a]> (active_connections w)))
    by reflexivity.
  rewrite Hreg.
  split. { rewrite lookup_insert_ne by done. apply lookup_insert_eq. }
  split. { apply lookup_insert_eq. }
  assert (Hnone : <[PStr "2" := ws_b]> (<[PStr "1" := ws_a]>
                     (active_connections w)) !! PInt 2 = None).
  { rewrite !lookup_insert_ne by done. exact Hfree. }
  split; [exact Hnone|].
  rewrite handle_frame_typing by reflexivity.
  apply on_typing_absent. rewrite Hreg. exact Hnone.
Qed.

(** ** Ordering by recency *)

(** Rows of distinct [created_at] have one newest-first order. *)
Lemma newest_first_unique (l1 l2 : list ChatMessage.t) :
  NoDup (ChatMessage.created_at <$> l1) →
  StronglySorted newer_first l1 → StronglySorted newer_first l2 →
  l1 ≡ₚ l2 → l1 = l2.
Proof.
  intros Hnd Hs1 Hs2 Hperm.
  apply (StronglySorted_unique_strong newer_first); try done.
  intros x1 x2 Hx1 Hx2 H12 H21. rewrite <- Hperm in Hx2.
  unfold newer_first in H12, H21.
  assert (E : ChatMessage.created_at x1 = ChatMessage.created_at x2) by lia.
  clear H12 H21 Hs1 Hs2 Hperm.
  induction l1 as [|y l1 IH]; [by apply not_elem_of_nil in Hx1|].
  rewrite fmap_cons in Hnd. apply NoDup_cons in Hnd as [Hy Hnd].
  apply elem_of_cons in Hx1 as [->|Hx1];
    apply elem_of_cons in Hx2 as [->|Hx2].
  - done.
  - exfalso. apply Hy. rewrite E. by apply list_elem_of_fmap_2.
  - exfalso. apply Hy. rewrite <- E. by apply list_elem_of_fmap_2.
  - by apply IH.
Qed.

(** ** Offset and limit *)

Lemma offset_limit_nonneg {A : Type} (skip limit : Z) (rows : list A) :
  0 ≤ skip → 0 ≤ limit →
  offset_limit engine skip limit rows
  = Some (take (Z.to_nat limit) (drop (Z.to_nat skip) rows)).
Proof.
  intros Hs Hl. unfold offset_limit. destruct engine.
  - by rewrite bool_decide_eq_false_2 by lia.
  - by rewrite bool_decide_eq_false_2 by lia.
Qed.

Lemma offset_limit_sublist {A : Type} (skip limit : Z) (rows page : list A) :
  offset_limit engine skip limit rows = Some page →
  page `sublist_of` rows.
Proof.
  unfold offset_limit. destruct engine.
  - intros [= <-]. case_bool_decide.
    + apply sublist_drop.
    + transitivity (drop (Z.to_nat skip) rows);
        [apply sublist_take|apply sublist_drop].
  - case_bool_decide; [done|]. intros [= <-].
    transitivity (drop (Z.to_nat skip) rows);
      [apply sublist_take|apply sublist_drop].
Qed.

Lemma offset_limit_fmap {A B : Type} (f : A → B) (skip limit : Z)
    (rows : list A) :
  offset_limit engine skip limit (fmap (M:=list) f rows)
  = fmap (M:=option) (fmap (M:=list) f) (offset_limit engine skip limit rows).
Proof.
  unfold offset_limit. destruct engine.
  - simpl. f_equal. case_bool_decide.
    + by rewrite fmap_drop.
    + by rewrite fmap_take, fmap_drop.
  - case_bool_decide; [done|]. simpl. by rewrite fmap_take, fmap_drop.
Qed.

Lemma StronglySorted_sublist {A : Type} (R : relation A) (l1 l2 : list A) :
  l1 `sublist_of` l2 → StronglySorted R l2 → StronglySorted R l1.
Proof.
  induction 1 as [|x l1 l2 Hsub IH|x l1 l2 Hsub IH]; intros Hs.
  - constructor.
  - apply StronglySorted_cons in Hs as [Hall Hs].
    apply StronglySorted_cons. split; [|by apply IH].
    apply Forall_forall. intros y Hy.
    rewrite Forall_forall in Hall. apply Hall.
    by eapply elem_of_sublist.
  - apply StronglySorted_cons in Hs as [_ Hs]. by apply IH.
Qed.

Lemma StronglySorted_reverse {A : Type} (R : relation A) (l : list A) :
  StronglySorted R l → StronglySorted (flip R) (reverse l).
Proof.
  induction 1 as [|x l Hs IH Hall].
  - constructor.
  - rewrite reverse_cons. apply StronglySorted_app_2; [|done|].
    + intros a b Ha Hb. apply list_elem_of_singleton in Hb as ->.
      rewrite elem_of_reverse in Ha. unfold flip.
      rewrite Forall_forall in Hall. by apply Hall.
    + repeat constructor.
Qed.

Lemma unique_id_eq (rows : list ChatMessage.t) (a b : ChatMessage.t) :
  NoDup (ChatMessage.id <$> rows) →
  a ∈ rows → b ∈ rows → ChatMessage.id a = ChatMessage.id b → a = b.
Proof.
  induction rows as [|r rows IH]; intros Hnd Ha Hb Hid.
  - by apply not_elem_of_nil in Ha.
  - rewrite fmap_cons in Hnd. apply NoDup_cons in Hnd as [Hr Hnd].
    apply elem_of_cons in Ha as [->|Ha];
      apply elem_of_cons in Hb as [->|Hb].
    + done.
    + exfalso. apply Hr. rewrite Hid. by apply list_elem_of_fmap_2.
    + exfalso. apply Hr. rewrite <- Hid. by apply list_elem_of_fmap_2.
    + by apply IH.
Qed.

(** ** Marking as read *)

Lemma mark_read_id now m :
  ChatMessage.id (ChatMessage.mark_read now m) = ChatMessage.id m.
Proof. reflexivity. Qed.

Lemma mark_read_idem now m :
  ChatMessage.mark_read now (ChatMessage.mark_read now m)
  = ChatMessage.mark_read now m.
Proof. reflexivity. Qed.

(** What a commit with the objects [dirty] marked does to the rows. *)
Lemma for_each_mark_read now (dirty : list ChatMessage.t) w :
  ∃ w', for_each (db_mark_read now) dirty w = (Return tt, w')
    ∧ chat_messages w'
      = (λ r, if bool_decide (ChatMessage.id r ∈ ChatMessage.id <$> dirty)
              then ChatMessage.mark_read now r else r) <$> chat_messages w
    ∧ active_connections w' = active_connections w
    ∧ users w' = users w
    ∧ next_id w' = next_id w
    ∧ trace w'
      = trace w ++ (Updated ∘ ChatMessage.mark_read now <$> dirty).
Proof.
  revert w. induction dirty as [|m dirty IH]; intros w.
  - exists w. split; [done|]. simpl.
    split; [|by rewrite app_nil_r].
    rewrite <- (list_fmap_id (chat_messages w)) at 1.
    apply list_fmap_ext. by intros i r _.
  - cbn [for_each]. rewrite run_bind. unfold db_mark_read at 1.
    rewrite run_modify.
    destruct (IH (emit (Updated (ChatMessage.mark_read now m))
                    (set_messages (update_read now (ChatMessage.id m)) w)))
      as (w' & Hrun & Hrows & Hreg & Hus & Hid & Htrace).
    exists w'. split; [exact Hrun|].
    split; [|split; [done|split; [done|split; [done|]]]].
    + rewrite Hrows. simpl. unfold update_read.
      rewrite <- list_fmap_compose. apply list_fmap_ext.
      intros i r _. simpl.
      destruct (decide (ChatMessage.id r = ChatMessage.id m)) as [E|E].
      * rewrite (bool_decide_eq_true_2 _ E).
        rewrite (bool_decide_eq_true_2 (_ ∈ _ :: _))
          by (rewrite E; apply list_elem_of_here).
        rewrite mark_read_id, mark_read_idem. by case_bool_decide.
      * rewrite (bool_decide_eq_false_2 _ E).
        repeat case_bool_decide; try done; exfalso;
          match goal with
          | H : ¬ _ ∈ _ :: _ |- _ => apply H; by right
          | H : _ ∈ _ :: _ |- _ => apply elem_of_cons in H as [?|?]; done
          end.
    + rewrite Htrace. simpl. by rewrite <- app_assoc.
Qed.

(** ** The history of a conversation *)

Lemma page_sublist {A : Type} (skip limit : nat) (l : list A) :
  take limit (drop skip l) `sublist_of` l.
Proof.
  transitivity (drop skip l); [apply sublist_take|apply sublist_drop].
Qed.

Lemma page_elem_of (P : ChatMessage.t → Prop) `{!∀ m, Decision (P m)}
    (page rows : list ChatMessage.t) m :
  page `sublist_of` order_by_created_at_desc (filter P rows) →
  m ∈ page → P m ∧ m ∈ rows.
Proof.
  intros Hsub Hm. apply (list_elem_of_filter P).
  rewrite <- (order_by_perm (filter P rows)).
  by eapply elem_of_sublist.
Qed.

Lemma mark_fetched_created_at current_user now m :
  ChatMessage.created_at (mark_fetched current_user now m)
  = ChatMessage.created_at m.
Proof. unfold mark_fetched. by case_bool_decide. Qed.

Lemma mark_fetched_id current_user now m :
  ChatMessage.id (mark_fetched current_user now m) = ChatMessage.id m.
Proof. unfold mark_fetched. by case_bool_decide. Qed.

Lemma mark_fetched_read current_user now m :
  ChatMessage.receiver_id (mark_fetched current_user now m) = current_user →
  ChatMessage.is_read (mark_fetched current_user now m) = true.
Proof.
  unfold mark_fetched, to_mark. case_bool_decide as H; [done|].
  intros Hr. destruct (ChatMessage.is_read m) eqn:E; [done|].
  exfalso. by apply H.
Qed.

(** With a unique primary key, the rows that the commit of
    [get_chat_history] updates are the fetched ones that pass the test
    of line 229. *)
Lemma marked_rows_iff current_user (page rows : list ChatMessage.t) r :
  NoDup (ChatMessage.id <$> rows) →
  (∀ m, m ∈ page → m ∈ rows) →
  r ∈ rows →
  ChatMessage.id r ∈ ChatMessage.id <$> filter (to_mark current_user) page
  ↔ r ∈ page ∧ to_mark current_user r.
Proof.
  intros Hnd Hsub Hr. split.
  - intros (m & Hid & Hm)%list_elem_of_fmap.
    apply list_elem_of_filter in Hm as [Hmark Hm].
    assert (r = m) as -> by eauto using unique_id_eq.
    done.
  - intros [Hpage Hmark]. apply list_elem_of_fmap_2.
    by apply list_elem_of_filter.
Qed.

Lemma get_chat_history_unknown other_user_id skip limit current_user now w :
  users w !! other_user_id = None →
  get_chat_history other_user_id skip limit current_user now w
  = (Return (HTTPException HTTP_404_NOT_FOUND "User not found"), w).
Proof. intros H. unfold get_chat_history. run. by rewrite H. Qed.

(** The query that the engine refuses: the request raises and nothing
    has changed. *)
Lemma get_chat_history_refused other_user_id skip limit current_user now w :
  is_Some (users w !! other_user_id) →
  offset_limit engine skip limit
    (order_by_created_at_desc
       (filter (between current_user other_user_id) (chat_messages w)))
  = None →
  get_chat_history other_user_id skip limit current_user now w = (Raise, w).
Proof.
  intros [u Hu] Hpage. unfold get_chat_history. run. rewrite Hu. run.
  by rewrite Hpage.
Qed.

Lemma get_chat_history_run other_user_id skip limit current_user now w page :
  is_Some (users w !! other_user_id) →
  offset_limit engine skip limit
    (order_by_created_at_desc
       (filter (between current_user other_user_id) (chat_messages w)))
  = Some page →
  ∃ w', get_chat_history other_user_id skip limit current_user now w
        = (Return (Response HTTP_200_OK
                     (MessageResponse.model_validate
                        <$> reverse (mark_fetched current_user now
                                       <$> page))), w')
    ∧ chat_messages w'
      = (λ r, if bool_decide
                   (ChatMessage.id r
                    ∈ ChatMessage.id <$> filter (to_mark current_user) page)
              then ChatMessage.mark_read now r else r) <$> chat_messages w
    ∧ active_connections w' = active_connections w
    ∧ users w' = users w
    ∧ next_id w' = next_id w.
Proof.
  intros [u Hu] Hpage. unfold get_chat_history. run. rewrite Hu. run.
  rewrite Hpage. cbn [must]. run.
  destruct (for_each_mark_read now (filter (to_mark current_user) page) w)
    as (w' & Hrun & Hrows & Hreg & Hus & Hid & _).
  rewrite Hrun. exists w'. done.
Qed.

(** C3.  With a unique primary key, on either engine and whatever the
    order of the store among messages of equal time:
    [get_chat_history] answers 404 and changes nothing when the
    counterpart has no row in [users], whatever [skip] and [limit] are;
    otherwise, for [skip] and [limit] that are not negative, it takes
    the messages between the two users newest first, cuts the page
    [skip]/[limit] out of that order, marks the fetched messages
    addressed to the viewer that are unread (flag and timestamp) and no
    other row, and answers the page oldest first, every message
    addressed to the viewer shown as read.  On 51 messages with [skip] 0
    and [limit] 50 the page is all but the oldest one. *)
Theorem get_chat_history_contract (other_user_id : Z) (skip limit : Z)
    (current_user now : Z) (w : World) :
  unique_ids w →
  let conversation :=
    filter (between current_user other_user_id) (chat_messages w) in
  let newest_first := order_by_created_at_desc conversation in
  let page := take (Z.to_nat limit) (drop (Z.to_nat skip) newest_first) in
  (users w !! other_user_id = None →
   get_chat_history other_user_id skip limit current_user now w
   = (Return (HTTPException HTTP_404_NOT_FOUND "User not found"), w))
  ∧ (is_Some (users w !! other_user_id) → 0 ≤ skip → 0 ≤ limit →
     ∃ w' body,
       get_chat_history other_user_id skip limit current_user now w
       = (Return (Response HTTP_200_OK body), w')
       ∧ newest_first ≡ₚ conversation
       ∧ StronglySorted newer_first newest_first
       ∧ body = MessageResponse.model_validate
                  <$> reverse (mark_fetched current_user now <$> page)
       ∧ MessageResponse.id <$> body = reverse (ChatMessage.id <$> page)
       ∧ StronglySorted chronological body
       ∧ Forall (λ r, MessageResponse.receiver_id r = current_user →
                      MessageResponse.is_read r = true) body
       ∧ chat_messages w'
         = (λ r, if bool_decide (r ∈ page ∧ to_mark current_user r)
                 then ChatMessage.mark_read now r else r)
             <$> chat_messages w
       ∧ (skip = 0 → limit = 50 → length conversation = 51%nat →
          ∃ oldest, newest_first = page ++ [oldest]
            ∧ length body = 50%nat
            ∧ Forall (λ m, ChatMessage.created_at oldest
                           ≤ ChatMessage.created_at m) page)).
Proof.
  intros Hnd conversation newest_first page. split.
  { apply get_chat_history_unknown. }
  intros Hother Hskip Hlimit.
  destruct (get_chat_history_run other_user_id skip limit current_user now
              w page Hother (offset_limit_nonneg _ _ _ Hskip Hlimit))
    as (w' & Hrun & Hrows & _).
  assert (Hsorted : StronglySorted newer_first newest_first)
    by apply order_by_sorted.
  assert (Hpage : StronglySorted newer_first page).
  { eapply StronglySorted_sublist; [apply page_sublist|exact Hsorted]. }
  exists w', (MessageResponse.model_validate
                <$> reverse (mark_fetched current_user now <$> page)).
  split; [exact Hrun|].
  split; [apply order_by_perm|].
  split; [exact Hsorted|].
  split; [reflexivity|].
  split.
  { rewrite <- list_fmap_compose, fmap_reverse, <- list_fmap_compose.
    f_equal. apply list_fmap_ext. intros i m _. simpl.
    apply mark_fetched_id. }
  split.
  { apply (StronglySorted_fmap _ (flip newer_first)).
    - intros a b Hab. exact Hab.
    - apply StronglySorted_reverse.
      apply (StronglySorted_fmap _ newer_first); [|exact Hpage].
      intros a b Hab. unfold newer_first.
      by rewrite !mark_fetched_created_at. }
  split.
  { apply Forall_forall. intros r (m' & -> & Hm')%list_elem_of_fmap.
    rewrite elem_of_reverse in Hm'.
    apply list_elem_of_fmap in Hm' as (m & -> & Hm).
    apply mark_fetched_read. }
  split.
  { rewrite Hrows. apply list_fmap_ext. intros i r Hr.
    rewrite (bool_decide_ext _ (r ∈ page ∧ to_mark current_user r));
      [done|].
    apply (marked_rows_iff _ _ (chat_messages w)); [exact Hnd| |].
    - intros m Hm.
      apply (page_elem_of (between current_user other_user_id) page
               (chat_messages w)) in Hm as [_ ?]; [done|].
      apply page_sublist.
    - by eapply list_elem_of_lookup_2. }
  intros Hskip0 Hlimit50 Hlen.
  assert (Hlen' : length newest_first = 51%nat).
  { unfold newest_first. by rewrite (order_by_perm conversation). }
  subst page skip limit.
  change (Z.to_nat 0) with 0%nat in *. change (Z.to_nat 50) with 50%nat in *.
  rewrite drop_0 in *.
  destruct (drop 50 newest_first) as [|oldest [|??]] eqn:Hdrop.
  - apply (f_equal length) in Hdrop. rewrite length_drop in Hdrop.
    simpl in Hdrop. lia.
  - exists oldest. rewrite <- Hdrop, take_drop. split; [done|].
    split.
    { rewrite length_fmap, length_reverse, length_fmap, length_take. lia. }
    apply Forall_forall. intros m Hm.
    rewrite <- (take_drop 50 newest_first), Hdrop in Hsorted.
    eapply (StronglySorted_app_1_elem_of _ _ _ m oldest) in Hsorted;
      [exact Hsorted|exact Hm|by left].
  - apply (f_equal length) in Hdrop. rewrite length_drop in Hdrop.
    simpl in Hdrop. lia.
Qed.

(** ** The conversation summaries *)

Lemma first_seen_sublist viewer seen messages :
  first_seen viewer seen messages `sublist_of` messages.
Proof.
  revert seen. induction messages as [|m rest IH]; intros seen; simpl.
  - constructor.
  - case_bool_decide; [apply sublist_cons|apply sublist_skip]; apply IH.
Qed.

Lemma first_seen_fresh viewer seen messages m :
  m ∈ first_seen viewer seen messages → other_user_id_of viewer m ∉ seen.
Proof.
  revert seen. induction messages as [|m0 rest IH]; intros seen; simpl.
  - intros H. by apply not_elem_of_nil in H.
  - case_bool_decide as Hseen; [apply IH|].
    intros [->|H]%elem_of_cons; [done|].
    apply IH in H. intros Hin. apply H. by right.
Qed.

(** A message kept by [first_seen] is the first of its counterpart. *)
Lemma first_seen_first viewer seen messages m :
  m ∈ first_seen viewer seen messages →
  ∃ before after, messages = before ++ m :: after
    ∧ Forall (λ m', other_user_id_of viewer m'
                    ≠ other_user_id_of viewer m) before.
Proof.
  revert seen. induction messages as [|m0 rest IH]; intros seen; simpl.
  - intros H. by apply not_elem_of_nil in H.
  - case_bool_decide as Hseen.
    + intros H. pose proof (first_seen_fresh _ _ _ _ H) as Hfresh.
      destruct (IH _ H) as (before & after & -> & Hall).
      exists (m0 :: before), after. split; [done|].
      constructor; [|done]. intros E. apply Hfresh. by rewrite <- E.
    + intros [->|H]%elem_of_cons.
      * exists [], rest. split; [done|constructor].
      * pose proof (first_seen_fresh _ _ _ _ H) as Hfresh.
        destruct (IH _ H) as (before & after & -> & Hall).
        exists (m0 :: before), after. split; [done|].
        constructor; [|done]. intros E. apply Hfresh. rewrite <- E.
        by left.
Qed.

Lemma first_seen_NoDup viewer seen messages :
  NoDup (other_user_id_of viewer <$> first_seen viewer seen messages).
Proof.
  revert seen. induction messages as [|m rest IH]; intros seen; simpl.
  - constructor.
  - case_bool_decide; [apply IH|]. rewrite fmap_cons.
    apply NoDup_cons. split; [|apply IH].
    intros (m' & E & Hm')%list_elem_of_fmap.
    apply first_seen_fresh in Hm'. apply Hm'. rewrite <- E. by left.
Qed.

Lemma first_seen_complete viewer seen messages m :
  m ∈ messages →
  other_user_id_of viewer m ∈ seen
  ∨ other_user_id_of viewer m
    ∈ other_user_id_of viewer <$> first_seen viewer seen messages.
Proof.
  revert seen. induction messages as [|m0 rest IH]; intros seen Hm.
  - by apply not_elem_of_nil in Hm.
  - simpl. apply elem_of_cons in Hm as [->|Hm].
    + case_bool_decide; [by left|]. right. rewrite fmap_cons. by left.
    + case_bool_decide; [by apply IH|].
      destruct (IH (other_user_id_of viewer m0 :: seen) Hm) as [H'|H'].
      * apply elem_of_cons in H' as [E|H']; [|by left].
        right. rewrite fmap_cons, E. by left.
      * right. rewrite fmap_cons. by right.
Qed.

Lemma or_zero (n : Z) : (if bool_decide (n = 0) then 0 else n) = n.
Proof. by case_bool_decide. Qed.

(** The loop of [get_conversations] against [first_seen]: the
    dictionary holds the counterparts met so far that have a row in
    [users]. *)
Lemma conversations_loop current_user rows us messages :
  ∀ (conversations : conversations_dict) (seen : list Z),
    (∀ c, c ∈ conversations.*1 → c ∈ seen) →
    (∀ c, c ∈ seen → c ∈ conversations.*1 ∨ us !! c = None) →
    (foldl (conversations_step current_user rows us) conversations
       messages).*2
    = conversations.*2
      ++ omap (summary_of current_user rows us)
           (first_seen current_user seen messages).
Proof.
  induction messages as [|m rest IH]; intros conversations seen Hin Hseen.
  - simpl. by rewrite app_nil_r.
  - cbn [foldl first_seen]. unfold conversations_step at 2.
    unfold dict_contains.
    set (c := other_user_id_of current_user m).
    destruct (decide (c ∈ conversations.*1)) as [Hc|Hc].
    + rewrite (bool_decide_eq_true_2 _ Hc).
      rewrite (bool_decide_eq_true_2 _ (Hin _ Hc)). by apply IH.
    + rewrite (bool_decide_eq_false_2 _ Hc).
      destruct (us !! c) as [u|] eqn:Hu.
      * assert (Hfresh : c ∉ seen).
        { intros Hs. destruct (Hseen _ Hs) as [?|?]; [done|congruence]. }
        rewrite (bool_decide_eq_false_2 _ Hfresh).
        rewrite (IH _ (c :: seen)).
        -- rewrite fmap_app, <- app_assoc. f_equal. simpl.
           unfold summary_of at 2. fold c. rewrite Hu. simpl.
           by rewrite or_zero.
        -- intros c'. rewrite fmap_app, elem_of_app, elem_of_cons. simpl.
           rewrite list_elem_of_singleton.
           intros [Hc'|Hc']; [right; by apply Hin|by left].
        -- intros c'. rewrite fmap_app, elem_of_app, elem_of_cons. simpl.
           rewrite list_elem_of_singleton.
           intros [->|Hc']; [left; by right|].
           destruct (Hseen _ Hc') as [?|?]; [left; by left|by right].
      * case_bool_decide as Hs; [by apply IH|].
        rewrite (IH _ (c :: seen)).
        -- f_equal. simpl. unfold summary_of at 2. fold c.
           by rewrite Hu.
        -- intros c' Hc'. right. by apply Hin.
        -- intros c'. rewrite elem_of_cons. intros [->|Hc']; [by right|].
           by apply Hseen.
Qed.

Lemma get_conversations_run current_user w :
  get_conversations current_user w
  = (Return
       (Response HTTP_200_OK
          (omap (summary_of current_user (chat_messages w) (users w))
             (first_seen current_user []
                (order_by_created_at_desc
                   (filter (involves current_user) (chat_messages w)))))),
     w).
Proof.
  unfold get_conversations. run.
  rewrite (conversations_loop _ _ _ _ [] []).
  - done.
  - done.
  - intros c Hc. by apply not_elem_of_nil in Hc.
Qed.

(** What a summary says of the conversation it stands for: it is built
    from the most recent message of the viewer with that counterpart. *)
Lemma summary_latest current_user rows us messages s :
  StronglySorted newer_first messages →
  s ∈ omap (summary_of current_user rows us)
        (first_seen current_user [] messages) →
  ∃ m, m ∈ messages
    ∧ other_user_id_of current_user m = ConversationResponse.user_id s
    ∧ (∀ m', m' ∈ messages →
         other_user_id_of current_user m'
         = ConversationResponse.user_id s →
         ChatMessage.created_at m' ≤ ChatMessage.created_at m)
    ∧ ConversationResponse.last_message s
      = first_50 (ChatMessage.content m)
    ∧ ConversationResponse.last_message_time s = ChatMessage.created_at m
    ∧ ConversationResponse.unread_count s
      = store_unread_count rows current_user
          (ConversationResponse.user_id s)
    ∧ is_Some (us !! ConversationResponse.user_id s).
Proof.
  intros Hsorted (m & Hm & Hs)%list_elem_of_omap.
  unfold summary_of in Hs.
  destruct (us !! other_user_id_of current_user m) as [u|] eqn:Hu;
    [|done].
  simpl in Hs. injection Hs as <-. simpl.
  exists m. split.
  { eapply elem_of_sublist; [exact Hm|apply first_seen_sublist]. }
  split; [done|]. split; [|by rewrite Hu].
  destruct (first_seen_first _ _ _ _ Hm) as (before & after & -> & Hall).
  intros m' Hm' Hsame.
  apply StronglySorted_app_1_r in Hsorted.
  apply StronglySorted_cons in Hsorted as [Hafter _].
  apply elem_of_app in Hm' as [Hm'|Hm'].
  - rewrite Forall_forall in Hall. by apply Hall in Hm'.
  - apply elem_of_cons in Hm' as [->|Hm']; [done|].
    rewrite Forall_forall in Hafter. by apply Hafter.
Qed.

Lemma summaries_user_ids current_user rows us (latest : list ChatMessage.t) :
  ConversationResponse.user_id
    <$> omap (summary_of current_user rows us) latest
  = filter (λ c, is_Some (us !! c))
      (other_user_id_of current_user <$> latest).
Proof.
  induction latest as [|m rest IH]; [done|].
  rewrite fmap_cons, filter_cons. cbn [omap list_omap].
  unfold summary_of at 1.
  destruct (us !! other_user_id_of current_user m) as [u|] eqn:Hu.
  - rewrite decide_True by done. cbn. f_equal. exact IH.
  - rewrite decide_False by (by intros [? ?]). exact IH.
Qed.

Lemma StronglySorted_omap {A B : Type} (R1 : relation A) (R2 : relation B)
    (f : A → option B) (l : list A) :
  (∀ a b a' b', R1 a b → f a = Some a' → f b = Some b' → R2 a' b') →
  StronglySorted R1 l → StronglySorted R2 (omap f l).
Proof.
  intros Hf. induction 1 as [|a l Hs IH Hall]; simpl.
  - constructor.
  - destruct (f a) as [a'|] eqn:Ha; [|exact IH].
    apply StronglySorted_cons. split; [|exact IH].
    apply Forall_forall. intros b' (b & Hb & Hfb)%list_elem_of_omap.
    rewrite Forall_forall in Hall. eauto.
Qed.

Lemma summary_of_time current_user rows us m s :
  summary_of current_user rows us m = Some s →
  ConversationResponse.last_message_time s = ChatMessage.created_at m.
Proof.
  unfold summary_of.
  destruct (us !! other_user_id_of current_user m); [|done].
  simpl. by intros [= <-].
Qed.

(** A message of the viewer with a counterpart, in the terms of the
    loop. *)
Lemma exchanged_counterpart current_user c m :
  exchanged current_user c m
  ↔ involves current_user m ∧ other_user_id_of current_user m = c.
Proof.
  unfold exchanged, involves, other_user_id_of. split.
  - intros [[Hs Hr]|[Hs Hr]].
    + split; [by left|]. by rewrite bool_decide_eq_true_2.
    + split; [by right|]. case_bool_decide; congruence.
  - intros [Hinv Hc]. case_bool_decide as Hs.
    + left. by split.
    + right. split; [done|]. by destruct Hinv.
Qed.

(** The user columns of a summary are those of the counterpart's row. *)
Lemma summary_user current_user rows us (latest : list ChatMessage.t) s :
  s ∈ omap (summary_of current_user rows us) latest →
  ∃ u, us !! ConversationResponse.user_id s = Some u
    ∧ ConversationResponse.username s = User.username u
    ∧ ConversationResponse.profile_picture s = User.profile_picture u.
Proof.
  intros (m & _ & Hs)%list_elem_of_omap. unfold summary_of in Hs.
  destruct (us !! other_user_id_of current_user m) as [u|] eqn:Hu; [|done].
  simpl in Hs. injection Hs as <-. simpl. by exists u.
Qed.

(** C4.  [get_conversations] changes nothing and answers one summary per
    counterpart who exchanged a message with the viewer and has a row
    in [users], and none for a counterpart without a row.  A summary is
    built from a most recent message of the pair: its time, the first
    50 characters of its text, the name and picture of the counterpart's
    row; its unread count is the count the Message Store gives for the
    pair.  The summaries stand in the order in which their counterparts
    first occur in the newest-first answer of the store, which is by
    descending time of their latest message. *)
Theorem get_conversations_contract (current_user : Z) (w : World) :
  let messages :=
    order_by_created_at_desc
      (filter (λ m, ChatMessage.sender_id m = current_user
                    ∨ ChatMessage.receiver_id m = current_user)
         (chat_messages w)) in
  let latest := first_seen current_user [] messages in
  ∃ body,
    get_conversations current_user w
    = (Return (Response HTTP_200_OK body), w)
    ∧ NoDup (ConversationResponse.user_id <$> body)
    ∧ (∀ c, c ∈ ConversationResponse.user_id <$> body
          ↔ is_Some (users w !! c)
            ∧ ∃ m, m ∈ chat_messages w ∧ exchanged current_user c m)
    ∧ Forall (λ s,
        let c := ConversationResponse.user_id s in
        (∃ m, m ∈ chat_messages w
           ∧ exchanged current_user c m
           ∧ (∀ m', m' ∈ chat_messages w → exchanged current_user c m' →
                ChatMessage.created_at m' ≤ ChatMessage.created_at m)
           ∧ ConversationResponse.last_message s
             = String.substring 0 50 (ChatMessage.content m)
           ∧ ConversationResponse.last_message_time s
             = ChatMessage.created_at m)
        ∧ ConversationResponse.unread_count s
          = store_unread_count (chat_messages w) current_user c
        ∧ ∃ u, users w !! c = Some u
            ∧ ConversationResponse.username s = User.username u
            ∧ ConversationResponse.profile_picture s
              = User.profile_picture u) body
    ∧ ConversationResponse.user_id <$> body
      = filter (λ c, is_Some (users w !! c))
          (other_user_id_of current_user <$> latest)
    ∧ StronglySorted latest_first body.
Proof.
  intros messages latest. eexists.
  split; [apply get_conversations_run|].
  change (order_by_created_at_desc
            (filter (involves current_user) (chat_messages w)))
    with messages.
  fold latest.
  assert (Hsorted : StronglySorted newer_first messages)
    by apply order_by_sorted.
  assert (Hmessages : ∀ m, m ∈ messages
                           ↔ involves current_user m ∧ m ∈ chat_messages w).
  { intros m. unfold messages. rewrite order_by_perm.
    apply list_elem_of_filter. }
  split.
  { rewrite summaries_user_ids. apply NoDup_filter, first_seen_NoDup. }
  split.
  { intros c. rewrite summaries_user_ids, list_elem_of_filter.
    split; intros [Huser Hc]; (split; [exact Huser|]).
    - apply list_elem_of_fmap in Hc as (m & -> & Hm).
      assert (Hin : m ∈ messages)
        by (eapply elem_of_sublist; [exact Hm|apply first_seen_sublist]).
      apply Hmessages in Hin as [Hinv Hrow].
      exists m. split; [exact Hrow|]. by apply exchanged_counterpart.
    - destruct Hc as (m & Hrow & Hex).
      apply exchanged_counterpart in Hex as [Hinv <-].
      assert (Hin : m ∈ messages) by (by apply Hmessages).
      destruct (first_seen_complete current_user [] messages m Hin)
        as [Hnil|Hlatest]; [|exact Hlatest].
      by apply not_elem_of_nil in Hnil. }
  split.
  { apply Forall_forall. intros s Hs.
    destruct (summary_latest _ _ _ _ _ Hsorted Hs)
      as (m & Hm & Hc & Hnewest & Htext & Htime & Hcount & _).
    apply Hmessages in Hm as [Hinv Hrow].
    split; [|split; [exact Hcount|by eapply summary_user]].
    exists m. split; [exact Hrow|].
    split; [by apply exchanged_counterpart|].
    split; [|by split].
    intros m' Hrow' Hex'.
    apply exchanged_counterpart in Hex' as [Hinv' Hc'].
    apply Hnewest; [by apply Hmessages|exact Hc']. }
  split; [apply summaries_user_ids|].
  apply (StronglySorted_omap newer_first).
  - intros a b a' b' Hab Ha Hb. unfold latest_first.
    rewrite (summary_of_time _ _ _ _ _ Ha).
    by rewrite (summary_of_time _ _ _ _ _ Hb).
  - eapply StronglySorted_sublist; [apply first_seen_sublist|done].
Qed.

(** ** The text of a summary *)

Lemma substring_0_length (n : nat) (s : string) :
  String.length (String.substring 0 n s) = Nat.min n (String.length s).
Proof.
  revert n. induction s as [|c s IH]; intros [|n]; simpl; try done.
  by rewrite IH.
Qed.

Lemma substring_0_prefix (n : nat) (s : string) :
  String.prefix (String.substring 0 n s) s = true.
Proof.
  revert n. induction s as [|c s IH]; intros [|n]; simpl; try done.
  destruct (ascii_dec c c); [apply IH|done].
Qed.

(** C10.  The [last_message] of every conversation summary is the first
    50 characters of the content of the most recent message of the
    conversation: a prefix of at most 50 characters, and a proper one, of
    exactly 50, when the content is longer. *)
Theorem conversation_summary_truncates (current_user : Z) (w : World) :
  let messages :=
    order_by_created_at_desc
      (filter (involves current_user) (chat_messages w)) in
  ∃ body,
    get_conversations current_user w
    = (Return (Response HTTP_200_OK body), w)
    ∧ Forall (λ s, ∃ m, m ∈ messages
        ∧ other_user_id_of current_user m = ConversationResponse.user_id s
        ∧ (∀ m', m' ∈ messages →
             other_user_id_of current_user m'
             = ConversationResponse.user_id s →
             ChatMessage.created_at m' ≤ ChatMessage.created_at m)
        ∧ ConversationResponse.last_message s
          = String.substring 0 50 (ChatMessage.content m)
        ∧ (String.length (ConversationResponse.last_message s) ≤ 50)%nat
        ∧ String.prefix (ConversationResponse.last_message s)
            (ChatMessage.content m) = true
        ∧ ((50 < String.length (ChatMessage.content m))%nat →
           String.length (ConversationResponse.last_message s) = 50%nat
           ∧ ConversationResponse.last_message s
             ≠ ChatMessage.content m)) body.
Proof.
  intros messages. eexists.
  split; [apply get_conversations_run|]. fold messages.
  apply Forall_forall. intros s Hs.
  destruct (summary_latest _ _ _ _ _ (order_by_sorted _) Hs)
    as (m & Hm & Hc & Hlatest & Htext & _).
  exists m. split; [exact Hm|]. split; [exact Hc|].
  split; [exact Hlatest|]. split; [exact Htext|].
  rewrite Htext. unfold first_50.
  split; [rewrite substring_0_length; lia|].
  split; [apply substring_0_prefix|].
  intros Hlong.
  assert (Hlen : String.length (String.substring 0 50
                                  (ChatMessage.content m)) = 50%nat)
    by (rewrite substring_0_length; lia).
  split; [exact Hlen|]. intros E. rewrite E in Hlen. lia.
Qed.

(** ** Frames of type ["read"] *)

Lemma handle_frame_read websocket user_id data now w :
  get data "type" = PStr "read" →
  handle_frame websocket user_id data now w = on_read user_id data now w.
Proof. intros H. unfold handle_frame. by rewrite H. Qed.

Lemma filter_none {A : Type} (P : A → Prop) `{!∀ x, Decision (P x)}
    (l : list A) :
  (∀ x, x ∈ l → ¬ P x) → filter P l = [].
Proof.
  induction l as [|x l IH]; intros Hno; [done|].
  rewrite filter_cons, decide_False by (apply Hno; by left).
  apply IH. intros y Hy. apply Hno. by right.
Qed.

(** With a unique primary key the query of lines 102-109 finds the
    message it names. *)
Lemma select_by_id (rows : list ChatMessage.t) (m : ChatMessage.t) :
  NoDup (ChatMessage.id <$> rows) →
  m ∈ rows →
  filter (λ r, ChatMessage.id r = ChatMessage.id m
               ∧ ChatMessage.receiver_id r = ChatMessage.receiver_id m)
    rows
  = [m].
Proof.
  induction rows as [|r rows IH]; intros Hnd Hm.
  - by apply not_elem_of_nil in Hm.
  - rewrite fmap_cons in Hnd. apply NoDup_cons in Hnd as [Hr Hnd].
    rewrite filter_cons. apply elem_of_cons in Hm as [->|Hm].
    + rewrite decide_True by done. f_equal.
      apply filter_none. intros r' Hr' [Hid _].
      apply Hr. rewrite <- Hid. by apply list_elem_of_fmap_2.
    + rewrite decide_False; [by apply IH|].
      intros [Hid _]. apply Hr. rewrite Hid. by apply list_elem_of_fmap_2.
Qed.

Lemma update_read_elem_of now (rows : list ChatMessage.t) m :
  m ∈ rows →
  ChatMessage.mark_read now m ∈ update_read now (ChatMessage.id m) rows.
Proof.
  intros Hm. unfold update_read.
  apply list_elem_of_fmap. exists m. split; [|exact Hm].
  by rewrite bool_decide_eq_true_2.
Qed.

(** C7, evaluated on the live path.  A ["read"] frame from the receiver
    of a message that is already marked read writes the row again: its
    read timestamp becomes the time of the frame, whatever it was. *)
Theorem read_frame_restamps (websocket : WebSocket) (user_id : pyval)
    (data : pydict) (now : Z) (w : World) (message : ChatMessage.t)
    (stamp : Z) :
  get data "type" = PStr "read" →
  truthy (get data "message_id") = true →
  int_col (get data "message_id") = Some (ChatMessage.id message) →
  int_col user_id = Some (ChatMessage.receiver_id message) →
  unique_ids w →
  message ∈ chat_messages w →
  ChatMessage.is_read message = true →
  ChatMessage.read_at message = Some stamp →
  (∀ sender_ws,
     active_connections w !! PInt (ChatMessage.sender_id message)
     = Some sender_ws →
     sender_ws ∉ hung_up w) →
  ∃ w', handle_frame websocket user_id data now w = (Return tt, w')
    ∧ chat_messages w'
      = update_read now (ChatMessage.id message) (chat_messages w)
    ∧ ChatMessage.mark_read now message ∈ chat_messages w'
    ∧ ChatMessage.read_at (ChatMessage.mark_read now message) = Some now
    ∧ (now ≠ stamp →
       ChatMessage.read_at (ChatMessage.mark_read now message)
       ≠ ChatMessage.read_at message).
Proof.
  intros Hty Htruthy Hid Huser Hnd Hm Hread Hstamp Hopen.
  rewrite (handle_frame_read _ _ _ _ _ Hty).
  unfold on_read. rewrite Htruthy, Hid, Huser. run.
  rewrite (select_by_id _ _ Hnd Hm). cbn [scalar_one_or_none]. run.
  unfold db_mark_read at 1. run.
  set (w1 := emit _ _).
  assert (Hrows : chat_messages w1
                  = update_read now (ChatMessage.id message)
                      (chat_messages w)) by reflexivity.
  assert (Hfinal : ∀ w', chat_messages w' = chat_messages w1 →
            chat_messages w'
            = update_read now (ChatMessage.id message) (chat_messages w)
            ∧ ChatMessage.mark_read now message ∈ chat_messages w'
            ∧ ChatMessage.read_at (ChatMessage.mark_read now message)
              = Some now
            ∧ (now ≠ stamp →
               ChatMessage.read_at (ChatMessage.mark_read now message)
               ≠ ChatMessage.read_at message)).
  { intros w' ->. rewrite Hrows. split; [done|].
    split; [by apply update_read_elem_of|]. split; [done|].
    rewrite Hstamp. simpl. congruence. }
  destruct (active_connections w1 !! PInt (ChatMessage.sender_id message))
    as [sender_ws|] eqn:Hreg.
  - rewrite run_send_json by (by apply Hopen).
    eexists. split; [reflexivity|]. by apply Hfinal.
  - rewrite run_ret. eexists. split; [reflexivity|]. by apply Hfinal.
Qed.

(** The REST path tests the flag first (line 229): a message that is
    already read keeps its row, timestamp included, through
    [get_chat_history]. *)
Lemma get_chat_history_keeps_stamp other_user_id skip limit current_user
    now w m :
  unique_ids w →
  m ∈ chat_messages w →
  ChatMessage.is_read m = true →
  m ∈ chat_messages
        (get_chat_history other_user_id skip limit current_user now w).2.
Proof.
  intros Hnd Hm Hread.
  destruct (users w !! other_user_id) as [u|] eqn:Hu.
  - destruct (offset_limit engine skip limit
                (order_by_created_at_desc
                   (filter (between current_user other_user_id)
                      (chat_messages w)))) as [page|] eqn:Hpage.
    2:{ rewrite get_chat_history_refused; [done|by rewrite Hu|done]. }
    destruct (get_chat_history_run other_user_id skip limit current_user
                now w page) as (w' & Hrun & Hrows & _);
      [by rewrite Hu|done|].
    rewrite Hrun. cbn [snd]. rewrite Hrows.
    apply list_elem_of_fmap. exists m. split; [|exact Hm].
    rewrite bool_decide_eq_false_2; [done|].
    intros (m' & Hid & Hm')%list_elem_of_fmap.
    apply list_elem_of_filter in Hm' as [[_ Hunread] Hin].
    apply (page_elem_of (between current_user other_user_id) page
             (chat_messages w)) in Hin as [_ Hrow];
      [|by eapply offset_limit_sublist].
    assert (m = m') as <- by eauto using unique_id_eq.
    congruence.
  - by rewrite get_chat_history_unknown.
Qed.

(** ** What the handlers leave as it is *)

#[local] Instance marked_refl : Reflexive marked.
Proof. intros r. by left. Qed.

Lemma marked_trans (a b c : ChatMessage.t) :
  marked a b → marked b c → marked a c.
Proof.
  intros [->|[t1 ->]] [->|[t2 ->]].
  - by left.
  - right. by exists t2.
  - right. by exists t1.
  - right. by exists t2.
Qed.

Lemma marked_fields (r r' : ChatMessage.t) :
  marked r r' →
  ChatMessage.id r' = ChatMessage.id r
  ∧ ChatMessage.content r' = ChatMessage.content r
  ∧ ChatMessage.sender_id r' = ChatMessage.sender_id r
  ∧ ChatMessage.receiver_id r' = ChatMessage.receiver_id r
  ∧ ChatMessage.created_at r' = ChatMessage.created_at r
  ∧ (ChatMessage.is_read r = true → ChatMessage.is_read r' = true).
Proof. intros [->|[t ->]]; done. Qed.

Lemma Forall2_marked_refl (rows : list ChatMessage.t) :
  Forall2 marked rows rows.
Proof. induction rows; constructor; [reflexivity|done]. Qed.

#[local] Instance grows_refl : Reflexive grows.
Proof.
  intros rows. exists rows, []. split; [by rewrite app_nil_r|].
  apply Forall2_marked_refl.
Qed.

#[local] Instance grows_trans : Transitive grows.
Proof.
  intros rows rows1 rows2 (kept & new & -> & H1) (kept' & new' & -> & H2).
  apply Forall2_app_inv_l in H2 as (k1 & k2 & Hk1 & Hk2 & ->).
  exists k1, (k2 ++ new'). split; [by rewrite app_assoc|].
  eapply Forall2_trans; [|exact H1|exact Hk1].
  intros a b c. apply marked_trans.
Qed.

Lemma grows_app (rows new : list ChatMessage.t) : grows rows (rows ++ new).
Proof. exists rows, new. split; [done|apply Forall2_marked_refl]. Qed.

Lemma grows_update_read now message_id (rows : list ChatMessage.t) :
  grows rows (update_read now message_id rows).
Proof.
  exists (update_read now message_id rows), [].
  split; [by rewrite app_nil_r|]. unfold update_read.
  apply Forall2_fmap_r, Forall_Forall2_diag, Forall_forall.
  intros r _. simpl. case_bool_decide; [right; by exists now|by left].
Qed.

Lemma update_read_ids now message_id (rows : list ChatMessage.t) :
  ChatMessage.id <$> update_read now message_id rows
  = ChatMessage.id <$> rows.
Proof.
  unfold update_read. rewrite <- list_fmap_compose.
  apply list_fmap_ext. intros i r _. simpl. by case_bool_decide.
Qed.

#[local] Instance evolves_refl : Reflexive evolves.
Proof. intros w. unfold evolves. split_and!; try done; reflexivity. Qed.

#[local] Instance evolves_trans : Transitive evolves.
Proof.
  intros w1 w2 w3 (Hc & Hu & Hk & Hh & Hg & Hn & Hs & Ht)
    (Hc' & Hu' & Hk' & Hh' & Hg' & Hn' & Hs' & Ht').
  split; [congruence|]. split; [congruence|]. split; [congruence|].
  split; [congruence|]. split; [by etrans|]. split; [lia|].
  split; [auto|by etrans].
Qed.

Lemma evolves_emit e w : evolves w (emit e w).
Proof.
  unfold evolves. split_and!; try done; try reflexivity.
  simpl. by apply prefix_app_r.
Qed.

Lemma preserves_bind {A B : Type} (R : relation World) `{!Transitive R}
    (c : io A) (k : A → io B) :
  preserves R c → (∀ a, preserves R (k a)) → preserves R (c ≫= k).
Proof.
  intros Hc Hk w. rewrite run_bind. specialize (Hc w).
  destruct (c w) as [[a|] w1]; simpl in *; [|done].
  etrans; [exact Hc|apply Hk].
Qed.

Lemma preserves_ret {A : Type} (R : relation World) `{!Reflexive R} (a : A) :
  preserves R (mret a : io A).
Proof. intros w. reflexivity. Qed.

Lemma preserves_raise {A : Type} (R : relation World) `{!Reflexive R} :
  preserves R (raise : io A).
Proof. intros w. reflexivity. Qed.

Lemma preserves_gets {A : Type} (R : relation World) `{!Reflexive R}
    (f : World → A) :
  preserves R (gets f).
Proof. intros w. reflexivity. Qed.

Lemma preserves_must {A : Type} (R : relation World) `{!Reflexive R}
    (o : option A) :
  preserves R (must o).
Proof. destruct o; [apply preserves_ret|apply preserves_raise]; done. Qed.

Lemma preserves_scalar_one_or_none {A : Type} (R : relation World)
    `{!Reflexive R} (rows : list A) :
  preserves R (scalar_one_or_none rows).
Proof.
  destruct rows as [|r [|r' rows]];
    [apply preserves_ret|apply preserves_ret|apply preserves_raise]; done.
Qed.

Lemma preserves_try_pass (R : relation World) (c : io unit) :
  preserves R c → preserves R (try_pass c).
Proof.
  intros Hc w. specialize (Hc w). unfold try_pass.
  by destruct (c w) as [[[]|] w1].
Qed.

Lemma preserves_for_each {A : Type} (R : relation World)
    `{!Reflexive R, !Transitive R} (f : A → io unit) (l : list A) :
  (∀ x, preserves R (f x)) → preserves R (for_each f l).
Proof.
  intros Hf. induction l as [|x l IH]; simpl.
  - by apply preserves_ret.
  - apply preserves_bind; [done|apply Hf|intros _; exact IH].
Qed.

Lemma send_json_evolves ws f : preserves evolves (send_json ws f).
Proof.
  intros w. unfold send_json. case_bool_decide; simpl.
  - reflexivity.
  - apply evolves_emit.
Qed.

Lemma store_ok_add (w : World) (m : ChatMessage.t) :
  ChatMessage.id m = next_id w →
  store_ok w →
  NoDup (ChatMessage.id <$> chat_messages w ++ [m])
  ∧ Forall (λ r, ChatMessage.id r < next_id w + 1) (chat_messages w ++ [m]).
Proof.
  intros Hid [Hnd Hlt]. split.
  - rewrite fmap_app. apply NoDup_app. split; [exact Hnd|].
    split; [|apply NoDup_singleton].
    intros i (r & -> & Hr)%list_elem_of_fmap Hin.
    apply list_elem_of_singleton in Hin.
    rewrite Forall_forall in Hlt. specialize (Hlt r Hr).
    simpl in Hin. lia.
  - apply Forall_app. split.
    + eapply Forall_impl; [exact Hlt|]. intros r Hr. simpl in Hr. lia.
    + constructor; [lia|constructor].
Qed.

Lemma db_add_evolves content sender_id receiver_id now :
  preserves evolves (db_add content sender_id receiver_id now).
Proof.
  intros w. unfold db_add. cbn [snd].
  etrans; [|apply evolves_emit].
  unfold evolves. split_and!; try done; simpl; try lia.
  - apply grows_app.
  - intros Hok. split; by apply store_ok_add.
Qed.

Lemma db_mark_read_evolves now m : preserves evolves (db_mark_read now m).
Proof.
  intros w. unfold db_mark_read. rewrite run_modify. cbn [snd].
  etrans; [|apply evolves_emit].
  unfold evolves. split_and!; try done; simpl.
  - apply grows_update_read.
  - intros [Hnd Hlt]. split.
    + unfold unique_ids. simpl. by rewrite update_read_ids.
    + simpl. unfold update_read.
      apply Forall_fmap. eapply Forall_impl; [exact Hlt|].
      intros r Hr. simpl. by case_bool_decide.
Qed.

Ltac keeps :=
  repeat first
    [ apply preserves_ret; apply _
    | apply preserves_raise; apply _
    | apply preserves_gets; apply _
    | apply preserves_must; apply _
    | apply preserves_scalar_one_or_none; apply _
    | apply send_json_evolves
    | apply db_add_evolves
    | apply db_mark_read_evolves
    | apply preserves_try_pass
    | apply preserves_for_each; [apply _|apply _|intros ?]
    | apply preserves_bind; [apply _| |intros ?]
    | case_match ].

Lemma on_message_evolves websocket user_id data now :
  preserves evolves (on_message websocket user_id data now).
Proof. unfold on_message. keeps. Qed.

Lemma on_typing_evolves user_id data :
  preserves evolves (on_typing user_id data).
Proof. unfold on_typing. keeps. Qed.

Lemma on_read_evolves user_id data now :
  preserves evolves (on_read user_id data now).
Proof. unfold on_read. keeps. Qed.

Lemma handle_frame_evolves websocket user_id data now :
  preserves evolves (handle_frame websocket user_id data now).
Proof.
  unfold handle_frame.
  repeat case_bool_decide;
    auto using on_message_evolves, on_typing_evolves, on_read_evolves.
  apply preserves_ret; apply _.
Qed.

Lemma receive_loop_evolves websocket user_id inbox :
  preserves evolves (receive_loop websocket user_id inbox).
Proof.
  induction inbox as [|[data now] rest IH]; simpl.
  - apply preserves_raise; apply _.
  - apply preserves_bind; [apply _|apply handle_frame_evolves|].
    intros _. exact IH.
Qed.

Lemma send_message_rest_evolves receiver_id content current_user now :
  preserves evolves (send_message_rest receiver_id content current_user now).
Proof. unfold send_message_rest. keeps. Qed.

Lemma get_chat_history_evolves other_user_id skip limit current_user now :
  preserves evolves
    (get_chat_history other_user_id skip limit current_user now).
Proof. unfold get_chat_history. keeps. Qed.

Lemma grows_keeps_history (rows rows' : list ChatMessage.t) :
  grows rows rows' → keeps_history rows rows'.
Proof.
  intros (kept & new & -> & Hkept) i r Hr.
  destruct (Forall2_lookup_l _ _ _ _ _ Hkept Hr) as (r' & Hr' & Hm).
  exists r'. split; [by apply lookup_app_l_Some|].
  by apply marked_fields.
Qed.

(** The state after a whole session: the registry without the identity
    of the session, the online key set at connect time, and for the
    rest what the frames made of it. *)
Lemma websocket_endpoint_accepted websocket token now inbox w user_id :
  token_accepted token user_id →
  let w' := (websocket_endpoint websocket token now inbox w).2 in
  active_connections w' = delete user_id (active_connections w)
  ∧ cache w' = <["online:" +:+ py_str user_id := ("1", now + 300)]> (cache w)
  ∧ users w' = users w
  ∧ grows (chat_messages w) (chat_messages w')
  ∧ (store_ok w → store_ok w').
Proof.
  intros Hacc w'. subst w'. unfold websocket_endpoint. rewrite run_bind.
  rewrite (connect_accepted _ _ _ _ _ Hacc). unfold finally.
  pose proof (receive_loop_evolves websocket user_id inbox
                (registered websocket user_id now w)) as Hev.
  destruct (receive_loop websocket user_id inbox _) as [r w1].
  cbn [snd] in *.
  destruct Hev as (Hc & Hu & Hk & _ & Hg & _ & Hs & _).
  unfold remove_connection. rewrite run_modify. cbn [snd].
  split_and!.
  - cbn [set_connections active_connections]. rewrite Hc.
    cbn [registered set_cache set_connections active_connections].
    case_bool_decide as Hin; [apply delete_insert_eq|].
    exfalso. apply Hin. rewrite lookup_insert_eq. by eexists.
  - done.
  - done.
  - exact Hg.
  - intros Hok. destruct (Hs Hok) as [Hnd Hlt]. by split.
Qed.

Lemma websocket_endpoint_rejected websocket token now inbox w :
  (¬ ∃ user_id, token_accepted token user_id) →
  websocket_endpoint websocket token now inbox w
  = (Return tt, emit (Closed websocket WS_1008_POLICY_VIOLATION) w).
Proof.
  intros Hno. unfold websocket_endpoint. rewrite run_bind.
  by rewrite (connect_rejected _ _ _ _ Hno).
Qed.

Lemma websocket_endpoint_store websocket token now inbox w :
  let w' := (websocket_endpoint websocket token now inbox w).2 in
  users w' = users w
  ∧ grows (chat_messages w) (chat_messages w')
  ∧ (store_ok w → store_ok w').
Proof.
  destruct (token_accepted_dec token) as [[user_id Hacc]|Hno].
  - destruct (websocket_endpoint_accepted websocket token now inbox w
                user_id Hacc) as (_ & _ & Hu & Hg & Hs).
    by split_and!.
  - rewrite (websocket_endpoint_rejected _ _ _ _ _ Hno). simpl.
    split_and!; [done|reflexivity|done].
Qed.

(** X1.  Handling frames, however many and whatever they hold, and
    however the loop ends, leaves the registry, the users and the cache
    (the online keys with their expiry) as they were. *)
Theorem frames_leave_presence (websocket : WebSocket) (user_id : pyval)
    (inbox : list (pydict * Z)) (w : World) :
  let w' := (receive_loop websocket user_id inbox w).2 in
  active_connections w' = active_connections w
  ∧ users w' = users w
  ∧ cache w' = cache w.
Proof.
  destruct (receive_loop_evolves websocket user_id inbox w)
    as (Hc & Hu & Hk & _).
  by split_and!.
Qed.

(** X2.  No operation of the chat core deletes a message or rewrites its
    text, parties or creation time, nor makes a read message unread:
    after a whole live session, after [send_message_rest] and after
    [get_chat_history], every earlier row is still at its place with
    these fields; [get_conversations] leaves the whole state as it is. *)
Theorem messages_are_kept (w : World) :
  (∀ websocket token now inbox,
     keeps_history (chat_messages w)
       (chat_messages (websocket_endpoint websocket token now inbox w).2))
  ∧ (∀ receiver_id content current_user now,
       keeps_history (chat_messages w)
         (chat_messages
            (send_message_rest receiver_id content current_user now w).2))
  ∧ (∀ other_user_id skip limit current_user now,
       keeps_history (chat_messages w)
         (chat_messages
            (get_chat_history other_user_id skip limit current_user now
               w).2))
  ∧ (∀ current_user, (get_conversations current_user w).2 = w).
Proof.
  split_and!.
  - intros. apply grows_keeps_history, websocket_endpoint_store.
  - intros. apply grows_keeps_history, send_message_rest_evolves.
  - intros. apply grows_keeps_history, get_chat_history_evolves.
  - intros. by rewrite get_conversations_run.
Qed.

(** X3.  The primary key stays unique and below the sequence through
    every operation of the chat core, and it is so in the empty state. *)
Theorem store_ok_invariant (w : World) :
  store_ok w →
  (∀ websocket token now inbox,
     store_ok (websocket_endpoint websocket token now inbox w).2)
  ∧ (∀ websocket user_id data now,
       store_ok (handle_frame websocket user_id data now w).2)
  ∧ (∀ receiver_id content current_user now,
       store_ok (send_message_rest receiver_id content current_user now w).2)
  ∧ (∀ other_user_id skip limit current_user now,
       store_ok
         (get_chat_history other_user_id skip limit current_user now w).2)
  ∧ store_ok empty_world.
Proof.
  intros Hok. split_and!.
  - intros. by apply websocket_endpoint_store.
  - intros. by apply handle_frame_evolves.
  - intros. by apply send_message_rest_evolves.
  - intros. by apply get_chat_history_evolves.
  - split; [apply NoDup_nil_2|constructor].
Qed.

(** X4.  A whole live session, from the token check to the [finally]
    block: with an accepted token the registry ends as it began minus
    the identity of the session (an entry that another connection of the
    same identity held before is gone too) and the online key of the
    identity holds the expiry set at connect time; with a refused token
    registry and cache are untouched. *)
Theorem session_registry_effect (websocket : WebSocket) (token : string)
    (now : Z) (inbox : list (pydict * Z)) (w : World) :
  let w' := (websocket_endpoint websocket token now inbox w).2 in
  (∀ user_id, token_accepted token user_id →
     active_connections w' = delete user_id (active_connections w)
     ∧ cache w'
       = <["online:" +:+ py_str user_id := ("1", now + 300)]> (cache w))
  ∧ ((¬ ∃ user_id, token_accepted token user_id) →
     active_connections w' = active_connections w ∧ cache w' = cache w).
Proof.
  split.
  - intros user_id Hacc.
    destruct (websocket_endpoint_accepted websocket token now inbox w
                user_id Hacc) as (Hc & Hk & _).
    by split.
  - intros Hno. by rewrite (websocket_endpoint_rejected _ _ _ _ _ Hno).
Qed.

(** ** More on the frames *)

Lemma scalars_fmap (data : pydict) : scalars (JScalar <$> data) = data.
Proof.
  apply map_eq. intros k. unfold scalars.
  rewrite lookup_omap, lookup_fmap. by destruct (data !! k).
Qed.

Lemma json_get_fmap (data : pydict) (k : string) :
  json_get (JScalar <$> data) k = JScalar (get data k).
Proof.
  unfold json_get, get. rewrite lookup_fmap. by destruct (data !! k).
Qed.

Lemma get_scalars (fields : gmap string json) (k : string) (v : pyval) :
  json_get fields k = JScalar v → get (scalars fields) k = v.
Proof.
  unfold json_get, get, scalars. rewrite lookup_omap.
  destruct (fields !! k) as [[v'|filled]|]; simpl; intros Hv;
    [by injection Hv|discriminate|by injection Hv].
Qed.

Lemma bool_decide_scalar (a b : pyval) :
  bool_decide (JScalar a = JScalar b) = bool_decide (a = b).
Proof. apply bool_decide_ext. split; congruence. Qed.

(** On an object whose fields are scalars, the body of the loop is
    [handle_frame]. *)
Lemma handle_received_scalars websocket user_id (data : pydict) now w :
  handle_received websocket user_id (RObject (JScalar <$> data)) now w
  = handle_frame websocket user_id data now w.
Proof.
  unfold handle_received, handle_frame.
  rewrite scalars_fmap, !json_get_fmap. cbn [json_truthy is_compound].
  rewrite !bool_decide_scalar.
  repeat case_bool_decide; try done.
  - unfold on_message.
    by destruct (negb (truthy (get data "receiver_id"))
                 || negb (truthy (get data "content"))).
  - unfold on_typing. run. by destruct (truthy (get data "receiver_id")).
  - unfold on_read. by destruct (truthy (get data "message_id")).
Qed.

(** X5.  What the loop does with the frames it has no use for.  Passed
    over without any effect: an object whose type is none of
    ["message"], ["typing"] and ["read"] (or is missing, or is no
    string), a ["typing"] frame whose [receiver_id] is empty or is a
    scalar without an entry in the registry, and a ["read"] frame whose
    [message_id] is empty.  Not passed over: a ["typing"] frame whose
    [receiver_id] is a filled array or object, and a frame that is no
    object at all, raise and end the session, the state unchanged.  On
    objects with scalar fields the body of the loop is
    [handle_frame]. *)
Theorem ignored_frames (websocket : WebSocket) (user_id : pyval)
    (fields : gmap string json) (now : Z) (w : World) :
  let type := json_get fields "type" in
  let receiver_id := json_get fields "receiver_id" in
  ((type ≠ JScalar (PStr "message") ∧ type ≠ JScalar (PStr "typing")
    ∧ type ≠ JScalar (PStr "read"))
   ∨ (type = JScalar (PStr "typing")
      ∧ (json_truthy receiver_id = false
         ∨ ∃ v, receiver_id = JScalar v
             ∧ active_connections w !! v = None))
   ∨ (type = JScalar (PStr "read")
      ∧ json_truthy (json_get fields "message_id") = false) →
   handle_received websocket user_id (RObject fields) now w
   = (Return tt, w))
  ∧ (type = JScalar (PStr "typing") → receiver_id = JCompound true →
     handle_received websocket user_id (RObject fields) now w = (Raise, w))
  ∧ handle_received websocket user_id ROther now w = (Raise, w)
  ∧ (∀ data : pydict,
       handle_received websocket user_id (RObject (JScalar <$> data)) now w
       = handle_frame websocket user_id data now w).
Proof.
  intros type receiver_id. split_and!.
  - intros [(Hm & Ht & Hr)|[[Hty Hcase]|[Hty Hid]]].
    + unfold handle_received. fold type.
      by rewrite !bool_decide_eq_false_2.
    + unfold handle_received. fold type receiver_id. rewrite Hty.
      rewrite bool_decide_eq_false_2 by done.
      rewrite bool_decide_eq_true_2 by done.
      destruct Hcase as [->|(v & Hv & Hreg)]; [done|].
      rewrite Hv. cbn [json_truthy is_compound].
      destruct (truthy v); [|done].
      apply on_typing_absent. by rewrite (get_scalars _ _ _ Hv).
    + unfold handle_received. fold type. rewrite Hty.
      rewrite !bool_decide_eq_false_2 by done.
      rewrite bool_decide_eq_true_2 by done. by rewrite Hid.
  - intros Hty Hrecv. unfold handle_received. fold type receiver_id.
    rewrite Hty, Hrecv.
    rewrite bool_decide_eq_false_2 by done.
    by rewrite bool_decide_eq_true_2.
  - done.
  - intros data. apply handle_received_scalars.
Qed.

(** X6.  A ["typing"] frame never touches the messages.  When the
    [receiver_id] is not empty and has an entry, its socket is sent one
    ["typing"] frame carrying the identity of the session as it is; when
    that socket has hung up, the handler raises instead, which ends the
    session of the sender. *)
Theorem typing_frame_contract (websocket : WebSocket) (user_id : pyval)
    (data : pydict) (now : Z) (w : World) (receiver_ws : WebSocket) :
  get data "type" = PStr "typing" →
  truthy (get data "receiver_id") = true →
  active_connections w !! get data "receiver_id" = Some receiver_ws →
  (receiver_ws ∉ hung_up w →
   handle_frame websocket user_id data now w
   = (Return tt, emit (Sent receiver_ws (FTyping user_id)) w))
  ∧ (receiver_ws ∈ hung_up w →
     ∀ rest,
       receive_loop websocket user_id ((data, now) :: rest) w = (Raise, w)).
Proof.
  intros Hty Htruthy Hreg. split.
  - intros Hopen. rewrite handle_frame_typing by done.
    by apply on_typing_present.
  - intros Hgone rest. cbn [receive_loop]. rewrite run_bind.
    rewrite handle_frame_typing by done. unfold on_typing. run.
    rewrite Hreg, Htruthy. by rewrite run_send_json_hung_up.
Qed.

(** X7.  A forward that raises is fatal on the live path: when the
    socket registered under the [receiver_id] of a ["message"] frame has
    hung up, the message is inserted, nothing is sent, not even the
    acknowledgment, and the loop ends without handling the frames that
    follow. *)
Theorem message_forward_failure (websocket : WebSocket) (user_id : pyval)
    (data : pydict) (now : Z) (w : World) (receiver_ws : WebSocket)
    (content_col : string) (sender_col receiver_col : Z) :
  get data "type" = PStr "message" →
  truthy (get data "receiver_id") = true →
  truthy (get data "content") = true →
  text_col (get data "content") = Some content_col →
  int_col user_id = Some sender_col →
  int_col (get data "receiver_id") = Some receiver_col →
  active_connections w !! get data "receiver_id" = Some receiver_ws →
  receiver_ws ∈ hung_up w →
  let message :=
    ChatMessage.Build (next_id w) content_col sender_col receiver_col
      false false false now None in
  ∀ rest,
    ∃ w', receive_loop websocket user_id ((data, now) :: rest) w
          = (Raise, w')
      ∧ chat_messages w' = chat_messages w ++ [message]
      ∧ trace w' = trace w ++ [Inserted message].
Proof.
  intros Hty Hr Hc Htext Hsend Hrecv Hreg Hgone message rest.
  cbn [receive_loop]. rewrite run_bind.
  rewrite (handle_frame_message _ _ _ _ _ Hty).
  unfold on_message. rewrite Hr, Hc, Htext, Hsend, Hrecv. simpl.
  run. unfold db_add at 1. run. simpl. rewrite Hreg.
  rewrite run_send_json_hung_up by done.
  eexists. split; [reflexivity|]. done.
Qed.

(** X8.  A session cannot mark what is not addressed to it: a ["read"]
    frame naming a message that does not exist, or whose receiver is
    another user, changes nothing and notifies nobody. *)
Theorem read_frame_foreign_message (websocket : WebSocket)
    (user_id : pyval) (data : pydict) (now : Z) (w : World)
    (id_col user_col : Z) :
  get data "type" = PStr "read" →
  int_col (get data "message_id") = Some id_col →
  int_col user_id = Some user_col →
  (∀ r, r ∈ chat_messages w → ChatMessage.id r = id_col →
        ChatMessage.receiver_id r ≠ user_col) →
  handle_frame websocket user_id data now w = (Return tt, w).
Proof.
  intros Hty Hid Huser Hforeign. rewrite handle_frame_read by done.
  unfold on_read. destruct (truthy _); [|done].
  rewrite Hid, Huser. run. rewrite filter_none; [done|].
  intros r Hr [Hrid Hrecv]. by apply (Hforeign r).
Qed.

(** X9.  A ["read"] frame from the receiver of a message marks that row
    and no other (flag and time of the frame), and a ["read"] frame
    carrying the [message_id] as it came is sent to the socket
    registered under the integer id of the sender, if there is one;
    with a registry keyed by strings nothing is sent. *)
Theorem read_frame_marks_and_notifies (websocket : WebSocket)
    (user_id : pyval) (data : pydict) (now : Z) (w : World)
    (message : ChatMessage.t) :
  get data "type" = PStr "read" →
  truthy (get data "message_id") = true →
  int_col (get data "message_id") = Some (ChatMessage.id message) →
  int_col user_id = Some (ChatMessage.receiver_id message) →
  unique_ids w →
  message ∈ chat_messages w →
  (∀ sender_ws,
     active_connections w !! PInt (ChatMessage.sender_id message)
     = Some sender_ws →
     sender_ws ∉ hung_up w) →
  ∃ w', handle_frame websocket user_id data now w = (Return tt, w')
    ∧ chat_messages w'
      = (λ r, if bool_decide (r = message)
              then ChatMessage.mark_read now r else r) <$> chat_messages w
    ∧ trace w'
      = trace w ++ [Updated (ChatMessage.mark_read now message)]
        ++ match active_connections w
                 !! PInt (ChatMessage.sender_id message) with
           | Some sender_ws =>
               [Sent sender_ws (FRead (get data "message_id"))]
           | None => []
           end
    ∧ (string_keys (active_connections w) →
       trace w' = trace w ++ [Updated (ChatMessage.mark_read now message)]).
Proof.
  intros Hty Htruthy Hid Huser Hnd Hm Hopen.
  rewrite (handle_frame_read _ _ _ _ _ Hty).
  unfold on_read. rewrite Htruthy, Hid, Huser. run.
  rewrite (select_by_id _ _ Hnd Hm). cbn [scalar_one_or_none]. run.
  unfold db_mark_read at 1. run.
  assert (Hrows : update_read now (ChatMessage.id message) (chat_messages w)
                  = (λ r, if bool_decide (r = message)
                          then ChatMessage.mark_read now r else r)
                      <$> chat_messages w).
  { unfold update_read. apply list_fmap_ext. intros i r Hr.
    apply list_elem_of_lookup_2 in Hr.
    rewrite (bool_decide_ext (ChatMessage.id r = ChatMessage.id message)
               (r = message)); [done|].
    split; [|by intros ->]. intros E. by apply (unique_id_eq _ _ _ Hnd). }
  cbn [emit set_messages active_connections].
  destruct (active_connections w !! PInt (ChatMessage.sender_id message))
    as [sender_ws|] eqn:Hreg.
  - rewrite run_send_json by (by apply Hopen).
    eexists. split; [reflexivity|]. simpl. rewrite Hrows.
    split; [done|]. split; [by rewrite <- app_assoc|].
    intros Hkeys. destruct (Hkeys _ _ Hreg) as [s Hs]. discriminate.
  - rewrite run_ret. eexists. split; [reflexivity|]. simpl. rewrite Hrows.
    done.
Qed.

(** ** More on the REST endpoints *)

Lemma connect_string_keys websocket token now w (s : string) :
  string_keys (active_connections w) →
  token_accepted token (PStr s) →
  string_keys (active_connections (websocket_connect websocket token now w).2).
Proof.
  intros Hkeys Hacc. rewrite (connect_accepted _ _ _ _ _ Hacc).
  cbn [snd registered set_cache set_connections active_connections].
  intros k ws. rewrite lookup_insert. case_decide as E.
  - intros _. exists s. by rewrite <- E.
  - apply Hkeys.
Qed.

Lemma send_message_rest_string_keys receiver_id content current_user now w :
  string_keys (active_connections w) →
  is_Some (users w !! receiver_id) →
  receiver_id ≠ current_user →
  let message :=
    ChatMessage.Build (next_id w) content current_user receiver_id
      false false false now None in
  ∃ w', send_message_rest receiver_id content current_user now w
        = (Return (Response HTTP_201_CREATED
                     (MessageResponse.model_validate message)), w')
    ∧ chat_messages w' = chat_messages w ++ [message]
    ∧ trace w' = trace w ++ [Inserted message].
Proof.
  intros Hkeys [u Hu] Hne message. unfold send_message_rest. run.
  rewrite Hu. rewrite bool_decide_eq_false_2 by done. run.
  unfold db_add at 1. run. simpl.
  destruct (active_connections w !! PInt receiver_id) as [ws|] eqn:Hreg.
  { destruct (Hkeys _ _ Hreg) as [s Hs]. discriminate. }
  rewrite run_ret. eexists. split; [reflexivity|done].
Qed.

(** X10.  A session opened with a token that [create_access_token]
    issued is registered under a string, whatever the subject was, and a
    registry keyed by strings stays so.  [send_message_rest] looks the
    receiver up under its integer id: with such a registry it inserts
    the message and forwards nothing, whether the receiver is connected
    or not. *)
Theorem rest_send_misses_issued_sessions (websocket : WebSocket)
    (data : pydict) (sub : pyval) (connected_at : Z) (w : World)
    (receiver_id : Z) (content : string) (current_user now : Z) :
  let claims :=
    token_claims data (connected_at + ACCESS_TOKEN_EXPIRE_MINUTES * 60)
      "access" in
  jwt_decode (jwt_encode claims) = Some claims →
  data !! "sub" = Some sub →
  py_str sub ≠ "" →
  string_keys (active_connections w) →
  is_Some (users w !! receiver_id) →
  receiver_id ≠ current_user →
  let w1 :=
    (websocket_connect websocket (create_access_token data connected_at)
       connected_at w).2 in
  let message :=
    ChatMessage.Build (next_id w) content current_user receiver_id
      false false false now None in
  active_connections w1 !! PStr (py_str sub) = Some websocket
  ∧ string_keys (active_connections w1)
  ∧ ∃ w2, send_message_rest receiver_id content current_user now w1
          = (Return (Response HTTP_201_CREATED
                       (MessageResponse.model_validate message)), w2)
      ∧ trace w2 = trace w1 ++ [Inserted message].
Proof.
  intros claims Hjwt Hsub Hne Hkeys Hrecv Hneq w1 message.
  pose proof (access_token_session data connected_at sub Hjwt Hsub Hne)
    as Hacc.
  assert (Hkeys1 : string_keys (active_connections w1))
    by (by eapply connect_string_keys).
  split.
  { subst w1. rewrite (connect_accepted _ _ _ _ _ Hacc).
    apply lookup_insert_eq. }
  split; [exact Hkeys1|].
  assert (Hw1 : users w1 = users w ∧ next_id w1 = next_id w).
  { subst w1. by rewrite (connect_accepted _ _ _ _ _ Hacc). }
  destruct Hw1 as [Hu Hn].
  destruct (send_message_rest_string_keys receiver_id content current_user
              now w1 Hkeys1) as (w2 & Hrun & _ & Htrace);
    [by rewrite Hu|done|].
  exists w2. rewrite Hn in Hrun, Htrace. by split.
Qed.

Lemma newest_first_head (l conv : list ChatMessage.t) (m : ChatMessage.t) :
  StronglySorted newer_first l →
  l ≡ₚ conv ++ [m] →
  (∀ r, r ∈ conv → ChatMessage.created_at r < ChatMessage.created_at m) →
  ∃ rest, l = m :: rest.
Proof.
  intros Hsorted Hperm Hnew. destruct l as [|x rest].
  { apply Permutation_length in Hperm. rewrite length_app in Hperm.
    simpl in Hperm. lia. }
  destruct (decide (x = m)) as [->|Hx]; [by exists rest|]. exfalso.
  assert (Hxin : x ∈ conv).
  { assert (Hin : x ∈ conv ++ [m]) by (rewrite <- Hperm; by left).
    apply elem_of_app in Hin as [?|Hin]; [done|].
    by apply list_elem_of_singleton in Hin. }
  assert (Hmin : m ∈ rest).
  { assert (Hin : m ∈ x :: rest).
    { rewrite Hperm. apply elem_of_app. right. by left. }
    apply elem_of_cons in Hin as [?|?]; [congruence|done]. }
  apply StronglySorted_cons in Hsorted as [Hall _].
  rewrite Forall_forall in Hall. specialize (Hall m Hmin).
  specialize (Hnew x Hxin). unfold newer_first in Hall. lia.
Qed.

(** The answer of [get_chat_history] for the page it fetches. *)
Lemma get_chat_history_last other_user_id limit current_user now w m :
  is_Some (users w !! other_user_id) →
  0 < limit →
  (∃ rest,
     order_by_created_at_desc
       (filter (between current_user other_user_id) (chat_messages w))
     = m :: rest) →
  ∃ w' body,
    get_chat_history other_user_id 0 limit current_user now w
    = (Return (Response HTTP_200_OK body), w')
    ∧ last body
      = Some (MessageResponse.model_validate
                (mark_fetched current_user now m)).
Proof.
  intros Hother Hlimit [rest Hsorted].
  assert (Hskip : 0 ≤ 0) by lia. assert (Hlimit' : 0 ≤ limit) by lia.
  destruct (get_chat_history_run other_user_id 0 limit current_user now w
              _ Hother (offset_limit_nonneg _ _ _ Hskip Hlimit'))
    as (w' & Hrun & _).
  eexists _, _. split; [exact Hrun|].
  rewrite Hsorted. change (Z.to_nat 0) with 0%nat. rewrite drop_0.
  destruct (Z.to_nat limit) as [|k] eqn:Hk; [lia|].
  cbn [take]. rewrite fmap_cons, fmap_last, last_reverse. done.
Qed.

(** X11.  What was just sent ends the history: after [send_message_rest]
    of a message newer than the conversation so far, [get_chat_history]
    from offset 0 with a positive limit ends, for the receiver, with
    that message shown as read at the time of the call, and for the
    sender with that message unread. *)
Theorem sent_message_ends_history (receiver_id : Z) (content : string)
    (sender now later : Z) (limit : Z) (w : World) :
  is_Some (users w !! receiver_id) →
  is_Some (users w !! sender) →
  receiver_id ≠ sender →
  (∀ r, r ∈ chat_messages w → between sender receiver_id r →
        ChatMessage.created_at r < now) →
  0 < limit →
  let w1 := (send_message_rest receiver_id content sender now w).2 in
  (∃ w2 body,
     get_chat_history sender 0 limit receiver_id later w1
     = (Return (Response HTTP_200_OK body), w2)
     ∧ last body
       = Some (MessageResponse.Build (next_id w) content sender
                 receiver_id true now (Some later)))
  ∧ (∃ w2 body,
       get_chat_history receiver_id 0 limit sender later w1
       = (Return (Response HTTP_200_OK body), w2)
       ∧ last body
         = Some (MessageResponse.Build (next_id w) content sender
                   receiver_id false now None)).
Proof.
  intros Hrecv Hsend Hne Hold Hlimit w1.
  destruct (send_message_rest_created receiver_id content sender now w
              Hrecv Hne) as (w1' & Hrun & Hrows & _).
  pose proof (send_message_rest_evolves receiver_id content sender now w)
    as (_ & Hu & _).
  assert (Hw1 : w1 = w1') by (subst w1; by rewrite Hrun).
  fold w1 in Hu. rewrite <- Hw1 in Hrows. clear Hrun Hw1 w1'.
  set (m := ChatMessage.Build (next_id w) content sender receiver_id
              false false false now None) in Hrows.
  assert (Hhead : ∀ a b,
            (∀ r, between a b r ↔ between sender receiver_id r) →
            ∃ rest, order_by_created_at_desc
                      (filter (between a b) (chat_messages w1))
                    = m :: rest).
  { intros a b Hab.
    apply (newest_first_head _ (filter (between a b) (chat_messages w))).
    - apply order_by_sorted.
    - rewrite order_by_perm, Hrows, filter_app.
      rewrite (filter_cons _ m), decide_True; [done|].
      apply Hab. left. done.
    - intros r [Hb Hr]%list_elem_of_filter. apply Hold; [done|].
      by apply Hab. }
  split.
  - destruct (get_chat_history_last sender limit receiver_id later w1 m)
      as (w2 & body & Hrun & Hlast); [by rewrite Hu|done| |].
    { apply Hhead. intros r. unfold between.
      split; (intros [?|?]; [by right|by left]). }
    exists w2, body. split; [exact Hrun|]. rewrite Hlast.
    unfold mark_fetched. rewrite bool_decide_eq_true_2; [done|].
    by split.
  - destruct (get_chat_history_last receiver_id limit sender later w1 m)
      as (w2 & body & Hrun & Hlast); [by rewrite Hu|done| |].
    { apply Hhead. intros r. reflexivity. }
    exists w2, body. split; [exact Hrun|]. rewrite Hlast.
    unfold mark_fetched. rewrite bool_decide_eq_false_2; [done|].
    intros [E _]. simpl in E. congruence.
Qed.

(** X12.  Fetching the whole conversation clears its unread count: after
    [get_chat_history] from offset 0 with a limit that covers the
    conversation, the store holds no unread message from the counterpart
    to the viewer, and the summary that [get_conversations] gives for
    the counterpart says 0. *)
Theorem full_history_clears_unread (other_user_id : Z) (limit : Z)
    (current_user now : Z) (w : World) :
  is_Some (users w !! other_user_id) →
  Z.of_nat
    (length (filter (between current_user other_user_id) (chat_messages w)))
  ≤ limit →
  let w1 :=
    (get_chat_history other_user_id 0 limit current_user now w).2 in
  store_unread_count (chat_messages w1) current_user other_user_id = 0
  ∧ ∃ body,
      get_conversations current_user w1
      = (Return (Response HTTP_200_OK body), w1)
      ∧ Forall (λ s, ConversationResponse.user_id s = other_user_id →
                     ConversationResponse.unread_count s = 0) body.
Proof.
  intros Hother Hlimit w1.
  assert (Hskip : 0 ≤ 0) by lia. assert (Hlimit' : 0 ≤ limit) by lia.
  destruct (get_chat_history_run other_user_id 0 limit current_user now w
              _ Hother (offset_limit_nonneg _ _ _ Hskip Hlimit'))
    as (w1' & Hrun & Hrows & _).
  assert (Hw1 : w1 = w1') by (subst w1; by rewrite Hrun).
  rewrite <- Hw1 in Hrows. clear Hrun Hw1 w1'.
  change (Z.to_nat 0) with 0%nat in Hrows.
  rewrite drop_0, take_ge in Hrows by (rewrite order_by_perm; lia).
  assert (Hzero : store_unread_count (chat_messages w1) current_user
                    other_user_id = 0).
  { unfold store_unread_count. rewrite filter_none; [done|].
    intros r1 Hr1 (Hs & Hr & Hunread). rewrite Hrows in Hr1.
    apply list_elem_of_fmap in Hr1 as (r & -> & Hrin).
    case_bool_decide as Hin; [done|].
    apply Hin. apply list_elem_of_fmap_2, list_elem_of_filter.
    split; [by split|]. rewrite order_by_perm.
    apply list_elem_of_filter. split; [|done]. right. by split. }
  split; [exact Hzero|]. eexists. split; [apply get_conversations_run|].
  apply Forall_forall. intros s Hs E.
  destruct (summary_latest _ _ _ _ _ (order_by_sorted _) Hs)
    as (_ & _ & _ & _ & _ & _ & Hcount & _).
  by rewrite Hcount, E.
Qed.

(** ** Fetching twice *)

(** Among rows of distinct [created_at] the order is the same whatever
    the store, so it commutes with a change of the rows that keeps
    [created_at]. *)
Lemma order_by_fmap (g : ChatMessage.t → ChatMessage.t)
    (rows : list ChatMessage.t) :
  (∀ r, ChatMessage.created_at (g r) = ChatMessage.created_at r) →
  NoDup (ChatMessage.created_at <$> rows) →
  order_by_created_at_desc (g <$> rows)
  = g <$> order_by_created_at_desc rows.
Proof.
  intros Hg Hnd.
  assert (Htimes : ChatMessage.created_at <$> (g <$> rows)
                   = ChatMessage.created_at <$> rows).
  { rewrite <- list_fmap_compose. apply list_fmap_ext. intros i r _.
    apply Hg. }
  apply newest_first_unique.
  - rewrite (order_by_perm (g <$> rows)). by rewrite Htimes.
  - apply order_by_sorted.
  - apply (StronglySorted_fmap _ newer_first); [|apply order_by_sorted].
    intros a b Hab. unfold newer_first. by rewrite !Hg.
  - rewrite (order_by_perm (g <$> rows)). by rewrite (order_by_perm rows).
Qed.

Lemma filter_fmap_same {A : Type} (P : A → Prop) `{!∀ x, Decision (P x)}
    (g : A → A) (l : list A) :
  (∀ x, P (g x) ↔ P x) → filter P (g <$> l) = g <$> filter P l.
Proof.
  intros Hg. induction l as [|x l IH]; [done|].
  rewrite fmap_cons, !filter_cons.
  destruct (decide (P x)) as [Hx|Hx].
  - rewrite decide_True by (by apply Hg). by rewrite fmap_cons, IH.
  - rewrite decide_False by (by rewrite Hg). exact IH.
Qed.

(** When the page holds nothing to mark, the call changes nothing. *)
Lemma get_chat_history_clean other_user_id skip limit current_user now w page :
  is_Some (users w !! other_user_id) →
  offset_limit engine skip limit
    (order_by_created_at_desc
       (filter (between current_user other_user_id) (chat_messages w)))
  = Some page →
  filter (to_mark current_user) page = [] →
  get_chat_history other_user_id skip limit current_user now w
  = (Return (Response HTTP_200_OK
               (MessageResponse.model_validate <$> reverse page)), w).
Proof.
  intros [u Hu] Hpage Hclean. unfold get_chat_history. run. rewrite Hu. run.
  rewrite Hpage. cbn [must]. run. rewrite Hclean. cbn [for_each]. run.
  do 5 f_equal. rewrite <- (list_fmap_id page) at 2.
  apply list_fmap_ext. intros i m Hm. unfold mark_fetched.
  rewrite bool_decide_eq_false_2; [done|]. intros Hmark.
  apply list_elem_of_lookup_2 in Hm.
  assert (Hin : m ∈ filter (to_mark current_user) page)
    by (by apply list_elem_of_filter).
  rewrite Hclean in Hin. by apply not_elem_of_nil in Hin.
Qed.

(** X13.  [get_chat_history] is idempotent on a conversation whose
    messages have distinct times: the same call again, at whatever
    time, gives the same outcome, read timestamps included, and changes
    nothing.  This holds for every [skip] and [limit], on either engine
    and whatever the order of the store; among messages of equal time
    the store may order the marked rows differently, which is why the
    times are taken distinct. *)
Theorem get_chat_history_idempotent (other_user_id : Z) (skip limit : Z)
    (current_user now later : Z) (w : World) :
  unique_ids w →
  NoDup (ChatMessage.created_at
           <$> filter (between current_user other_user_id) (chat_messages w)) →
  let first := get_chat_history other_user_id skip limit current_user now w in
  get_chat_history other_user_id skip limit current_user later first.2
  = (first.1, first.2).
Proof.
  intros Hnd Htimes first.
  destruct (users w !! other_user_id) as [u|] eqn:Hu.
  2:{ subst first.
      rewrite (get_chat_history_unknown other_user_id skip limit
                 current_user now w Hu).
      cbn [fst snd]. by apply get_chat_history_unknown. }
  assert (Hother : is_Some (users w !! other_user_id)) by (by rewrite Hu).
  set (rows := chat_messages w).
  destruct (offset_limit engine skip limit
              (order_by_created_at_desc
                 (filter (between current_user other_user_id) rows)))
    as [page|] eqn:Hpage.
  2:{ subst first.
      rewrite (get_chat_history_refused other_user_id skip limit
                 current_user now w Hother Hpage).
      cbn [fst snd]. by apply get_chat_history_refused. }
  destruct (get_chat_history_run other_user_id skip limit current_user now w
              page Hother Hpage) as (w1 & Hrun & Hrows & _ & Hus & _).
  subst first. rewrite Hrun. cbn [fst snd]. fold rows in Hrows.
  set (g := λ r : ChatMessage.t,
         if bool_decide
              (ChatMessage.id r
               ∈ ChatMessage.id <$> filter (to_mark current_user) page)
         then ChatMessage.mark_read now r else r) in Hrows |- *.
  assert (Hg_fields : ∀ r,
            ChatMessage.created_at (g r) = ChatMessage.created_at r
            ∧ ChatMessage.sender_id (g r) = ChatMessage.sender_id r
            ∧ ChatMessage.receiver_id (g r) = ChatMessage.receiver_id r).
  { intros r. unfold g. by case_bool_decide. }
  assert (Hpage_rows : ∀ m, m ∈ page → m ∈ rows).
  { intros m Hm.
    apply (page_elem_of (between current_user other_user_id) page rows)
      in Hm as [_ ?]; [done|].
    by eapply offset_limit_sublist. }
  assert (Hg_page : ∀ m, m ∈ page → g m = mark_fetched current_user now m).
  { intros m Hm. unfold g, mark_fetched.
    rewrite (bool_decide_ext _ (to_mark current_user m)); [done|].
    rewrite (marked_rows_iff _ _ rows);
      [|exact Hnd|exact Hpage_rows|by apply Hpage_rows].
    split; [by intros [_ ?]|by split]. }
  assert (Hpage1 :
    offset_limit engine skip limit
      (order_by_created_at_desc
         (filter (between current_user other_user_id) (chat_messages w1)))
    = Some (g <$> page)).
  { rewrite Hrows, filter_fmap_same.
    - rewrite order_by_fmap; [|intros r; apply Hg_fields|exact Htimes].
      by rewrite offset_limit_fmap, Hpage.
    - intros r. unfold between.
      destruct (Hg_fields r) as (_ & -> & ->). reflexivity. }
  rewrite (get_chat_history_clean _ _ _ _ _ _ (g <$> page)).
  - do 5 f_equal. apply list_fmap_ext.
    intros i m Hm. apply Hg_page. by eapply list_elem_of_lookup_2.
  - rewrite Hus, Hu. by eexists.
  - exact Hpage1.
  - apply filter_none.
    intros x (m & -> & Hm)%list_elem_of_fmap [Hrecv Hunread].
    rewrite (Hg_page m Hm) in Hrecv, Hunread.
    rewrite mark_fetched_read in Hunread by done. discriminate.
Qed.

(** X14.  The page of [get_chat_history].  For [skip] and [limit] that
    are not negative the answer has at most [limit] messages and at most
    those left after [skip]; with [limit] 0, or [skip] at or past the
    end of the conversation, the answer is empty and nothing is marked.
    The route passes negative values on: PostgreSQL refuses the query,
    so the request raises and nothing changes; SQLite reads a negative
    [limit] as no limit and answers every message left after [skip]. *)
Theorem history_page_bounds (other_user_id : Z) (skip limit : Z)
    (current_user now : Z) (w : World) :
  is_Some (users w !! other_user_id) →
  let conversation :=
    filter (between current_user other_user_id) (chat_messages w) in
  (0 ≤ skip → 0 ≤ limit →
   (∃ w' body,
      get_chat_history other_user_id skip limit current_user now w
      = (Return (Response HTTP_200_OK body), w')
      ∧ Z.of_nat (length body) ≤ limit
      ∧ Z.of_nat (length body)
        ≤ Z.max 0 (Z.of_nat (length conversation) - skip))
   ∧ (limit = 0 ∨ Z.of_nat (length conversation) ≤ skip →
      get_chat_history other_user_id skip limit current_user now w
      = (Return (Response HTTP_200_OK []), w)))
  ∧ (engine = PostgreSQL → skip < 0 ∨ limit < 0 →
     get_chat_history other_user_id skip limit current_user now w
     = (Raise, w))
  ∧ (engine = SQLite → limit < 0 →
     ∃ w' body,
       get_chat_history other_user_id skip limit current_user now w
       = (Return (Response HTTP_200_OK body), w')
       ∧ length body = (length conversation - Z.to_nat skip)%nat).
Proof.
  intros Hother conversation. split_and!.
  - intros Hskip Hlimit.
    pose proof (offset_limit_nonneg skip limit
                  (order_by_created_at_desc conversation) Hskip Hlimit)
      as Hpage.
    split.
    + destruct (get_chat_history_run other_user_id skip limit current_user
                  now w _ Hother Hpage) as (w' & Hrun & _).
      eexists _, _. split; [exact Hrun|].
      rewrite !length_fmap, length_reverse, length_fmap, length_take,
        length_drop.
      rewrite (order_by_perm conversation). lia.
    + intros Hcase.
      assert (Hempty : take (Z.to_nat limit)
                         (drop (Z.to_nat skip)
                            (order_by_created_at_desc conversation)) = []).
      { destruct Hcase as [->|Hpast]; [apply take_0|].
        rewrite drop_ge; [by destruct (Z.to_nat limit)|].
        rewrite (order_by_perm conversation). lia. }
      rewrite Hempty in Hpage.
      by rewrite (get_chat_history_clean _ _ _ _ _ _ [] Hother Hpage).
  - intros Hengine Hneg. apply get_chat_history_refused; [done|].
    unfold offset_limit. rewrite Hengine.
    by rewrite bool_decide_eq_true_2.
  - intros Hengine Hneg.
    assert (Hpage : offset_limit engine skip limit
                      (order_by_created_at_desc conversation)
                    = Some (drop (Z.to_nat skip)
                              (order_by_created_at_desc conversation))).
    { unfold offset_limit. rewrite Hengine.
      by rewrite bool_decide_eq_true_2. }
    destruct (get_chat_history_run other_user_id skip limit current_user
                now w _ Hother Hpage) as (w' & Hrun & _).
    eexists _, _. split; [exact Hrun|].
    rewrite !length_fmap, length_reverse, length_fmap, length_drop.
    by rewrite (order_by_perm conversation).
Qed.

(** ** The dependencies of the REST routes *)

Lemma get_current_user_resolved token w user_id user :
  resolves_to token w user_id user →
  get_current_user token w = Resolved (user_id, user).
Proof.
  intros (payload & Hdec & Hty & Htruthy & Hint & Huser & Hactive).
  unfold get_current_user. rewrite Hdec.
  rewrite (bool_decide_eq_false_2 (payload = ∅)).
  2:{ intros ->. by rewrite lookup_empty in Hty. }
  rewrite (bool_decide_eq_true_2 (get payload "type" = PStr "access")).
  2:{ by apply get_eq_str. }
  simpl. by rewrite Htruthy, Hint, Huser, Hactive.
Qed.

Lemma get_current_user_inv token w user_id user :
  get_current_user token w = Resolved (user_id, user) →
  resolves_to token w user_id user.
Proof.
  unfold get_current_user, resolves_to.
  destruct (decode_token token) as [payload|] eqn:Hdec; [|done].
  case_bool_decide as Hemp; [done|].
  case_bool_decide as Hty; simpl; [|done].
  destruct (truthy (get payload "sub")) eqn:Htruthy; simpl; [|done].
  destruct (py_int (get payload "sub")) as [id|] eqn:Hint; [|done].
  destruct (users w !! id) as [u|] eqn:Hu; [|done].
  destruct (is_active id) eqn:Hactive; simpl; [|done].
  intros [= <- <-]. exists payload.
  split_and!; try done. by apply get_eq_str.
Qed.

(** X15.  [get_current_user] gives a user exactly when the token
    decodes, is of type ["access"], has a subject that is not empty and
    that [int] turns into the key of an active row of [users]; it gives
    that row.  Every refusal is a 401, except the 403 for a row that is
    not active. *)
Theorem get_current_user_contract (token : string) (w : World) :
  (∀ user_id user,
     get_current_user token w = Resolved (user_id, user)
     ↔ resolves_to token w user_id user)
  ∧ (∀ status_code detail,
       get_current_user token w = Denied status_code detail →
       status_code = HTTP_401_UNAUTHORIZED
       ∨ (status_code = HTTP_403_FORBIDDEN
          ∧ detail = "User account is inactive"
          ∧ ∃ payload user_id,
              decode_token token = Some payload
              ∧ py_int (get payload "sub") = Some user_id
              ∧ is_Some (users w !! user_id)
              ∧ is_active user_id = false)).
Proof.
  split.
  - intros user_id user. split;
      [apply get_current_user_inv|apply get_current_user_resolved].
  - intros status_code detail. unfold get_current_user.
    destruct (decode_token token) as [payload|] eqn:Hdec;
      [|intros [= <- <-]; by left].
    case_bool_decide as Hemp; [intros [= <- <-]; by left|].
    case_bool_decide as Hty; simpl; [|intros [= <- <-]; by left].
    destruct (truthy (get payload "sub")) eqn:Htruthy; simpl;
      [|intros [= <- <-]; by left].
    destruct (py_int (get payload "sub")) as [id|] eqn:Hint;
      [|intros [= <- <-]; by left].
    destruct (users w !! id) as [u|] eqn:Hu;
      [|intros [= <- <-]; by left].
    destruct (is_active id) eqn:Hactive; simpl; [done|].
    intros [= <- <-]. right. split; [done|]. split; [done|].
    exists payload, id. rewrite Hu. by split_and!.
Qed.

(** X16.  [get_optional_current_user] never refuses: without
    credentials it gives nobody, and with a token it gives exactly the
    user that [get_current_user] gives, nobody where that one
    refuses. *)
Theorem get_optional_current_user_agrees (credentials : option string)
    (w : World) :
  match credentials with
  | None => get_optional_current_user credentials w = None
  | Some token =>
      match get_current_user token w with
      | Resolved user => get_optional_current_user credentials w = Some user
      | Denied _ _ => get_optional_current_user credentials w = None
      end
  end.
Proof.
  destruct credentials as [token|]; [|done].
  unfold get_optional_current_user, get_current_user.
  destruct (decode_token token) as [payload|]; [|done].
  case_bool_decide; [done|]. case_bool_decide; simpl; [|done].
  destruct (truthy _); simpl; [|done].
  destruct (py_int _) as [id|]; [|done].
  destruct (users w !! id); [|done].
  by destruct (is_active id).
Qed.

Lemma pretty_N_go_length (x : N) (s : string) :
  (String.length s ≤ String.length (pretty_N_go x s))%nat.
Proof.
  revert s. induction (N.lt_wf_0 x) as [x _ IH]; intros s.
  assert (x = 0 ∨ 0 < x)%N as [->|Hpos] by lia.
  - by rewrite pretty_N_go_0.
  - rewrite pretty_N_go_step by done.
    etrans; [|apply IH; by apply N.div_lt]. simpl. lia.
Qed.

Lemma pretty_Z_nonempty (z : Z) : pretty z ≠ "".
Proof.
  destruct z as [|p|p]; [done| |done].
  unfold pretty, pretty_Z, pretty, pretty_positive, pretty, pretty_N.
  rewrite decide_False by done.
  rewrite pretty_N_go_step by done. intros E.
  pose proof (pretty_N_go_length (N.pos p `div` 10)
                (String (pretty_N_char (N.pos p `mod` 10)) "")) as Hlen.
  rewrite E in Hlen. simpl in Hlen. lia.
Qed.

Lemma token_claims_other_kind data expire (type : string) :
  type ≠ "access" →
  get (token_claims data expire type) "type" ≠ PStr "access".
Proof.
  intros Hne. unfold get. rewrite token_claims_type. simpl. congruence.
Qed.

Lemma token_claims_nonempty data expire type :
  token_claims data expire type ≠ ∅.
Proof.
  intros E. pose proof (token_claims_type data expire type) as H.
  rewrite E in H. by rewrite lookup_empty in H.
Qed.

(** X17.  One token, two identities.  The access token that [login]
    makes for an active, verified user [n] is resolved by the REST
    dependency to the integer [n] with its row, while
    [websocket_connect] registers the socket under the string that
    spells [n]; no entry appears under the integer. *)
Theorem access_token_two_identities (n : Z) (user : User.t) (issued now : Z)
    (websocket : WebSocket) (w : World) :
  let claims :=
    token_claims {["sub" := PInt n]}
      (issued + ACCESS_TOKEN_EXPIRE_MINUTES * 60) "access" in
  let token := (login_tokens n issued).1 in
  jwt_decode (jwt_encode claims) = Some claims →
  py_int (PStr (pretty n)) = Some n →
  users w !! n = Some user →
  is_active n = true →
  is_verified n = true →
  active_connections w !! PInt n = None →
  get_current_verified_user token w = Resolved (n, user)
  ∧ ∃ w', websocket_connect websocket token now w
          = (Return (Some (PStr (pretty n))), w')
      ∧ active_connections w' !! PStr (pretty n) = Some websocket
      ∧ active_connections w' !! PInt n = None.
Proof.
  intros claims token Hjwt Hint Huser Hactive Hverified Hfree.
  assert (Hsub : get claims "sub" = PStr (pretty n)).
  { apply (token_claims_sub _ _ _ (PInt n)). apply lookup_singleton_eq. }
  split.
  - unfold get_current_verified_user.
    rewrite (get_current_user_resolved token w n user).
    + by rewrite Hverified.
    + exists claims. split; [exact Hjwt|].
      split; [apply token_claims_type|]. rewrite Hsub.
      split_and!; try done.
      simpl. destruct (String.eqb_spec (pretty n) ""); [|done].
      by destruct (pretty_Z_nonempty n).
  - assert (Hacc : token_accepted token (PStr (pretty n))).
    { apply (access_token_session _ _ (PInt n)); [exact Hjwt| |].
      - apply lookup_singleton_eq.
      - apply pretty_Z_nonempty. }
    eexists. split; [by apply connect_accepted|].
    cbn [registered set_cache set_connections active_connections].
    split; [apply lookup_insert_eq|].
    by rewrite lookup_insert_ne.
Qed.

(** X18.  The two kinds of token are not interchangeable: the refresh
    token of [login] is refused by [get_current_user] (401, wrong type)
    and by [websocket_connect] (socket closed, nothing registered), and
    the access token is refused by the [refresh_token] endpoint. *)
Theorem token_kinds_apart (n : Z) (issued now : Z) (websocket : WebSocket)
    (w : World) :
  let access_claims :=
    token_claims {["sub" := PInt n]}
      (issued + ACCESS_TOKEN_EXPIRE_MINUTES * 60) "access" in
  let refresh_claims :=
    token_claims {["sub" := PInt n]}
      (issued + REFRESH_TOKEN_EXPIRE_DAYS * 86400) "refresh" in
  jwt_decode (jwt_encode access_claims) = Some access_claims →
  jwt_decode (jwt_encode refresh_claims) = Some refresh_claims →
  get_current_user (login_tokens n issued).2 w
  = Denied HTTP_401_UNAUTHORIZED "Invalid token type"
  ∧ websocket_connect websocket (login_tokens n issued).2 now w
    = (Return None, emit (Closed websocket WS_1008_POLICY_VIOLATION) w)
  ∧ refresh_token (login_tokens n issued).1 now w
    = HTTPException HTTP_401_UNAUTHORIZED "Invalid refresh token".
Proof.
  intros access_claims refresh_claims Haccess Hrefresh.
  assert (Hr : get refresh_claims "type" ≠ PStr "access")
    by (by apply token_claims_other_kind).
  assert (Ha : get access_claims "type" ≠ PStr "refresh").
  { unfold get, access_claims. rewrite token_claims_type. simpl.
    congruence. }
  split_and!.
  - unfold get_current_user, login_tokens, create_refresh_token,
      decode_token. cbn [snd]. fold refresh_claims. rewrite Hrefresh.
    rewrite bool_decide_eq_false_2 by apply token_claims_nonempty.
    by rewrite (bool_decide_eq_false_2 _ Hr).
  - apply connect_rejected. intros (user_id & payload & Hdec & Hty & _).
    unfold login_tokens, create_refresh_token, decode_token in Hdec.
    cbn [snd] in Hdec. fold refresh_claims in Hdec.
    rewrite Hrefresh in Hdec. injection Hdec as <-.
    apply Hr. by apply get_eq_str.
  - unfold refresh_token, login_tokens, create_access_token, decode_token.
    cbn [fst]. fold access_claims. rewrite Haccess.
    rewrite (bool_decide_eq_false_2 _ Ha). by rewrite orb_true_r.
Qed.

(** X19.  The [refresh_token] endpoint turns the refresh token of
    [login] into a fresh access token for the same user when the user
    is active, and into a 401 when the user was deactivated or
    deleted since. *)
Theorem refresh_token_contract (n : Z) (issued now : Z) (w : World) :
  let refresh_claims :=
    token_claims {["sub" := PInt n]}
      (issued + REFRESH_TOKEN_EXPIRE_DAYS * 86400) "refresh" in
  jwt_decode (jwt_encode refresh_claims) = Some refresh_claims →
  py_int (PStr (pretty n)) = Some n →
  (is_Some (users w !! n) → is_active n = true →
   refresh_token (login_tokens n issued).2 now w
   = Response HTTP_200_OK ((login_tokens n now).1, "bearer"))
  ∧ (users w !! n = None ∨ is_active n = false →
     refresh_token (login_tokens n issued).2 now w
     = HTTPException HTTP_401_UNAUTHORIZED "Invalid user").
Proof.
  intros refresh_claims Hjwt Hint.
  assert (Hstart :
    refresh_token (login_tokens n issued).2 now w
    = match users w !! n with
      | None => HTTPException HTTP_401_UNAUTHORIZED "Invalid user"
      | Some _ =>
          if negb (is_active n) then
            HTTPException HTTP_401_UNAUTHORIZED "Invalid user"
          else Response HTTP_200_OK ((login_tokens n now).1, "bearer")
      end).
  { unfold refresh_token, login_tokens, create_refresh_token, decode_token.
    cbn [fst snd]. fold refresh_claims. rewrite Hjwt.
    rewrite bool_decide_eq_false_2 by apply token_claims_nonempty.
    rewrite bool_decide_eq_true_2.
    2:{ apply get_eq_str, token_claims_type. }
    simpl.
    assert (Hsub : get refresh_claims "sub" = PStr (pretty n)).
    { apply (token_claims_sub _ _ _ (PInt n)). apply lookup_singleton_eq. }
    by rewrite Hsub, Hint. }
  rewrite Hstart. split.
  - intros [u ->] ->. done.
  - intros [->| ->]; [done|]. by destruct (users w !! n).
Qed.

(** ** The chat routes behind their dependency *)

Lemma resolved_user_row token w user_id user :
  get_current_verified_user token w = Resolved (user_id, user) →
  users w !! user_id = Some user ∧ is_verified user_id = true.
Proof.
  unfold get_current_verified_user.
  destruct (get_current_user token w) as [[id u]|] eqn:Hcur; [|done].
  destruct (is_verified id) eqn:Hv; simpl; [|done].
  intros [= <- <-]. split; [|done].
  by apply get_current_user_inv in Hcur as (_ & _ & _ & _ & _ & ? & _).
Qed.

(** X20.  [POST /messages/{receiver_id}] as a request: what the
    dependency refuses is answered with its status and changes nothing;
    for the user it resolves, the answer is 404 for an unknown receiver,
    400 for the user itself, and otherwise 201 with one new row whose
    sender is that user. *)
Theorem route_send_message_rest_contract (token : string) (receiver_id : Z)
    (content : string) (now : Z) (w : World) :
  match get_current_verified_user token w with
  | Denied status_code detail =>
      route_send_message_rest token receiver_id content now w
      = (Return (HTTPException status_code detail), w)
  | Resolved (current_user, _) =>
      (users w !! receiver_id = None →
       route_send_message_rest token receiver_id content now w
       = (Return (HTTPException HTTP_404_NOT_FOUND "Receiver not found"), w))
      ∧ (receiver_id = current_user →
         route_send_message_rest token receiver_id content now w
         = (Return (HTTPException HTTP_400_BAD_REQUEST
                      "Cannot send message to yourself"), w))
      ∧ (is_Some (users w !! receiver_id) → receiver_id ≠ current_user →
         let message :=
           ChatMessage.Build (next_id w) content current_user receiver_id
             false false false now None in
         ∃ w', route_send_message_rest token receiver_id content now w
               = (Return (Response HTTP_201_CREATED
                            (MessageResponse.model_validate message)), w')
           ∧ chat_messages w' = chat_messages w ++ [message])
  end.
Proof.
  unfold route_send_message_rest, with_verified_user.
  destruct (get_current_verified_user token w) as [[id u]|c d] eqn:Hdep;
    [|done].
  apply resolved_user_row in Hdep as [Hrow _].
  split; [|split].
  - apply send_message_rest_unknown.
  - intros ->. apply send_message_rest_self. by rewrite Hrow.
  - intros Hrecv Hne. cbv zeta.
    destruct (send_message_rest_created receiver_id content id now w
                Hrecv Hne) as (w' & Hrun & Hrows & _).
    by exists w'.
Qed.

(** X21.  The account checks are made on the REST side only.  A token
    that the dependency refuses because the user has no row, is not
    active or has not verified the email address is answered by the
    three chat routes with that refusal, state unchanged, and is
    admitted by [websocket_connect], which registers the session. *)
Theorem socket_admits_refused_accounts (token : string) (w : World)
    (status_code : Z) (detail : string) (websocket : WebSocket) (now : Z) :
  get_current_verified_user token w = Denied status_code detail →
  detail = "User not found" ∨ detail = "User account is inactive"
  ∨ detail = "Email not verified. Please verify your email first." →
  (∀ receiver_id content time,
     route_send_message_rest token receiver_id content time w
     = (Return (HTTPException status_code detail), w))
  ∧ (∀ other_user_id skip limit time,
       route_get_chat_history token other_user_id skip limit time w
       = (Return (HTTPException status_code detail), w))
  ∧ route_get_conversations token w
    = (Return (HTTPException status_code detail), w)
  ∧ ∃ user_id,
      websocket_connect websocket token now w
      = (Return (Some user_id), registered websocket user_id now w).
Proof.
  intros Hdep Hdetail.
  unfold route_send_message_rest, route_get_chat_history,
    route_get_conversations, with_verified_user. rewrite Hdep.
  split_and!; try done.
  assert (Hacc : ∃ user_id, token_accepted token user_id).
  { revert Hdep. unfold get_current_verified_user, get_current_user,
      token_accepted.
    destruct (decode_token token) as [payload|] eqn:Hdec.
    2:{ intros [= <- <-]. by destruct Hdetail as [?|[?|?]]. }
    case_bool_decide as Hemp.
    { intros [= <- <-]. by destruct Hdetail as [?|[?|?]]. }
    case_bool_decide as Hty; simpl.
    2:{ intros [= <- <-]. by destruct Hdetail as [?|[?|?]]. }
    destruct (truthy (get payload "sub")) eqn:Htruthy; simpl.
    2:{ intros [= <- <-]. by destruct Hdetail as [?|[?|?]]. }
    intros _. exists (get payload "sub"), payload.
    split_and!; try done. by apply get_eq_str. }
  destruct Hacc as [user_id Hacc]. exists user_id.
  by apply connect_accepted.
Qed.

(** ** The cache *)

Lemma redis_get_insert key value expiry now w :
  redis_get key now (set_cache (λ c, <[key := (value, expiry)]> c) w)
  = (Return (if bool_decide (now ≤ expiry) then Some value else None),
     set_cache (λ c, <[key := (value, expiry)]> c) w).
Proof.
  unfold redis_get. rewrite run_gets. simpl. by rewrite lookup_insert_eq.
Qed.

(** X22.  What [cache_get] reads after [cache_set] wrote: before the
    expiry, the JSON reading of the value, or the value itself when it
    has none, and [None] for the empty string; after the expiry,
    [None]; and under any other key, what was there before. *)
Theorem cache_set_then_get (key value : string) (expire set_at now : Z)
    (w : World) :
  let w1 := (cache_set key value expire set_at w).2 in
  (now < set_at + expire → value ≠ "" →
   cache_get key now w1
   = (Return (default (PStr value) (json_loads value)), w1))
  ∧ (set_at + expire < now ∨ value = "" →
     cache_get key now w1 = (Return PNone, w1))
  ∧ (∀ other, other ≠ key →
       (cache_get other now w1).1 = (cache_get other now w).1).
Proof.
  intros w1. subst w1. unfold cache_set. rewrite run_modify. cbn [snd].
  split_and!.
  - intros Hlive Hne. unfold cache_get. rewrite run_bind, redis_get_insert.
    rewrite bool_decide_eq_true_2 by lia.
    destruct (String.eqb_spec value ""); [done|]. simpl.
    by destruct (json_loads value).
  - intros Hcase. unfold cache_get. rewrite run_bind, redis_get_insert.
    destruct Hcase as [Hlate| ->].
    + by rewrite bool_decide_eq_false_2 by lia.
    + by case_bool_decide.
  - intros other Hne. unfold cache_get, redis_get.
    rewrite !run_bind, !run_gets. simpl.
    rewrite lookup_insert_ne by done.
    destruct (cache w !! other) as [[v e]|]; [|done].
    case_bool_decide; [|done].
    destruct (negb (String.eqb v "")); [|done].
    by destruct (json_loads v).
Qed.

(** X23.  After [cache_delete] the key reads as [None] at any time,
    the other keys read as before, and deleting a key that is not there
    changes nothing. *)
Theorem cache_delete_then_get (key : string) (now : Z) (w : World) :
  let w1 := (cache_delete key w).2 in
  cache_get key now w1 = (Return PNone, w1)
  ∧ (∀ other, other ≠ key →
       (cache_get other now w1).1 = (cache_get other now w).1)
  ∧ (cache w !! key = None → cache w1 = cache w).
Proof.
  intros w1. subst w1. unfold cache_delete. rewrite run_modify. cbn [snd].
  split_and!.
  - unfold cache_get, redis_get. rewrite run_bind, run_gets. simpl.
    by rewrite lookup_delete_eq.
  - intros other Hne. unfold cache_get, redis_get.
    rewrite !run_bind, !run_gets. simpl.
    rewrite lookup_delete_ne by done.
    destruct (cache w !! other) as [[v e]|]; [|done].
    case_bool_decide; [|done].
    destruct (negb (String.eqb v "")); [|done].
    by destruct (json_loads v).
  - intros Habsent. simpl. by apply delete_id.
Qed.

Lemma is_user_online_after_connect queried user_id connected_at t w :
  py_str queried = py_str user_id →
  json_loads "1" = Some (PInt 1) →
  cache w
  = <["online:" +:+ py_str user_id := ("1", connected_at + 300)]> (cache w) →
  (t < connected_at + 300 → (is_user_online queried t w).1 = Return true)
  ∧ (connected_at + 300 < t → (is_user_online queried t w).1 = Return false).
Proof.
  intros Hq Hjson Hcache. unfold is_user_online, cache_get, redis_get.
  rewrite !run_bind, run_gets. rewrite Hq, Hcache, lookup_insert_eq.
  split; intros Ht.
  - rewrite bool_decide_eq_true_2 by lia. simpl. by rewrite Hjson.
  - by rewrite bool_decide_eq_false_2 by lia.
Qed.

(** X24.  The online flag lives by the clock alone.  It is written once,
    at connect time: a session that is still in its loop, whatever
    frames it has handled, is reported offline once 300 seconds have
    passed, and a session that has ended is still reported online until
    then.  The flag is found under the integer id as well as under the
    string the session runs under. *)
Theorem online_flag_lifecycle (websocket : WebSocket) (token : string)
    (connected_at : Z) (inbox : list (pydict * Z)) (w : World)
    (user_id queried : pyval) (t : Z) :
  token_accepted token user_id →
  py_str queried = py_str user_id →
  json_loads "1" = Some (PInt 1) →
  let streaming :=
    (receive_loop websocket user_id inbox
       (websocket_connect websocket token connected_at w).2).2 in
  let ended := (websocket_endpoint websocket token connected_at inbox w).2 in
  (t < connected_at + 300 →
   (is_user_online queried t streaming).1 = Return true
   ∧ (is_user_online queried t ended).1 = Return true)
  ∧ (connected_at + 300 < t →
     (is_user_online queried t streaming).1 = Return false
     ∧ (is_user_online queried t ended).1 = Return false).
Proof.
  intros Hacc Hq Hjson streaming ended.
  assert (Hs : cache streaming
               = <["online:" +:+ py_str user_id := ("1", connected_at + 300)]>
                   (cache streaming)).
  { subst streaming. rewrite (connect_accepted _ _ _ _ _ Hacc). cbn [snd].
    destruct (receive_loop_evolves websocket user_id inbox
                (registered websocket user_id connected_at w))
      as (_ & _ & -> & _).
    cbn [registered set_cache cache]. by rewrite insert_insert_eq. }
  assert (He : cache ended
               = <["online:" +:+ py_str user_id := ("1", connected_at + 300)]>
                   (cache ended)).
  { destruct (websocket_endpoint_accepted websocket token connected_at inbox
                w user_id Hacc) as (_ & Hk & _).
    subst ended. rewrite Hk. by rewrite insert_insert_eq. }
  destruct (is_user_online_after_connect queried user_id connected_at t
              streaming Hq Hjson Hs) as [Hs1 Hs2].
  destruct (is_user_online_after_connect queried user_id connected_at t
              ended Hq Hjson He) as [He1 He2].
  split; intros Ht; split; auto.
Qed.

(** X25.  A verification code in the cache: until it expires,
    [get_verification_code] gives what [json.loads] makes of the stored
    code, and the code itself only where [json.loads] refuses it; storing
    a reset token does not disturb it, whatever the token and the
    address; after [delete_verification_code] it is gone. *)
Theorem verification_code_round_trip (email code : string)
    (expire_minutes set_at now : Z) (w : World) :
  now < set_at + expire_minutes * 60 →
  code ≠ "" →
  let w1 := (store_verification_code email code expire_minutes set_at w).2 in
  let stored := default (PStr code) (json_loads code) in
  get_verification_code email now w1 = (Return stored, w1)
  ∧ (∀ address token minutes time,
       (get_verification_code email now
          (store_reset_token address token minutes time w1).2).1
       = Return stored)
  ∧ (get_verification_code email now
       (delete_verification_code email w1).2).1
    = Return PNone.
Proof.
  intros Hlive Hne w1 stored. subst w1 stored.
  unfold store_verification_code, get_verification_code, store_reset_token,
    delete_verification_code, cache_set, cache_delete.
  rewrite run_modify. cbn [snd].
  assert (Hread : ∀ v, v = code →
            (if negb (String.eqb v "")
             then match json_loads v with
                  | Some parsed => mret parsed
                  | None => mret (PStr v)
                  end
             else mret PNone : io pyval)
            = mret (default (PStr code) (json_loads code))).
  { intros v ->. destruct (String.eqb_spec code ""); [done|]. simpl.
    by destruct (json_loads code). }
  split_and!.
  - unfold cache_get. rewrite run_bind, redis_get_insert.
    rewrite bool_decide_eq_true_2 by lia. by rewrite Hread.
  - intros address token minutes time. rewrite run_modify. cbn [snd].
    unfold cache_get, redis_get. rewrite run_bind, run_gets. simpl.
    rewrite lookup_insert_ne by done. rewrite lookup_insert_eq.
    rewrite bool_decide_eq_true_2 by lia. by rewrite Hread.
  - rewrite run_modify. cbn [snd].
    unfold cache_get, redis_get. rewrite run_bind, run_gets. simpl.
    by rewrite lookup_delete_eq.
Qed.

(** ** Verification codes *)

Lemma choice_digits (r : nat) :
  ∃ c, choice digits r = Some c ∧ is_digit c.
Proof.
  unfold choice, digits.
  assert (Hlt : (r mod 10 < 10)%nat) by (apply Nat.mod_upper_bound; lia).
  change (String.length "0123456789") with 10%nat.
  destruct (r mod 10)%nat as [|[|[|[|[|[|[|[|[|[|k]]]]]]]]]] eqn:E;
    try (eexists; split; [reflexivity|unfold is_digit; vm_compute; lia]).
  lia.
Qed.

(** X26.  [generate_verification_code] gives six characters, each of
    them a decimal digit, whatever the generator draws. *)
Theorem verification_code_six_digits (draws : nat → nat) :
  String.length (generate_verification_code draws) = 6%nat
  ∧ Forall is_digit
      (list_ascii_of_string (generate_verification_code draws)).
Proof.
  unfold generate_verification_code.
  rewrite list_ascii_of_string_of_list_ascii.
  cbn [seq omap list_omap].
  destruct (choice_digits (draws 0%nat)) as (c0 & -> & H0).
  destruct (choice_digits (draws 1%nat)) as (c1 & -> & H1).
  destruct (choice_digits (draws 2%nat)) as (c2 & -> & H2).
  destruct (choice_digits (draws 3%nat)) as (c3 & -> & H3).
  destruct (choice_digits (draws 4%nat)) as (c4 & -> & H4).
  destruct (choice_digits (draws 5%nat)) as (c5 & -> & H5).
  split; [done|]. simpl.
  repeat (apply Forall_cons; split; [assumption|]). by apply Forall_nil.
Qed.

End Chat.

(** ** The handlers on the sample data *)

Example sample_conversations :
  (get_conversations 1 sample_world).1
  = Return (Response HTTP_200_OK
      [ ConversationResponse.Build 3 "carol" None
          "01234567890123456789012345678901234567890123456789" 30 1;
        ConversationResponse.Build 2 "bob" (Some "bob.png") "hello" 20 1 ]).
Proof. vm_compute. reflexivity. Qed.

Example sample_history :
  (get_chat_history SQLite 2 0 50 1 60 sample_world).1
  = Return (Response HTTP_200_OK
      [ MessageResponse.Build 1 "hi" 1 2 true 10 (Some 100);
        MessageResponse.Build 2 "hello" 2 1 true 20 (Some 60) ]).
Proof. vm_compute. reflexivity. Qed.

Example sample_refresh_token_refused :
  (websocket_connect plain_jwt_decode 9%nat
     (create_refresh_token plain_jwt_encode {["sub" := PInt 1]} 0) 5
     empty_world).1
  = Return None.
Proof. vm_compute. reflexivity. Qed.

(** C1, as stated, fails here: the frame carries both [receiver_id] and
    [content], the store would take the row and no socket has hung up, yet
    the content is the empty string and the frame is dropped: no row is
    inserted and no acknowledgment is sent. *)
Lemma message_frame_empty_content_dropped :
  sample_empty_frame !! "receiver_id" = Some (PInt 2)
  ∧ sample_empty_frame !! "content" = Some (PStr "")
  ∧ plain_text_col (PStr "") = Some ""
  ∧ hung_up sample_world = ∅
  ∧ handle_frame coercing_int_col plain_text_col 7%nat (PStr "1")
      sample_empty_frame 50 sample_world
    = (Return tt, sample_world)
  ∧ ¬ (∃ w' m,
         handle_frame coercing_int_col plain_text_col 7%nat (PStr "1")
           sample_empty_frame 50 sample_world
         = (Return tt, w')
         ∧ chat_messages w' = chat_messages sample_world ++ [m]
         ∧ last (trace w')
           = Some (Sent 7%nat (FSent (ChatMessage.id m) (PInt 2)))).
Proof.
  assert (Hrun : handle_frame coercing_int_col plain_text_col 7%nat
                   (PStr "1") sample_empty_frame 50 sample_world
                 = (Return tt, sample_world)) by (vm_compute; reflexivity).
  repeat split; try (vm_compute; reflexivity).
  intros (w' & m & Hrun' & Hrows & _).
  rewrite Hrun in Hrun'. injection Hrun' as <-.
  apply (f_equal length) in Hrows. rewrite length_app in Hrows.
  simpl in Hrows. lia.
Qed.

(** C3, as stated for every [limit], fails here: user 2 exists and the
    conversation of users 1 and 2 has two messages, yet with [limit] -1
    PostgreSQL refuses the query, so the request raises, answers no page
    and marks nothing, and SQLite answers both messages, more than any
    page of -1 rows. *)
Lemma get_chat_history_negative_limit :
  is_Some (users sample_world !! 2)
  ∧ get_chat_history PostgreSQL 2 0 (-1) 1 60 sample_world
    = (Raise, sample_world)
  ∧ (get_chat_history SQLite 2 0 (-1) 1 60 sample_world).1
    = Return (Response HTTP_200_OK
        [ MessageResponse.Build 1 "hi" 1 2 true 10 (Some 100);
          MessageResponse.Build 2 "hello" 2 1 true 20 (Some 60) ])
  ∧ ¬ (∃ w' body,
         get_chat_history PostgreSQL 2 0 (-1) 1 60 sample_world
         = (Return (Response HTTP_200_OK body), w')).
Proof.
  assert (Hrun : get_chat_history PostgreSQL 2 0 (-1) 1 60 sample_world
                 = (Raise, sample_world)) by (vm_compute; reflexivity).
  split; [eexists; reflexivity|]. split; [exact Hrun|].
  split; [vm_compute; reflexivity|].
  intros (w' & body & Hrun'). rewrite Hrun in Hrun'. discriminate.
Qed.

(** C4, as stated for every counterpart, fails here: on a store that
    does not enforce the foreign key, the session of user 1 sends a
    message to the id 99, which no user has; the row is inserted, user 1
    is its sender and 99 its counterpart, and [get_conversations] for
    user 1 answers the summaries of users 3 and 2 only. *)
Lemma conversation_without_users_row :
  handle_frame coercing_int_col plain_text_col 7%nat (PStr "1")
    sample_stranger_frame 50 sample_world
  = (Return tt, sample_dangling_world)
  ∧ users sample_dangling_world !! 99 = None
  ∧ ChatMessage.Build 4 "anyone?" 1 99 false false false 50 None
    ∈ chat_messages sample_dangling_world
  ∧ (∃ body, get_conversations 1 sample_dangling_world
             = (Return (Response HTTP_200_OK body), sample_dangling_world)
       ∧ ConversationResponse.user_id <$> body = [3; 2])
  ∧ ¬ (∃ body, get_conversations 1 sample_dangling_world
               = (Return (Response HTTP_200_OK body), sample_dangling_world)
         ∧ 99 ∈ ConversationResponse.user_id <$> body).
Proof.
  assert (Hrun : get_conversations 1 sample_dangling_world
                 = (Return (Response HTTP_200_OK
                      [ ConversationResponse.Build 3 "carol" None
                          "01234567890123456789012345678901234567890123456789"
                          30 1;
                        ConversationResponse.Build 2 "bob" (Some "bob.png")
                          "hello" 20 1 ]), sample_dangling_world))
    by (vm_compute; reflexivity).
  split; [vm_compute; reflexivity|]. split; [reflexivity|].
  split.
  { unfold sample_dangling_world. cbn [chat_messages].
    apply elem_of_app. right. apply list_elem_of_here. }
  split.
  { eexists. split; [exact Hrun|reflexivity]. }
  intros (body & Hrun' & Hin). rewrite Hrun in Hrun'.
  injection Hrun' as <-. cbn in Hin.
  repeat (apply elem_of_cons in Hin as [Hin|Hin]; [discriminate|]).
  by apply elem_of_nil in Hin.
Qed.

(** Without distinct times [get_chat_history] need not be idempotent:
    on a store that lists unread rows first among equal times, the page
    of one message is message 2 on the first call, which marks it, and
    message 1 on the second. *)
Example tied_times_not_idempotent :
  (get_chat_history (store_order := unread_first_order) SQLite 2 0 1 1 60
     sample_tied_world).1
  = Return (Response HTTP_200_OK
      [MessageResponse.Build 2 "two" 2 1 true 10 (Some 60)])
  ∧ (get_chat_history (store_order := unread_first_order) SQLite 2 0 1 1 99
       (get_chat_history (store_order := unread_first_order) SQLite 2 0 1 1
          60 sample_tied_world).2).1
    = Return (Response HTTP_200_OK
        [MessageResponse.Build 1 "one" 2 1 true 10 (Some 15)]).
Proof. split; vm_compute; reflexivity. Qed.

(** The sample rows have distinct primary keys. *)
Lemma sample_unique_ids : unique_ids sample_world.
Proof.
  assert (H : bool_decide
                (NoDup (ChatMessage.id <$> chat_messages sample_world))
              = true) by (vm_compute; reflexivity).
  exact (bool_decide_eq_true_1 _ H).
Qed.

(** The messages between users 1 and 2 have distinct times. *)
Lemma sample_distinct_times :
  NoDup (ChatMessage.created_at
           <$> filter (between 1 2) (chat_messages sample_world)).
Proof.
  assert (H : bool_decide
                (NoDup (ChatMessage.created_at
                          <$> filter (between 1 2)
                                (chat_messages sample_world)))
              = true) by (vm_compute; reflexivity).
  exact (bool_decide_eq_true_1 _ H).
Qed.

(** [message_frame_handling] on a frame from user 1 to user 2. *)
Lemma message_frame_handling_witness :
  get sample_message_frame "type" = PStr "message"
  ∧ ∃ w', handle_frame coercing_int_col plain_text_col 7%nat (PStr "1")
            sample_message_frame 50 sample_world
          = (Return tt, w')
      ∧ chat_messages w'
        = sample_rows
          ++ [ChatMessage.Build 4 "see you" 1 2 false false false 50 None].
Proof.
  split; [reflexivity|].
  destruct (message_frame_handling coercing_int_col plain_text_col 7%nat
              (PStr "1") sample_message_frame 50 sample_world eq_refl)
    as [_ H].
  destruct (H eq_refl eq_refl "see you" 1 2 eq_refl eq_refl eq_refl
              (not_elem_of_empty _) (λ _ _, not_elem_of_empty _))
    as (w' & Hrun & Hrows & _).
  exists w'. split; [exact Hrun|exact Hrows].
Defined.

(** [send_message_rest_contract] where the forward raises: socket 8 is
    registered for the receiver and has hung up. *)
Lemma send_message_rest_contract_witness :
  is_Some (users sample_stale_world !! 1)
  ∧ active_connections sample_stale_world !! PInt 2 = Some 8%nat
  ∧ 8%nat ∈ hung_up sample_stale_world
  ∧ ∃ w', send_message_rest 2 "yo" 1 50 sample_stale_world
          = (Return (Response HTTP_201_CREATED
                       (MessageResponse.Build 4 "yo" 1 2 false 50 None)), w')
      ∧ chat_messages w'
        = sample_rows
          ++ [ChatMessage.Build 4 "yo" 1 2 false false false 50 None].
Proof.
  assert (H1 : is_Some (users sample_stale_world !! 1))
    by (eexists; reflexivity).
  split; [exact H1|]. split; [reflexivity|].
  split; [unfold sample_stale_world; simpl; set_solver|].
  destruct (send_message_rest_contract 2 "yo" 1 50 sample_stale_world H1)
    as (_ & _ & H).
  assert (H2 : is_Some (users sample_stale_world !! 2))
    by (eexists; reflexivity).
  assert (Hne : (2:Z) ≠ 1) by lia.
  exact (H H2 Hne {[ 8%nat ]}).
Defined.

(** [get_chat_history_contract] for user 1 reading the conversation with
    user 2. *)
Lemma get_chat_history_contract_witness :
  unique_ids sample_world
  ∧ ∃ w' body, get_chat_history PostgreSQL 2 0 50 1 60 sample_world
               = (Return (Response HTTP_200_OK body), w')
      ∧ MessageResponse.id <$> body = [1; 2]
      ∧ StronglySorted chronological body.
Proof.
  split; [exact sample_unique_ids|].
  assert (Hskip : 0 ≤ 0) by lia. assert (Hlimit : 0 ≤ 50) by lia.
  destruct (get_chat_history_contract PostgreSQL 2 0 50 1 60 sample_world
              sample_unique_ids) as [_ H].
  destruct (H (ex_intro _ (User.Build "bob" (Some "bob.png")) eq_refl)
              Hskip Hlimit)
    as (w' & body & Hrun & _ & _ & _ & Hids & Hsorted & _).
  exists w', body. split; [exact Hrun|]. split; [exact Hids|exact Hsorted].
Defined.

(** [typing_frame_integer_receiver] with the plain codec. *)
Lemma typing_frame_integer_receiver_witness :
  plain_jwt_decode
    (plain_jwt_encode (token_claims {["sub" := PInt 1]} 1800 "access"))
  = Some (token_claims {["sub" := PInt 1]} 1800 "access")
  ∧ plain_jwt_decode
      (plain_jwt_encode (token_claims {["sub" := PInt 2]} 1800 "access"))
    = Some (token_claims {["sub" := PInt 2]} 1800 "access")
  ∧ active_connections
      (websocket_connect plain_jwt_decode 8%nat
         (create_access_token plain_jwt_encode {["sub" := PInt 2]} 0) 0
         (websocket_connect plain_jwt_decode 7%nat
            (create_access_token plain_jwt_encode {["sub" := PInt 1]} 0) 0
            empty_world).2).2
    !! PInt 2 = None.
Proof.
  assert (Ha : plain_jwt_decode
                 (plain_jwt_encode
                    (token_claims {["sub" := PInt 1]} 1800 "access"))
               = Some (token_claims {["sub" := PInt 1]} 1800 "access"))
    by (vm_compute; reflexivity).
  assert (Hb : plain_jwt_decode
                 (plain_jwt_encode
                    (token_claims {["sub" := PInt 2]} 1800 "access"))
               = Some (token_claims {["sub" := PInt 2]} 1800 "access"))
    by (vm_compute; reflexivity).
  split; [exact Ha|]. split; [exact Hb|].
  destruct (typing_frame_integer_receiver plain_jwt_encode plain_jwt_decode
              coercing_int_col plain_text_col 7%nat 8%nat 0 0 50 empty_world
              Ha Hb eq_refl) as (_ & _ & H & _).
  exact H.
Defined.

(** [read_frame_restamps]: message 1, read at 100, is stamped 200. *)
Lemma read_frame_restamps_witness :
  coercing_int_col (PStr "2") = Some 2
  ∧ unique_ids sample_world
  ∧ ∃ w', handle_frame coercing_int_col plain_text_col 8%nat (PStr "2")
            sample_read_frame 200 sample_world
          = (Return tt, w')
      ∧ ChatMessage.Build 1 "hi" 1 2 true false false 10 (Some 200)
        ∈ chat_messages w'.
Proof.
  split; [reflexivity|]. split; [exact sample_unique_ids|].
  destruct (read_frame_restamps coercing_int_col plain_text_col 8%nat
              (PStr "2") sample_read_frame 200 sample_world
              (ChatMessage.Build 1 "hi" 1 2 true false false 10 (Some 100))
              100 eq_refl eq_refl eq_refl eq_refl sample_unique_ids
              (list_elem_of_here _ _) eq_refl eq_refl
              (λ _ _, not_elem_of_empty _))
    as (w' & Hrun & _ & Hin & _).
  exists w'. split; [exact Hrun|exact Hin].
Defined.

(** [presence_registry_single_entry]: user 1 connects on socket 7, sends
    one frame and disconnects. *)
Lemma presence_registry_single_entry_witness :
  token_accepted plain_jwt_decode "1:access:1800" (PStr "1")
  ∧ active_connections
      (websocket_endpoint plain_jwt_decode coercing_int_col plain_text_col
         7%nat "1:access:1800" 0 [(sample_message_frame, 50)] empty_world).2
    !! PStr "1" = None.
Proof.
  assert (H : token_accepted plain_jwt_decode "1:access:1800" (PStr "1")).
  { exists (token_claims {["sub" := PInt 1]} 1800 "access").
    repeat split; vm_compute; reflexivity. }
  split; [exact H|].
  destruct (presence_registry_single_entry plain_jwt_decode coercing_int_col
              plain_text_col (PStr "1") 7%nat 9%nat "1:access:1800"
              "1:access:1800" 0 5 [(sample_message_frame, 50)] empty_world
              H H) as (_ & _ & _ & _ & _ & _ & Hend).
  exact Hend.
Defined.

(** [self_send_live_against_rest]: user 1 writes to user 1. *)
Lemma self_send_live_against_rest_witness :
  coercing_int_col (PStr "1") = Some 1
  ∧ coercing_int_col (get sample_self_frame "receiver_id") = Some 1
  ∧ (∃ w', handle_frame coercing_int_col plain_text_col 7%nat (PStr "1")
             sample_self_frame 50 sample_world
           = (Return tt, w')
       ∧ chat_messages w'
         = sample_rows
           ++ [ChatMessage.Build 4 "note to self" 1 1 false false false 50
                 None])
  ∧ send_message_rest 1 "note to self" 1 50 sample_world
    = (Return (HTTPException HTTP_400_BAD_REQUEST
                 "Cannot send message to yourself"), sample_world).
Proof.
  split; [reflexivity|]. split; [reflexivity|].
  destruct (self_send_live_against_rest coercing_int_col plain_text_col
              7%nat (PStr "1") sample_self_frame 50 sample_world 1
              "note to self" eq_refl eq_refl eq_refl eq_refl eq_refl eq_refl
              (not_elem_of_empty _) (λ _ _, not_elem_of_empty _)
              (ex_intro _ (User.Build "alice" None) eq_refl))
    as [(w' & Hrun & Hrows & _) Hrest].
  split; [|exact Hrest].
  exists w'. split; [exact Hrun|exact Hrows].
Defined.

(** ** The further properties on the sample data *)

(** The sample rows have primary keys below the sequence. *)
Lemma sample_store_ok : store_ok sample_world.
Proof.
  split; [exact sample_unique_ids|].
  unfold sample_world, sample_rows. cbn [chat_messages next_id].
  repeat (apply Forall_cons; split; [vm_compute; reflexivity|]).
  by apply Forall_nil.
Qed.

(** The registry of the sample world is keyed by strings. *)
Lemma sample_string_keys : string_keys (active_connections sample_world).
Proof.
  intros k ws. unfold sample_world. cbn [active_connections].
  destruct (decide (k = PStr "1")) as [->|H1]; [by eexists|].
  rewrite lookup_insert_ne by done.
  destruct (decide (k = PStr "2")) as [->|H2]; [by eexists|].
  by rewrite lookup_singleton_ne.
Qed.

(** Everything user 1 and user 2 wrote to each other is older than 50. *)
Lemma sample_rows_before_50 (r : ChatMessage.t) :
  r ∈ chat_messages sample_world → between 1 2 r →
  ChatMessage.created_at r < 50.
Proof.
  intros Hr _. unfold sample_world, sample_rows in Hr.
  cbn [chat_messages] in Hr.
  repeat (apply elem_of_cons in Hr as [->|Hr]; [simpl; lia|]).
  by apply elem_of_nil in Hr.
Qed.

(** No sample row with id 1 is addressed to user 1. *)
Lemma sample_message_1_foreign (r : ChatMessage.t) :
  r ∈ chat_messages sample_world → ChatMessage.id r = 1 →
  ChatMessage.receiver_id r ≠ 1.
Proof.
  intros Hr. unfold sample_world, sample_rows in Hr.
  cbn [chat_messages] in Hr.
  repeat (apply elem_of_cons in Hr as [->|Hr]; [simpl; lia|]).
  by apply elem_of_nil in Hr.
Qed.

(** [store_ok_invariant]: the sample world after a frame from user 1. *)
Lemma store_ok_invariant_witness :
  store_ok sample_world
  ∧ store_ok
      (handle_frame coercing_int_col plain_text_col 7%nat (PStr "1")
         sample_message_frame 50 sample_world).2.
Proof.
  split; [exact sample_store_ok|].
  destruct (store_ok_invariant plain_jwt_decode coercing_int_col
              plain_text_col SQLite sample_world sample_store_ok)
    as (_ & H & _).
  apply H.
Defined.

(** [ignored_frames]: a typing frame whose [receiver_id] is the empty
    array is passed over, one whose [receiver_id] is a filled array ends
    the session. *)
Lemma ignored_frames_witness :
  handle_received coercing_int_col plain_text_col 7%nat (PStr "1")
    sample_empty_array_frame 50 sample_world
  = (Return tt, sample_world)
  ∧ handle_received coercing_int_col plain_text_col 7%nat (PStr "1")
      sample_array_frame 50 sample_world
    = (Raise, sample_world)
  ∧ handle_received coercing_int_col plain_text_col 7%nat (PStr "1")
      (RObject (JScalar <$> sample_ping_frame)) 50 sample_world
    = (Return tt, sample_world).
Proof.
  split; [|split].
  - destruct (ignored_frames coercing_int_col plain_text_col 7%nat
                (PStr "1")
                {[ "type" := JScalar (PStr "typing");
                   "receiver_id" := JCompound false ]} 50 sample_world)
      as [H _].
    apply H. right. left. split; [reflexivity|]. left. reflexivity.
  - destruct (ignored_frames coercing_int_col plain_text_col 7%nat
                (PStr "1")
                {[ "type" := JScalar (PStr "typing");
                   "receiver_id" := JCompound true ]} 50 sample_world)
      as (_ & H & _).
    apply H; reflexivity.
  - destruct (ignored_frames coercing_int_col plain_text_col 7%nat
                (PStr "1") (JScalar <$> sample_ping_frame) 50 sample_world)
      as [H _].
    apply H. left. repeat split; vm_compute; discriminate.
Defined.

(** [typing_frame_contract]: user 1 types to the session registered
    under the string 2. *)
Lemma typing_frame_contract_witness :
  active_connections sample_world !! get sample_typing_frame "receiver_id"
  = Some 8%nat
  ∧ handle_frame coercing_int_col plain_text_col 7%nat (PStr "1")
      sample_typing_frame 50 sample_world
    = (Return tt, emit (Sent 8%nat (FTyping (PStr "1"))) sample_world).
Proof.
  split; [reflexivity|].
  destruct (typing_frame_contract coercing_int_col plain_text_col 7%nat
              (PStr "1") sample_typing_frame 50 sample_world 8%nat
              eq_refl eq_refl eq_refl) as [H _].
  apply H. apply not_elem_of_empty.
Defined.

(** [message_forward_failure]: socket 8, registered for the receiver, has
    hung up; the second frame is never handled. *)
Lemma message_forward_failure_witness :
  active_connections sample_stale_world !! PInt 2 = Some 8%nat
  ∧ 8%nat ∈ hung_up sample_stale_world
  ∧ ∃ w', receive_loop coercing_int_col plain_text_col 7%nat (PStr "1")
            [(sample_message_frame, 50); (sample_self_frame, 60)]
            sample_stale_world
          = (Raise, w')
      ∧ chat_messages w'
        = sample_rows
          ++ [ChatMessage.Build 4 "see you" 1 2 false false false 50 None].
Proof.
  assert (Hgone : 8%nat ∈ hung_up sample_stale_world)
    by (unfold sample_stale_world; simpl; set_solver).
  split; [reflexivity|]. split; [exact Hgone|].
  destruct (message_forward_failure coercing_int_col plain_text_col 7%nat
              (PStr "1") sample_message_frame 50 sample_stale_world 8%nat
              "see you" 1 2 eq_refl eq_refl eq_refl eq_refl eq_refl eq_refl
              eq_refl Hgone [(sample_self_frame, 60)])
    as (w' & Hrun & Hrows & _).
  exists w'. split; [exact Hrun|exact Hrows].
Defined.

(** [read_frame_foreign_message]: user 1 sends a read frame for message 1,
    which user 1 wrote. *)
Lemma read_frame_foreign_message_witness :
  coercing_int_col (get sample_read_frame "message_id") = Some 1
  ∧ coercing_int_col (PStr "1") = Some 1
  ∧ handle_frame coercing_int_col plain_text_col 7%nat (PStr "1")
      sample_read_frame 200 sample_world
    = (Return tt, sample_world).
Proof.
  split; [reflexivity|]. split; [reflexivity|].
  exact (read_frame_foreign_message coercing_int_col plain_text_col 7%nat
           (PStr "1") sample_read_frame 200 sample_world 1 1 eq_refl eq_refl
           eq_refl sample_message_1_foreign).
Defined.

(** [read_frame_marks_and_notifies]: user 2 sends a read frame for
    message 1; the sender is registered under a string, so nothing is
    sent. *)
Lemma read_frame_marks_and_notifies_witness :
  unique_ids sample_world
  ∧ active_connections sample_world !! PInt 1 = None
  ∧ ∃ w', handle_frame coercing_int_col plain_text_col 8%nat (PStr "2")
            sample_read_frame 200 sample_world
          = (Return tt, w')
      ∧ trace w'
        = [Updated
             (ChatMessage.Build 1 "hi" 1 2 true false false 10 (Some 200))].
Proof.
  split; [exact sample_unique_ids|]. split; [reflexivity|].
  destruct (read_frame_marks_and_notifies coercing_int_col plain_text_col
              8%nat (PStr "2") sample_read_frame 200 sample_world
              (ChatMessage.Build 1 "hi" 1 2 true false false 10 (Some 100))
              eq_refl eq_refl eq_refl eq_refl sample_unique_ids
              (list_elem_of_here _ _) (λ _ _, not_elem_of_empty _))
    as (w' & Hrun & _ & _ & Htrace).
  exists w'. split; [exact Hrun|]. exact (Htrace sample_string_keys).
Defined.

(** [rest_send_misses_issued_sessions]: user 2 connects on socket 9 with
    an issued token, then user 1 sends over REST. *)
Lemma rest_send_misses_issued_sessions_witness :
  plain_jwt_decode
    (plain_jwt_encode (token_claims {["sub" := PInt 2]} 1800 "access"))
  = Some (token_claims {["sub" := PInt 2]} 1800 "access")
  ∧ string_keys (active_connections sample_world)
  ∧ ∃ w2,
      send_message_rest 2 "yo" 1 50
        (websocket_connect plain_jwt_decode 9%nat
           (create_access_token plain_jwt_encode {["sub" := PInt 2]} 0) 0
           sample_world).2
      = (Return (Response HTTP_201_CREATED
                   (MessageResponse.Build 4 "yo" 1 2 false 50 None)), w2)
      ∧ trace w2
        = [Accepted 9%nat;
           Inserted (ChatMessage.Build 4 "yo" 1 2 false false false 50 None)].
Proof.
  assert (Hjwt : plain_jwt_decode
                   (plain_jwt_encode
                      (token_claims {["sub" := PInt 2]} 1800 "access"))
                 = Some (token_claims {["sub" := PInt 2]} 1800 "access"))
    by (vm_compute; reflexivity).
  split; [exact Hjwt|]. split; [exact sample_string_keys|].
  assert (Hsub : py_str (PInt 2) ≠ "") by (vm_compute; discriminate).
  assert (Hne : (2:Z) ≠ 1) by lia.
  destruct (rest_send_misses_issued_sessions plain_jwt_encode
              plain_jwt_decode 9%nat {["sub" := PInt 2]} (PInt 2) 0
              sample_world 2 "yo" 1 50 Hjwt eq_refl Hsub sample_string_keys
              (ex_intro _ (User.Build "bob" (Some "bob.png")) eq_refl) Hne)
    as (_ & _ & w2 & Hrun & Htrace).
  exists w2. split; [exact Hrun|].
  rewrite Htrace. vm_compute. reflexivity.
Defined.

(** [sent_message_ends_history]: user 1 writes to user 2, then each of
    them fetches the latest message of the conversation. *)
Lemma sent_message_ends_history_witness :
  is_Some (users sample_world !! 2)
  ∧ is_Some (users sample_world !! 1)
  ∧ ∃ w2 body,
      get_chat_history SQLite 1 0 1 2 60
        (send_message_rest 2 "yo" 1 50 sample_world).2
      = (Return (Response HTTP_200_OK body), w2)
      ∧ last body = Some (MessageResponse.Build 4 "yo" 1 2 true 50 (Some 60)).
Proof.
  assert (H2 : is_Some (users sample_world !! 2)) by (eexists; reflexivity).
  assert (H1 : is_Some (users sample_world !! 1)) by (eexists; reflexivity).
  assert (Hne : (2:Z) ≠ 1) by lia.
  assert (Hlimit : 0 < 1) by lia.
  split; [exact H2|]. split; [exact H1|].
  destruct (sent_message_ends_history SQLite 2 "yo" 1 50 60 1 sample_world
              H2 H1 Hne sample_rows_before_50 Hlimit) as [H _].
  exact H.
Defined.

(** [full_history_clears_unread]: user 1 fetches the conversation with
    user 2. *)
Lemma full_history_clears_unread_witness :
  is_Some (users sample_world !! 2)
  ∧ store_unread_count (chat_messages sample_world) 1 2 = 1
  ∧ store_unread_count
      (chat_messages (get_chat_history PostgreSQL 2 0 50 1 60
                        sample_world).2) 1 2
    = 0.
Proof.
  assert (H2 : is_Some (users sample_world !! 2)) by (eexists; reflexivity).
  assert (Hlen : Z.of_nat
                   (length (filter (between 1 2) (chat_messages sample_world)))
                 ≤ 50) by (vm_compute; discriminate).
  split; [exact H2|]. split; [vm_compute; reflexivity|].
  destruct (full_history_clears_unread PostgreSQL 2 50 1 60 sample_world
              H2 Hlen) as [H _].
  exact H.
Defined.

(** [get_chat_history_idempotent]: user 1 fetches the conversation with
    user 2 at 60 and again at 99. *)
Lemma get_chat_history_idempotent_witness :
  unique_ids sample_world
  ∧ NoDup (ChatMessage.created_at
             <$> filter (between 1 2) (chat_messages sample_world))
  ∧ get_chat_history SQLite 2 0 50 1 99
      (get_chat_history SQLite 2 0 50 1 60 sample_world).2
    = ((get_chat_history SQLite 2 0 50 1 60 sample_world).1,
       (get_chat_history SQLite 2 0 50 1 60 sample_world).2).
Proof.
  assert (Htimes : NoDup (ChatMessage.created_at
                            <$> filter (between 1 2)
                                  (chat_messages sample_world)))
    by exact sample_distinct_times.
  split; [exact sample_unique_ids|]. split; [exact Htimes|].
  exact (get_chat_history_idempotent SQLite 2 0 50 1 60 99 sample_world
           sample_unique_ids Htimes).
Defined.

(** [history_page_bounds]: on SQLite a [limit] of -1 gives the whole
    conversation. *)
Lemma history_page_bounds_witness :
  is_Some (users sample_world !! 2)
  ∧ ∃ w' body,
      get_chat_history SQLite 2 0 (-1) 1 60 sample_world
      = (Return (Response HTTP_200_OK body), w')
      ∧ length body = 2%nat.
Proof.
  assert (H2 : is_Some (users sample_world !! 2)) by (eexists; reflexivity).
  assert (Hneg : -1 < 0) by lia.
  split; [exact H2|].
  destruct (history_page_bounds SQLite 2 0 (-1) 1 60 sample_world H2)
    as (_ & _ & H).
  destruct (H eq_refl Hneg) as (w' & body & Hrun & Hlen).
  exists w', body. split; [exact Hrun|exact Hlen].
Defined.

(** [access_token_two_identities]: the access token of user 1. *)
Lemma access_token_two_identities_witness :
  plain_jwt_decode
    (plain_jwt_encode (token_claims {["sub" := PInt 1]} 1800 "access"))
  = Some (token_claims {["sub" := PInt 1]} 1800 "access")
  ∧ sample_py_int (PStr (pretty 1)) = Some 1
  ∧ get_current_verified_user plain_jwt_decode sample_py_int
      sample_is_active sample_is_verified
      (login_tokens plain_jwt_encode 1 0).1 sample_world
    = Resolved (1, User.Build "alice" None)
  ∧ ∃ w', websocket_connect plain_jwt_decode 9%nat
            (login_tokens plain_jwt_encode 1 0).1 5 sample_world
          = (Return (Some (PStr (pretty 1))), w')
      ∧ active_connections w' !! PInt 1 = None.
Proof.
  assert (Hjwt : plain_jwt_decode
                   (plain_jwt_encode
                      (token_claims {["sub" := PInt 1]} 1800 "access"))
                 = Some (token_claims {["sub" := PInt 1]} 1800 "access"))
    by (vm_compute; reflexivity).
  assert (Hint : sample_py_int (PStr (pretty 1)) = Some 1)
    by (vm_compute; reflexivity).
  split; [exact Hjwt|]. split; [exact Hint|].
  destruct (access_token_two_identities plain_jwt_encode plain_jwt_decode
              sample_py_int sample_is_active sample_is_verified 1
              (User.Build "alice" None) 0 5 9%nat sample_world Hjwt Hint
              eq_refl eq_refl eq_refl eq_refl)
    as (Hrest & w' & Hrun & _ & Hint_key).
  split; [exact Hrest|]. exists w'. split; [exact Hrun|exact Hint_key].
Defined.

(** [token_kinds_apart]: the two tokens of user 1. *)
Lemma token_kinds_apart_witness :
  plain_jwt_decode
    (plain_jwt_encode (token_claims {["sub" := PInt 1]} 604800 "refresh"))
  = Some (token_claims {["sub" := PInt 1]} 604800 "refresh")
  ∧ get_current_user plain_jwt_decode sample_py_int sample_is_active
      (login_tokens plain_jwt_encode 1 0).2 sample_world
    = Denied HTTP_401_UNAUTHORIZED "Invalid token type"
  ∧ refresh_token plain_jwt_encode plain_jwt_decode sample_py_int
      sample_is_active (login_tokens plain_jwt_encode 1 0).1 5 sample_world
    = HTTPException HTTP_401_UNAUTHORIZED "Invalid refresh token".
Proof.
  assert (Ha : plain_jwt_decode
                 (plain_jwt_encode
                    (token_claims {["sub" := PInt 1]} 1800 "access"))
               = Some (token_claims {["sub" := PInt 1]} 1800 "access"))
    by (vm_compute; reflexivity).
  assert (Hr : plain_jwt_decode
                 (plain_jwt_encode
                    (token_claims {["sub" := PInt 1]} 604800 "refresh"))
               = Some (token_claims {["sub" := PInt 1]} 604800 "refresh"))
    by (vm_compute; reflexivity).
  split; [exact Hr|].
  destruct (token_kinds_apart plain_jwt_encode plain_jwt_decode sample_py_int
              sample_is_active 1 0 5 9%nat sample_world Ha Hr)
    as (Hrest & _ & Hrefresh).
  split; [exact Hrest|exact Hrefresh].
Defined.

(** [refresh_token_contract]: the refresh token of user 3, who was
    deactivated after the login. *)
Lemma refresh_token_contract_witness :
  plain_jwt_decode
    (plain_jwt_encode (token_claims {["sub" := PInt 3]} 604800 "refresh"))
  = Some (token_claims {["sub" := PInt 3]} 604800 "refresh")
  ∧ sample_py_int (PStr (pretty 3)) = Some 3
  ∧ sample_is_active 3 = false
  ∧ refresh_token plain_jwt_encode plain_jwt_decode sample_py_int
      sample_is_active (login_tokens plain_jwt_encode 3 0).2 5 sample_world
    = HTTPException HTTP_401_UNAUTHORIZED "Invalid user".
Proof.
  assert (Hr : plain_jwt_decode
                 (plain_jwt_encode
                    (token_claims {["sub" := PInt 3]} 604800 "refresh"))
               = Some (token_claims {["sub" := PInt 3]} 604800 "refresh"))
    by (vm_compute; reflexivity).
  assert (Hint : sample_py_int (PStr (pretty 3)) = Some 3)
    by (vm_compute; reflexivity).
  split; [exact Hr|]. split; [exact Hint|]. split; [reflexivity|].
  destruct (refresh_token_contract plain_jwt_encode plain_jwt_decode
              sample_py_int sample_is_active 3 0 5 sample_world Hr Hint)
    as [_ H].
  apply H. right. reflexivity.
Defined.

(** [socket_admits_refused_accounts]: user 2 has not verified the email
    address. *)
Lemma socket_admits_refused_accounts_witness :
  get_current_verified_user plain_jwt_decode sample_py_int sample_is_active
    sample_is_verified "2:access:1800" sample_world
  = Denied HTTP_403_FORBIDDEN
      "Email not verified. Please verify your email first."
  ∧ route_get_conversations plain_jwt_decode sample_py_int sample_is_active
      sample_is_verified "2:access:1800" sample_world
    = (Return (HTTPException HTTP_403_FORBIDDEN
                 "Email not verified. Please verify your email first."),
       sample_world)
  ∧ ∃ user_id,
      websocket_connect plain_jwt_decode 9%nat "2:access:1800" 5 sample_world
      = (Return (Some user_id), registered 9%nat user_id 5 sample_world).
Proof.
  assert (Hdep : get_current_verified_user plain_jwt_decode sample_py_int
                   sample_is_active sample_is_verified "2:access:1800"
                   sample_world
                 = Denied HTTP_403_FORBIDDEN
                     "Email not verified. Please verify your email first.")
    by (vm_compute; reflexivity).
  split; [exact Hdep|].
  destruct (socket_admits_refused_accounts plain_jwt_decode SQLite
              sample_py_int
              sample_is_active sample_is_verified "2:access:1800"
              sample_world HTTP_403_FORBIDDEN
              "Email not verified. Please verify your email first." 9%nat 5
              Hdep (or_intror (or_intror eq_refl)))
    as (_ & _ & Hroute & Hsocket).
  split; [exact Hroute|exact Hsocket].
Defined.

(** [online_flag_lifecycle]: user 1 connected at 0 and is still in the
    loop at 400. *)
Lemma online_flag_lifecycle_witness :
  token_accepted plain_jwt_decode "1:access:1800" (PStr "1")
  ∧ py_str (PInt 1) = py_str (PStr "1")
  ∧ sample_json_loads "1" = Some (PInt 1)
  ∧ (is_user_online sample_json_loads (PInt 1) 400
       (receive_loop coercing_int_col plain_text_col 7%nat (PStr "1")
          [(sample_message_frame, 50)]
          (websocket_connect plain_jwt_decode 7%nat "1:access:1800" 0
             empty_world).2).2).1
    = Return false.
Proof.
  assert (H : token_accepted plain_jwt_decode "1:access:1800" (PStr "1")).
  { exists (token_claims {["sub" := PInt 1]} 1800 "access").
    repeat split; vm_compute; reflexivity. }
  assert (Hq : py_str (PInt 1) = py_str (PStr "1"))
    by (vm_compute; reflexivity).
  assert (Hjson : sample_json_loads "1" = Some (PInt 1))
    by (vm_compute; reflexivity).
  assert (Hlate : 0 + 300 < 400) by lia.
  split; [exact H|]. split; [exact Hq|]. split; [exact Hjson|].
  destruct (online_flag_lifecycle plain_jwt_decode coercing_int_col
              plain_text_col sample_json_loads 7%nat "1:access:1800" 0
              [(sample_message_frame, 50)] empty_world (PStr "1") (PInt 1)
              400 H Hq Hjson) as [_ Hoff].
  destruct (Hoff Hlate) as [Hstreaming _]. exact Hstreaming.
Defined.

(** [verification_code_round_trip]: a code without leading zero comes
    back as a number. *)
Lemma verification_code_round_trip_witness :
  60 < 0 + 15 * 60
  ∧ (get_verification_code sample_json_loads "bob@example.org" 60
       (store_verification_code "bob@example.org" "482913" 15 0
          empty_world).2).1
    = Return (PInt 482913).
Proof.
  assert (Hlive : 60 < 0 + 15 * 60) by lia.
  assert (Hne : "482913" ≠ "") by discriminate.
  split; [exact Hlive|].
  destruct (verification_code_round_trip sample_json_loads "bob@example.org"
              "482913" 15 0 60 empty_world Hlive Hne) as [H _].
  rewrite H. vm_compute. reflexivity.
Defined.

(** [get_conversations_contract] for user 1 in the sample world: the
    summaries of users 3 and 2, in this order, one unread message
    each. *)
Lemma get_conversations_contract_witness :
  ∃ body, get_conversations 1 sample_world
          = (Return (Response HTTP_200_OK body), sample_world)
    ∧ ConversationResponse.user_id <$> body = [3; 2]
    ∧ ConversationResponse.unread_count <$> body = [1; 1]
    ∧ ConversationResponse.last_message_time <$> body = [30; 20].
Proof.
  destruct (get_conversations_contract 1 sample_world)
    as (body & Hrun & _).
  assert (E : get_conversations 1 sample_world
              = (Return (Response HTTP_200_OK
                   [ ConversationResponse.Build 3 "carol" None
                       "01234567890123456789012345678901234567890123456789"
                       30 1;
                     ConversationResponse.Build 2 "bob" (Some "bob.png")
                       "hello" 20 1 ]), sample_world))
    by (vm_compute; reflexivity).
  exists body. split; [exact Hrun|].
  rewrite E in Hrun. injection Hrun as <-.
  repeat split; reflexivity.
Defined.
